(** * Waitress task engine: a shallow embedding of [waitress/task.py] and
    [waitress/adjustments.py], and the properties checked against it.

    Python text is modelled by [string] (a sequence of 8-bit characters, i.e.
    Latin-1 code points, which is what [tobytes] accepts); Python integers by
    [Z]; dictionaries used as maps by [gmap]; the thread table by [gset].
    Methods that mutate the task, write to the channel or log are functions in
    a state-and-exception monad [M]: a raised exception keeps every mutation
    made before it, as in Python. *)

From Stdlib Require Import ZArith Ascii String List Bool Lia.
From Stdlib Require Import Sorted Permutation.
From stdpp Require Import gmap strings list fin_maps.

Local Open Scope string_scope.
Local Open Scope list_scope.
Local Open Scope Z_scope.

(** ** Python built-ins used by the source *)

Module Py.

(** [str.isspace] on code points below 256. *)
Definition is_space (c : ascii) : bool :=
  let n := nat_of_ascii c in
  ((9 <=? n) && (n <=? 13) || (28 <=? n) && (n <=? 32) ||
   (n =? 133) || (n =? 160))%nat.

(** [ch.lower()] on code points below 256: the ASCII capitals and the
    Latin-1 capitals U+00C0..U+00DE (U+00D7, the times sign, apart). *)
Definition lower_char (c : ascii) : ascii :=
  let n := nat_of_ascii c in
  if ((65 <=? n) && (n <=? 90) ||
      (192 <=? n) && (n <=? 222) && negb (n =? 215))%nat
  then ascii_of_nat (n + 32) else c.

(** [ch.upper()] where the result is again below 256: the ASCII small letters
    and U+00E0..U+00FE (U+00F7 apart).  The three Latin-1 letters whose
    capital lies outside Latin-1 (U+00B5, U+00DF, U+00FF) are left alone. *)
Definition upper_char (c : ascii) : ascii :=
  let n := nat_of_ascii c in
  if ((97 <=? n) && (n <=? 122) ||
      (224 <=? n) && (n <=? 254) && negb (n =? 247))%nat
  then ascii_of_nat (n - 32) else c.

Fixpoint map_chars (f : ascii -> ascii) (s : string) : string :=
  match s with
  | EmptyString => EmptyString
  | String c r => String (f c) (map_chars f r)
  end.

(** [s.lower()] *)
Definition lower (s : string) : string := map_chars lower_char s.

(** [s.upper()] *)
Definition upper (s : string) : string := map_chars upper_char s.

(** [s.capitalize()] *)
Definition capitalize (s : string) : string :=
  match s with
  | EmptyString => EmptyString
  | String c r => String (upper_char c) (lower r)
  end.

Fixpoint lstrip_by (p : ascii -> bool) (s : string) : string :=
  match s with
  | EmptyString => EmptyString
  | String c r => if p c then lstrip_by p r else s
  end.

Fixpoint rstrip_by (p : ascii -> bool) (s : string) : string :=
  match s with
  | EmptyString => EmptyString
  | String c r =>
      match rstrip_by p r with
      | EmptyString => if p c then EmptyString else String c EmptyString
      | r' => String c r'
      end
  end.

Definition strip_by (p : ascii -> bool) (s : string) : string :=
  rstrip_by p (lstrip_by p s).

(** [s.strip()] *)
Definition strip (s : string) : string := strip_by is_space s.

(** [s.strip(ch)] and [s.lstrip(ch)] for a one-character argument *)
Definition strip_char (ch : ascii) (s : string) : string :=
  strip_by (Ascii.eqb ch) s.
Definition lstrip_char (ch : ascii) (s : string) : string :=
  lstrip_by (Ascii.eqb ch) s.

(** [ch in s] *)
Fixpoint contains (ch : ascii) (s : string) : bool :=
  match s with
  | EmptyString => false
  | String c r => Ascii.eqb ch c || contains ch r
  end.

(** [s.startswith(p)] *)
Definition startswith (p s : string) : bool := String.prefix p s.

(** [s.split(sep)] for a one-character separator: never the empty list. *)
Fixpoint split (sep : ascii) (s : string) : list string :=
  match s with
  | EmptyString => [EmptyString]
  | String c r =>
      if Ascii.eqb sep c then EmptyString :: split sep r
      else match split sep r with
           | w :: ws => String c w :: ws
           | [] => [String c EmptyString]
           end
  end.

(** [s.split(sep, 1)]: one piece, or the text before and after the first
    separator. *)
Fixpoint split1 (sep : ascii) (s : string) : list string :=
  match s with
  | EmptyString => [EmptyString]
  | String c r =>
      if Ascii.eqb sep c then [EmptyString; r]
      else match split1 sep r with
           | w :: ws => String c w :: ws
           | [] => [String c EmptyString]
           end
  end.

(** [s.rsplit(sep, 1)] when [sep in s]: the text before and after the last
    separator; [None] when the separator does not occur. *)
Fixpoint rsplit1 (sep : ascii) (s : string) : option (string * string) :=
  match s with
  | EmptyString => None
  | String c r =>
      match rsplit1 sep r with
      | Some (a, b) => Some (String c a, b)
      | None => if Ascii.eqb sep c then Some (EmptyString, r) else None
      end
  end.

(** [s[-1]] *)
Fixpoint last_char (s : string) : option ascii :=
  match s with
  | EmptyString => None
  | String c EmptyString => Some c
  | String _ r => last_char r
  end.

(** [sep.join(l)] *)
Definition join (sep : string) (l : list string) : string :=
  String.concat sep l.

(** [len(s)] *)
Definition len (s : string) : Z := Z.of_nat (String.length s).

(** [s[:k]] for any integer [k]: a negative bound counts from the end. *)
Definition slice_to (k : Z) (s : string) : string :=
  if 0 <=? k then String.substring 0 (Z.to_nat k) s
  else String.substring 0 (Z.to_nat (len s + k)) s.

(** [s[k:]] for a bound [0 <= k]. *)
Definition slice_from (k : nat) (s : string) : string :=
  String.substring k (String.length s - k) s.

Definition digit_char (d : nat) : ascii :=
  ascii_of_nat (if (d <? 10)%nat then 48 + d else 55 + d).

Fixpoint digits_fuel (fuel : nat) (base n : N) (acc : string) : string :=
  match fuel with
  | O => acc
  | S f =>
      let acc' := String (digit_char (N.to_nat (n mod base))) acc in
      if (n / base =? 0)%N then acc' else digits_fuel f base (n / base) acc'
  end.

Definition digits (base n : N) : string :=
  digits_fuel (S (N.to_nat (N.log2 n))) base n EmptyString.

(** [str(n)] for an integer *)
Definition str_of_Z (n : Z) : string :=
  if n <? 0 then String "-" (digits 10 (Z.to_N (- n)))
  else digits 10 (Z.to_N n).

(** [hex(n)[2:].upper()] for [0 <= n] *)
Definition hex_upper (n : Z) : string := digits 16 (Z.to_N n).

Definition is_digit (c : ascii) : bool :=
  let n := nat_of_ascii c in ((48 <=? n) && (n <=? 57))%nat.

(** Value of a digit string in which single underscores may separate digits
    ([prev] tells whether the previous character was a digit). *)
Fixpoint int_digits (s : string) (prev : bool) (acc : Z) : option Z :=
  match s with
  | EmptyString => if prev then Some acc else None
  | String c r =>
      if is_digit c
      then int_digits r true (10 * acc + Z.of_nat (nat_of_ascii c - 48))
      else if Ascii.eqb c "_" && prev then int_digits r false acc
      else None
  end.

(** [int(s)] for a text [s] (base 10): surrounding whitespace, an optional
    sign, digits.  [None] stands for the [ValueError]. *)
Definition int_of_str (s : string) : option Z :=
  match strip s with
  | String "-" r => option_map Z.opp (int_digits r false 0)
  | String "+" r => int_digits r false 0
  | r => int_digits r false 0
  end.

(** [sorted(l, key=key)] on text keys: a stable sort, ascending in the
    code-point order of the keys. *)
Section Sorted.
Context {A : Type} (key : A -> string).

Fixpoint insert_sorted (x : A) (l : list A) : list A :=
  match l with
  | [] => [x]
  | y :: r =>
      if String.leb (key x) (key y) then x :: l
      else y :: insert_sorted x r
  end.

Definition sorted (l : list A) : list A := foldr insert_sorted [] l.

End Sorted.

End Py.

(** ** [waitress/adjustments.py] *)

Module Adjustments.

(** The values [asbool] is applied to. *)
Inductive value :=
| VNone
| VBool (b : bool)
| VInt (n : Z)
| VStr (s : string).


Definition truthy : list string := ["t"; "true"; "y"; "yes"; "on"; "1"].


End Adjustments.

(** ** [ThreadedTaskDispatcher] of [waitress/task.py]

    The handler threads and the callers of [set_thread_count] interleave.
    Every block below runs without interruption in the source: the bodies
    under [thread_mgmt_lock], and one turn of a handler's loop (the queue
    has its own lock, and [task.service()] touches nothing of the
    dispatcher). *)

Module Dispatcher.

(** What [task.service()] does to the handler thread that runs it. *)
Inductive service_outcome :=
| Returns            (* returns normally *)
| Fails              (* raises an Exception that is not JustTesting *)
| FailsJustTesting.  (* raises JustTesting *)

(** A queue entry is a task or [None], the value that kills a thread. *)

(** Where a started handler thread is: in its [while] loop, or out of it and
    about to run the [finally] block. *)
Inductive phase := InLoop | Leaving.

#[global] Instance phase_eq_dec : EqDecision phase.
Proof. solve_decision. Defined.

Record dispatcher := mkDispatcher {
  threads : gset nat;            (* keys of [self.threads] *)
  stop_count : Z;
  queue : list (option service_outcome);
  handlers : list (nat * phase)  (* started handler threads, by thread_no *)
}.

(** [ThreadedTaskDispatcher()] *)
Definition init : dispatcher := mkDispatcher ∅ 0 [] [].

(** [while thread_no in threads: thread_no = thread_no + 1] *)
Fixpoint next_free (fuel : nat) (ts : gset nat) (thread_no : nat) : nat :=
  match fuel with
  | O => thread_no
  | S f =>
      if decide (thread_no ∈ ts) then next_free f ts (S thread_no)
      else thread_no
  end.

(** The [while running < count] loop, for its [k] turns. *)
Fixpoint start_threads (k : nat) (d : dispatcher) (thread_no : nat)
  : dispatcher :=
  match k with
  | O => d
  | S k' =>
      let no := next_free (S (size (threads d))) (threads d) thread_no in
      start_threads k'
        (mkDispatcher ({[no]} ∪ threads d) (stop_count d) (queue d)
                      (handlers d ++ [(no, InLoop)]))
        (S no)
  end.

Definition set_thread_count (count : Z) (d : dispatcher) : dispatcher :=
  let running := Z.of_nat (size (threads d)) - stop_count d in
  let d1 := start_threads (Z.to_nat (count - running)) d 0 in
  let running := Z.max running count in
  if count <? running then
    let to_stop := running - count in
    mkDispatcher (threads d1) (stop_count d1 + to_stop)
                 (queue d1 ++ replicate (Z.to_nat to_stop) None)
                 (handlers d1)
  else d1.


Fixpoint set_phase (no : nat) (ph : phase) (hs : list (nat * phase))
  : list (nat * phase) :=
  match hs with
  | [] => []
  | (n, p) :: r =>
      if decide (n = no) then (n, ph) :: r else (n, p) :: set_phase no ph r
  end.














End Dispatcher.

(** ** Collaborators of [waitress/task.py] that the source imports *)

Module Utilities.

Definition weekdayname : list string :=
  ["Mon"; "Tue"; "Wed"; "Thu"; "Fri"; "Sat"; "Sun"].

Definition monthname : list string :=
  [EmptyString; "Jan"; "Feb"; "Mar"; "Apr"; "May"; "Jun";
   "Jul"; "Aug"; "Sep"; "Oct"; "Nov"; "Dec"].

(** [%02d] *)
Definition pad2 (n : Z) : string :=
  if n <? 10 then "0" +:+ Py.str_of_Z n else Py.str_of_Z n.

(** [%4d] *)
Definition pad4 (n : Z) : string :=
  let s := Py.str_of_Z n in
  String.string_of_list_ascii
    (replicate (4 - String.length s)%nat " "%char) +:+ s.

(** Year, month and day of a day number counted from 1 January 1970. *)
Definition civil (days : Z) : Z * Z * Z :=
  let z := days + 719468 in
  let era := z / 146097 in
  let doe := z - era * 146097 in
  let yoe := (doe - doe / 1460 + doe / 36524 - doe / 146096) / 365 in
  let doy := doe - (365 * yoe + yoe / 4 - yoe / 100) in
  let mp := (5 * doy + 2) / 153 in
  let d := doy - (153 * mp + 2) / 5 + 1 in
  let m := if mp <? 10 then mp + 3 else mp - 9 in
  let y := yoe + era * 400 + (if m <=? 2 then 1 else 0) in
  (y, m, d).

(** Modelled from the spec: [build_http_date] of [waitress/utilities.py] is
    not part of the sources at hand.  The spec asks for "an RFC 1123 date
    formatted from [start_time] (GMT)"; [when] is the time in whole seconds
    since the epoch. *)
Definition build_http_date (when : Z) : string :=
  let days := when / 86400 in
  let secs := when mod 86400 in
  let '(year, month, day) := civil days in
  let wd := (days + 3) mod 7 in
  weekdayname !!! Z.to_nat wd +:+ ", " +:+ pad2 day +:+ " " +:+
  monthname !!! Z.to_nat month +:+ " " +:+ pad4 year +:+ " " +:+
  pad2 (secs / 3600) +:+ ":" +:+ pad2 (secs mod 3600 / 60) +:+ ":" +:+
  pad2 (secs mod 60) +:+ " GMT".

(** Modelled from the spec: [tobytes] of [waitress/compat.py] is not part of
    the sources at hand; it encodes text as bytes ("encode as ASCII bytes").
    Text and bytes share the type [string] here, one character per byte. *)
Definition tobytes (s : string) : string := s.

End Utilities.

(** ** [Task], [ErrorTask] and [WSGITask] of [waitress/task.py] *)

Module Task.

(** Exceptions, by class. *)
Inductive exn :=
| RuntimeError
| AssertionError
| ValueError
| IndexError
| SocketError            (* socket.error, raised by the channel *)
| AttributeError
| KeyError
| AppError (tag : string). (* an exception of the application's own *)

#[global] Instance exn_eq_dec : EqDecision exn.
Proof. solve_decision. Defined.

Inductive result (A : Type) :=
| Ok (a : A)
| Raise (e : exn).
Arguments Ok {A} a.
Arguments Raise {A} e.

(** Objects an application may pass where text is expected. *)
Inductive pyobj :=
| PStr (s : string)
| PBytes (b : string)
| PInt (n : Z)
| PNone.

(** What is handed to [channel.write_soon]. *)
Inductive payload :=
| Bytes (b : string)
| FileBuffer (size : Z).   (* a ReadOnlyFileBasedBuffer, prepared *)

(** The calls of [self.logger.warning], by message and arguments. *)
Inductive warning :=
| WriteExcess (cl : Z)
| WriteNoBody (status : string)
| TooFewBytes (written cl : Z)
| MultiProxyHeaders.

#[global] Instance warning_eq_dec : EqDecision warning.
Proof. solve_decision. Defined.

(** Values stored in the WSGI environment. *)
Inductive envval :=
| EStr (s : string)
| EInt (n : Z)
| EBool (b : bool)
| EVersion (major minor : Z)
| EStderr
| EBodyStream
| EFileWrapper.

#[global] Instance envval_eq_dec : EqDecision envval.
Proof. solve_decision. Defined.

(** [request.error] *)
Record error_t := mkError {
  code : Z;
  reason : string;
  body : string
}.

Record request_t := mkRequest {
  req_version : string;
  command : string;
  headers : gmap string string;
  path : string;
  query : string;
  url_scheme : string;
  error : option error_t
}.

(** What the application does with [start_response] and the [write] callable
    it returns, in the order it does it. *)
Inductive app_call :=
| CallStartResponse (status : pyobj) (headers : list (pyobj * pyobj))
                    (exc_info : option exn)
| CallWrite (data : string)
| AppRaise (e : exn).

(** The object the application returns. *)
Record app_iter_t := mkAppIter {
  is_rofbb : bool;                 (* its class is ReadOnlyFileBasedBuffer *)
  prepare : option Z -> Z;         (* [app_iter.prepare(cl)] *)
  iter_len : option Z;             (* [len(app_iter)], where it has one *)
  has_close : bool;                (* [hasattr(app_iter, 'close')] *)
  chunks : list (list app_call * string);
      (* each [next]: the calls made, then the chunk yielded *)
  at_end : list app_call           (* the calls made before StopIteration *)
}.

Record app_run := mkAppRun {
  app_calls : list app_call;       (* before the application returns *)
  app_iter : app_iter_t
}.

(** [channel.server], with [server.adj] *)
Record server_t := mkServer {
  application : gmap string envval -> app_run;
  server_name : string;
  effective_port : Z;
  trusted_proxy : bool;            (* truth value of server.trusted_proxy *)
  adj_ident : string;
  adj_trusted_proxy : option string;
  adj_url_prefix : string;
  adj_log_socket_errors : bool
}.

(** A task, with the state of its collaborators: what the channel was handed
    so far, how many more [write_soon] calls the socket takes ([None]: all),
    and what was logged. *)
Record task := mkTask {
  request : request_t;
  server : server_t;
  addr : string * Z;               (* channel.addr *)
  version : string;
  response_headers : list (string * string);
  close_on_finish : bool;
  status : string;
  wrote_header : bool;
  start_time : Z;
  content_length : option Z;
  content_bytes_written : Z;
  logged_write_excess : bool;
  logged_write_no_body : bool;
  logged_multi_proxy_headers : bool;
  complete : bool;
  chunked_response : bool;
  environ : option (gmap string envval);
  written : list payload;
  socket_budget : option nat;
  log : list warning;
  iter_closed : bool
}.

(** [Task(channel, request)]; [complete] is a class attribute that
    [ErrorTask] overrides. *)
Definition new_task (complete0 : bool) (srv : server_t) (peer : string * Z)
    (budget : option nat) (req : request_t) : task :=
  let version := req_version req in
  let version :=
    if bool_decide (version ∈ ["1.0"; "1.1"]) then version else "1.0" in
  mkTask req srv peer version [] false "200 OK" false 0 None 0
         false false false complete0 false None [] budget [] false.

Definition Task_init := new_task false.
Definition WSGITask_init := new_task false.
Definition ErrorTask_init := new_task true.

(** *** Field updates *)

Definition set_response_headers v t :=
  mkTask (request t) (server t) (addr t) (version t) v (close_on_finish t)
    (status t) (wrote_header t) (start_time t) (content_length t)
    (content_bytes_written t) (logged_write_excess t)
    (logged_write_no_body t) (logged_multi_proxy_headers t) (complete t)
    (chunked_response t) (environ t) (written t) (socket_budget t) (log t)
    (iter_closed t).
Definition set_close_on_finish v t :=
  mkTask (request t) (server t) (addr t) (version t) (response_headers t) v
    (status t) (wrote_header t) (start_time t) (content_length t)
    (content_bytes_written t) (logged_write_excess t)
    (logged_write_no_body t) (logged_multi_proxy_headers t) (complete t)
    (chunked_response t) (environ t) (written t) (socket_budget t) (log t)
    (iter_closed t).
Definition set_status v t :=
  mkTask (request t) (server t) (addr t) (version t) (response_headers t)
    (close_on_finish t) v (wrote_header t) (start_time t) (content_length t)
    (content_bytes_written t) (logged_write_excess t)
    (logged_write_no_body t) (logged_multi_proxy_headers t) (complete t)
    (chunked_response t) (environ t) (written t) (socket_budget t) (log t)
    (iter_closed t).
Definition set_wrote_header v t :=
  mkTask (request t) (server t) (addr t) (version t) (response_headers t)
    (close_on_finish t) (status t) v (start_time t) (content_length t)
    (content_bytes_written t) (logged_write_excess t)
    (logged_write_no_body t) (logged_multi_proxy_headers t) (complete t)
    (chunked_response t) (environ t) (written t) (socket_budget t) (log t)
    (iter_closed t).
Definition set_start_time v t :=
  mkTask (request t) (server t) (addr t) (version t) (response_headers t)
    (close_on_finish t) (status t) (wrote_header t) v (content_length t)
    (content_bytes_written t) (logged_write_excess t)
    (logged_write_no_body t) (logged_multi_proxy_headers t) (complete t)
    (chunked_response t) (environ t) (written t) (socket_budget t) (log t)
    (iter_closed t).
Definition set_content_length v t :=
  mkTask (request t) (server t) (addr t) (version t) (response_headers t)
    (close_on_finish t) (status t) (wrote_header t) (start_time t) v
    (content_bytes_written t) (logged_write_excess t)
    (logged_write_no_body t) (logged_multi_proxy_headers t) (complete t)
    (chunked_response t) (environ t) (written t) (socket_budget t) (log t)
    (iter_closed t).
Definition set_content_bytes_written v t :=
  mkTask (request t) (server t) (addr t) (version t) (response_headers t)
    (close_on_finish t) (status t) (wrote_header t) (start_time t)
    (content_length t) v (logged_write_excess t)
    (logged_write_no_body t) (logged_multi_proxy_headers t) (complete t)
    (chunked_response t) (environ t) (written t) (socket_budget t) (log t)
    (iter_closed t).
Definition set_logged_write_excess v t :=
  mkTask (request t) (server t) (addr t) (version t) (response_headers t)
    (close_on_finish t) (status t) (wrote_header t) (start_time t)
    (content_length t) (content_bytes_written t) v
    (logged_write_no_body t) (logged_multi_proxy_headers t) (complete t)
    (chunked_response t) (environ t) (written t) (socket_budget t) (log t)
    (iter_closed t).
Definition set_logged_write_no_body v t :=
  mkTask (request t) (server t) (addr t) (version t) (response_headers t)
    (close_on_finish t) (status t) (wrote_header t) (start_time t)
    (content_length t) (content_bytes_written t) (logged_write_excess t)
    v (logged_multi_proxy_headers t) (complete t)
    (chunked_response t) (environ t) (written t) (socket_budget t) (log t)
    (iter_closed t).
Definition set_complete v t :=
  mkTask (request t) (server t) (addr t) (version t) (response_headers t)
    (close_on_finish t) (status t) (wrote_header t) (start_time t)
    (content_length t) (content_bytes_written t) (logged_write_excess t)
    (logged_write_no_body t) (logged_multi_proxy_headers t) v
    (chunked_response t) (environ t) (written t) (socket_budget t) (log t)
    (iter_closed t).
Definition set_chunked_response v t :=
  mkTask (request t) (server t) (addr t) (version t) (response_headers t)
    (close_on_finish t) (status t) (wrote_header t) (start_time t)
    (content_length t) (content_bytes_written t) (logged_write_excess t)
    (logged_write_no_body t) (logged_multi_proxy_headers t) (complete t)
    v (environ t) (written t) (socket_budget t) (log t) (iter_closed t).
Definition set_environ v t :=
  mkTask (request t) (server t) (addr t) (version t) (response_headers t)
    (close_on_finish t) (status t) (wrote_header t) (start_time t)
    (content_length t) (content_bytes_written t) (logged_write_excess t)
    (logged_write_no_body t) (logged_multi_proxy_headers t) (complete t)
    (chunked_response t) v (written t) (socket_budget t) (log t)
    (iter_closed t).
Definition set_channel w b t :=
  mkTask (request t) (server t) (addr t) (version t) (response_headers t)
    (close_on_finish t) (status t) (wrote_header t) (start_time t)
    (content_length t) (content_bytes_written t) (logged_write_excess t)
    (logged_write_no_body t) (logged_multi_proxy_headers t) (complete t)
    (chunked_response t) (environ t) w b (log t) (iter_closed t).
Definition set_log v t :=
  mkTask (request t) (server t) (addr t) (version t) (response_headers t)
    (close_on_finish t) (status t) (wrote_header t) (start_time t)
    (content_length t) (content_bytes_written t) (logged_write_excess t)
    (logged_write_no_body t) (logged_multi_proxy_headers t) (complete t)
    (chunked_response t) (environ t) (written t) (socket_budget t) v
    (iter_closed t).
Definition set_iter_closed v t :=
  mkTask (request t) (server t) (addr t) (version t) (response_headers t)
    (close_on_finish t) (status t) (wrote_header t) (start_time t)
    (content_length t) (content_bytes_written t) (logged_write_excess t)
    (logged_write_no_body t) (logged_multi_proxy_headers t) (complete t)
    (chunked_response t) (environ t) (written t) (socket_budget t) (log t)
    v.

(** *** The monad of methods *)

Definition M (A : Type) : Type := task -> task * result A.

Definition ret {A} (a : A) : M A := fun t => (t, Ok a).
Definition raise {A} (e : exn) : M A := fun t => (t, Raise e).
Definition bind {A B} (c : M A) (k : A -> M B) : M B :=
  fun t =>
    match c t with
    | (t', Ok a) => k a t'
    | (t', Raise e) => (t', Raise e)
    end.
Definition get : M task := fun t => (t, Ok t).
Definition modify (f : task -> task) : M unit := fun t => (f t, Ok tt).

(** [try: c finally: f] *)
Definition try_finally {A} (c : M A) (f : M unit) : M A :=
  fun t =>
    let '(t', r) := c t in
    match f t' with
    | (t'', Ok _) => (t'', r)
    | (t'', Raise e) => (t'', Raise e)
    end.

(** [if b: c] *)
Definition when (b : bool) (c : M unit) : M unit :=
  if b then c else ret tt.

Declare Scope task_scope.
Delimit Scope task_scope with task.
Notation "'do' x <- c ; k" := (bind c (fun x => k))
  (at level 10, x name, c at level 100, k at level 200) : task_scope.
Notation "'exec' c ; k" := (bind c (fun _ => k))
  (at level 10, c at level 100, k at level 200) : task_scope.
Local Open Scope task_scope.

(** [channel.write_soon(p)] *)
Definition write_soon (p : payload) : M unit :=
  fun t =>
    match socket_budget t with
    | Some O => (t, Raise SocketError)
    | Some (S n) => (set_channel (written t ++ [p]) (Some n) t, Ok tt)
    | None => (set_channel (written t ++ [p]) None t, Ok tt)
    end.

(** [self.logger.warning(...)] *)
Definition log_warning (w : warning) : M unit :=
  modify (fun t => set_log (log t ++ [w]) t).

Definition CRLF : string := String "013" (String "010" EmptyString).
Definition CR : ascii := "013"%char.
Definition LF : ascii := "010"%char.
Definition DQUOTE : ascii := "034"%char.

(** Truth value of a text, and of a text that may be [None]. *)
Definition nonempty (s : string) : bool :=
  match s with EmptyString => false | _ => true end.
Definition truthy (o : option string) : bool :=
  match o with Some s => nonempty s | None => false end.

(** *** [Task] *)

Definition has_body (t : task) : bool :=
  negb (Py.startswith "1" (status t) ||
        Py.startswith "204" (status t) ||
        Py.startswith "304" (status t)).

Definition cancel : M unit := modify (set_close_on_finish true).

Definition defer : M unit := ret tt.

(** ['-'.join([x.capitalize() for x in headername.split('-')])] *)
Definition recase (headername : string) : string :=
  Py.join "-" (map Py.capitalize (Py.split "-" headername)).

(** The locals of [build_response_header] that its first loop sets. *)
Record header_scan := mkScan {
  scanned : list (string * string);        (* response_headers *)
  content_length_header : option string;
  date_header : option string;
  server_header : option string;
  connection_close_header : option string
}.

(** The loop over [self.response_headers]. *)
Fixpoint scan_headers (hb : bool) (hs : list (string * string))
    (l : header_scan) : header_scan :=
  match hs with
  | [] => l
  | (headername, headerval) :: r =>
      let headername := recase headername in
      if String.eqb headername "Content-Length" && negb hb
      then scan_headers hb r l                       (* continue *)
      else
        scan_headers hb r
          (mkScan
             (scanned l ++ [(headername, headerval)])
             (if String.eqb headername "Content-Length"
              then Some headerval else content_length_header l)
             (if String.eqb headername "Date"
              then Some headerval else date_header l)
             (if String.eqb headername "Server"
              then Some headerval else server_header l)
             (if String.eqb headername "Connection"
              then Some (Py.lower headerval)
              else connection_close_header l))
  end.

(** The synthesised Content-Length. *)
Definition add_content_length (t : task) (l : header_scan) : header_scan :=
  match content_length_header l, content_length t with
  | None, Some cl =>
      if has_body t then
        mkScan (scanned l ++ [("Content-Length", Py.str_of_Z cl)])
               (Some (Py.str_of_Z cl)) (date_header l) (server_header l)
               (connection_close_header l)
      else l
  | _, _ => l
  end.

(** The inner function [close_on_finish()], on the local header list and
    the task. *)
Definition close_on_finish_fn (l : header_scan)
    (st : list (string * string) * task) : list (string * string) * task :=
  ((match connection_close_header l with
    | None => st.1 ++ [("Connection", "close")]
    | Some _ => st.1
    end),
   set_close_on_finish true st.2).

(** The branch on the version; [None] is the [AssertionError]. *)
Definition connection_policy (connection : string) (l : header_scan)
    (t : task) : option (list (string * string) * task) :=
  let st := (scanned l, t) in
  if String.eqb (version t) "1.0" then
    Some
      (if String.eqb connection "keep-alive" then
         if negb (truthy (content_length_header l))
         then close_on_finish_fn l st
         else (st.1 ++ [("Connection", "Keep-Alive")], st.2)
       else close_on_finish_fn l st)
  else if String.eqb (version t) "1.1" then
    let st :=
      if String.eqb connection "close" then close_on_finish_fn l st
      else st in
    Some
      (if negb (truthy (content_length_header l)) then
         let st :=
           if has_body t
           then (st.1 ++ [("Transfer-Encoding", "chunked")],
                 set_chunked_response true st.2)
           else st in
         if negb (close_on_finish st.2) then close_on_finish_fn l st
         else st
       else st)
  else None.

(** The Server, Via and Date fields. *)
Definition identity_headers (l : header_scan) (t : task)
    (hs : list (string * string)) : list (string * string) :=
  let ident := adj_ident (server t) in
  let hs :=
    if negb (truthy (server_header l)) then
      if nonempty ident then hs ++ [("Server", ident)] else hs
    else hs ++ [("Via", if nonempty ident then ident else "waitress")] in
  if negb (truthy (date_header l))
  then hs ++ [("Date", Utilities.build_http_date (start_time t))]
  else hs.

(** ['%s: %s' % hv] *)
Definition header_line (hv : string * string) : string :=
  hv.1 +:+ ": " +:+ hv.2.

(** The serialisation at the end of [build_response_header]. *)
Definition serialise (t : task) : string :=
  let first_line := "HTTP/" +:+ version t +:+ " " +:+ status t in
  let next_lines := map header_line (Py.sorted fst (response_headers t)) in
  let lines := first_line :: next_lines in
  Utilities.tobytes (Py.join CRLF lines +:+ CRLF +:+ CRLF).

Definition build_response_header : M string :=
  fun t =>
    let connection :=
      Py.lower (default EmptyString (headers (request t) !! "CONNECTION")) in
    let l := scan_headers (has_body t) (response_headers t)
                          (mkScan [] None None None None) in
    let l := add_content_length t l in
    match connection_policy connection l t with
    | None => (t, Raise AssertionError)
    | Some (hs, t) =>
        let t := set_response_headers (identity_headers l t hs) t in
        (t, Ok (serialise t))
    end.

Definition remove_content_length_header : M unit :=
  modify (fun t =>
    set_response_headers
      (filter (fun h => negb (String.eqb (Py.lower h.1) "content-length"))
              (response_headers t)) t).

(** [start]; [now] is what [time.time()] returns. *)
Definition start (now : Z) : M unit := modify (set_start_time now).

(** The first part of [write]: the prologue, on the first call. *)
Definition flush_header : M unit :=
  do t <- get;
  when (negb (wrote_header t))
    (do rh <- build_response_header;
     exec write_soon (Bytes rh);
     modify (set_wrote_header true)).

(** The second part of [write]: the [if data and self.has_body] statement. *)
Definition write_body (data : string) : M unit :=
  do t <- get;
  if nonempty data && has_body t then
    let cl := content_length t in
    do towrite <-
      (if chunked_response t then
         ret (Utilities.tobytes (Py.hex_upper (Py.len data)) +:+ CRLF +:+
              data +:+ CRLF)
       else
         match cl with
         | Some cl =>
             let towrite :=
               Py.slice_to (cl - content_bytes_written t) data in
             exec modify (set_content_bytes_written
                            (content_bytes_written t + Py.len towrite));
             exec (when (negb (String.eqb towrite data) &&
                         negb (logged_write_excess t))
                     (exec log_warning (WriteExcess cl);
                      modify (set_logged_write_excess true)));
             ret towrite
         | None => ret data
         end);
    when (nonempty towrite) (write_soon (Bytes towrite))
  else
    exec modify (set_content_bytes_written
                   (content_bytes_written t + Py.len data));
    when (negb (logged_write_no_body t))
      (exec log_warning (WriteNoBody (status t));
       modify (set_logged_write_no_body true)).

Definition write (data : string) : M unit :=
  do t <- get;
  if negb (complete t) then raise RuntimeError else
  exec flush_header;
  write_body data.

Definition finish : M unit :=
  do t <- get;
  exec when (negb (wrote_header t)) (write EmptyString);
  do t <- get;
  when (chunked_response t)
    (write_soon (Bytes (String "0" (CRLF +:+ CRLF)))).

(** [service], for a task whose [execute] is [execute]. *)
Definition service (execute : M unit) (now : Z) : M unit :=
  fun t =>
    match (exec start now; exec execute; finish) t with
    | (t', Raise SocketError) =>
        let t' := set_close_on_finish true t' in
        if adj_log_socket_errors (server t') then (t', Raise SocketError)
        else (t', Ok tt)
    | r => r
    end.

(** *** [ErrorTask] *)

Module ErrorTask.

Definition execute : M unit :=
  do t <- get;
  match error (request t) with
  | None => raise AttributeError
  | Some e =>
      let body := reason e +:+ CRLF +:+ CRLF +:+ body e in
      let tag := CRLF +:+ CRLF +:+ "(generated by waitress)" in
      let body := body +:+ tag in
      exec modify (set_status (Py.str_of_Z (code e) +:+ " " +:+ reason e));
      let cl := Py.len body in
      exec modify (set_content_length (Some cl));
      let append h :=
        modify (fun t => set_response_headers (response_headers t ++ [h]) t) in
      exec append ("Content-Length", Py.str_of_Z cl);
      exec append ("Content-Type", "text/plain");
      exec (if String.eqb (version t) "1.1" then
              let connection :=
                Py.lower (default EmptyString
                            (headers (request t) !! "CONNECTION")) in
              when (String.eqb connection "close")
                   (append ("Connection", "close"))
            else append ("Connection", "close"));
      exec modify (set_close_on_finish true);
      write (Utilities.tobytes body)
  end.

End ErrorTask.

(** *** [WSGITask] *)

Module WSGITask.

Definition rename_headers : gmap string string :=
  {[ "CONTENT_LENGTH" := "CONTENT_LENGTH"; "CONTENT_TYPE" := "CONTENT_TYPE" ]}.

Definition hop_by_hop : list string :=
  ["connection"; "keep-alive"; "proxy-authenticate"; "proxy-authorization";
   "te"; "trailers"; "transfer-encoding"; "upgrade"].

(** ['\n' in s or '\r' in s] *)
Definition has_crlf (s : string) : bool :=
  Py.contains LF s || Py.contains CR s.

(** The loop [for k, v in headers] of [start_response]; it yields the
    headers as text, for the [extend] that follows it. *)
Fixpoint check_headers (hs : list (pyobj * pyobj))
  : M (list (string * string)) :=
  match hs with
  | [] => ret []
  | (k, v) :: r =>
      match k, v with
      | PStr k, PStr v =>
          if has_crlf v then raise ValueError
          else if has_crlf k then raise ValueError
          else
            let kl := Py.lower k in
            exec (if String.eqb kl "content-length" then
                    match Py.int_of_str v with
                    | Some n => modify (set_content_length (Some n))
                    | None => raise ValueError
                    end
                  else if bool_decide (kl ∈ hop_by_hop)
                       then raise AssertionError
                       else ret tt);
            do r' <- check_headers r;
            ret ((k, v) :: r')
      | _, _ => raise AssertionError
      end
  end.

(** [start_response(status, headers, exc_info)]; the [write] method it
    returns is [Task.write]. *)
Definition start_response (status : pyobj) (headers : list (pyobj * pyobj))
    (exc_info : option exn) : M unit :=
  do t <- get;
  if complete t && negb (bool_decide (is_Some exc_info))
  then raise AssertionError else
  exec (match exc_info with
        | Some e =>
            if wrote_header t then raise e
            else modify (set_response_headers [])
        | None => ret tt
        end);
  exec modify (set_complete true);
  match status with
  | PStr status =>
      if has_crlf status then raise ValueError else
      exec modify (set_status status);
      do hs <- check_headers headers;
      modify (fun t => set_response_headers (response_headers t ++ hs) t)
  | _ => raise AssertionError
  end.

(** **** Proxy headers *)

Record proxy_locals := mkProxy {
  forwarded_for : option (list string);
  client_addr : option string;
  forwarded_host : option string;
  forwarded_proto : option string;
  forwarded_port : option envval;
  forwarded_by : option string
}.

Definition rbind {A B} (r : result A) (k : A -> result B) : result B :=
  match r with Ok a => k a | Raise e => Raise e end.

(** [':' in s and s[-1] != ']'] *)
Definition has_port (s : string) : bool :=
  Py.contains ":" s && negb (bool_decide (Py.last_char s = Some "]"%char)).

(** The loop over [headers['X_FORWARDED_FOR'].split(',')]. *)
Definition x_forwarded_hop (forward_hop : string) : string :=
  let forward_hop := Py.strip forward_hop in
  if has_port forward_hop then "[" +:+ forward_hop +:+ "]" else forward_hop.

Definition _undquote (myval : string) : string :=
  if Py.contains DQUOTE myval
  then Py.strip_char DQUOTE (Py.strip myval)
  else myval.

(** [parameter.split('=', 1)[1]] *)
Definition after_equals (parameter : string) : result string :=
  match Py.split1 "=" parameter with
  | _ :: v :: _ => Ok v
  | _ => Raise IndexError
  end.

(** The loop [for for_param in parameter.split(',')]; [acc] is
    [forwarded_for]. *)
Fixpoint for_params (parameter : string) (hops : list string)
    (acc : list string) : result (list string) :=
  match hops with
  | [] => Ok acc
  | for_param :: r =>
      let for_param := Py.strip for_param in
      if negb (Py.startswith "for" for_param) then Raise ValueError
      else
        rbind (after_equals parameter) (fun v =>
        for_params parameter r (acc ++ [_undquote v]))
  end.

(** One turn of the loop [for parameter in forwarded.split(';')]. *)
Definition forwarded_parameter (parameter : string) (l : proxy_locals)
  : result proxy_locals :=
  let parameter := Py.lower (Py.strip parameter) in
  rbind
    (if Py.startswith "by" parameter then
       rbind (after_equals parameter) (fun v =>
       Ok (mkProxy (forwarded_for l) (client_addr l) (forwarded_host l)
                   (forwarded_proto l) (forwarded_port l)
                   (Some (_undquote v))))
     else Ok l) (fun l =>
  rbind
    (if Py.startswith "for" parameter then
       rbind (for_params parameter (Py.split "," parameter) []) (fun ff =>
       Ok (mkProxy (Some (tail ff)) (head ff) (forwarded_host l)
                   (forwarded_proto l) (forwarded_port l) (forwarded_by l)))
     else Ok l) (fun l =>
  rbind
    (if Py.startswith "host" parameter then
       rbind (after_equals parameter) (fun v =>
       Ok (mkProxy (forwarded_for l) (client_addr l) (Some (_undquote v))
                   (forwarded_proto l) (forwarded_port l) (forwarded_by l)))
     else Ok l) (fun l =>
  if Py.startswith "proto" parameter then
    rbind (after_equals parameter) (fun v =>
    Ok (mkProxy (forwarded_for l) (client_addr l) (forwarded_host l)
                (Some (Py.strip v)) (forwarded_port l) (forwarded_by l)))
  else Ok l))).

Fixpoint forwarded_parameters (ps : list string) (l : proxy_locals)
  : result proxy_locals :=
  match ps with
  | [] => Ok l
  | p :: r => rbind (forwarded_parameter p l) (forwarded_parameters r)
  end.

Definition x_forwarded_names : list string :=
  ["X_FORWARDED_FOR"; "X_FORWARDED_HOST"; "X_FORWARDED_PROTO";
   "X_FORWARDED_PORT"; "X_FORWARDED_BY"].

(** Truth value of [forwarded_port]: a text or an integer. *)
Definition port_truthy (o : option envval) : bool :=
  match o with
  | Some (EStr s) => nonempty s
  | Some (EInt n) => negb (n =? 0)
  | Some _ => true
  | None => false
  end.

(** The locals of [parse_proxy_headers] before its [if forwarded_proto:],
    with the header dictionary as the function leaves it. *)
Definition read_proxy_headers (headers : gmap string string)
  : M (proxy_locals * gmap string string) :=
  let '(client_addr, forwarded_for) :=
    match headers !! "X_FORWARDED_FOR" with
    | Some v =>
        let ff := map x_forwarded_hop (Py.split "," v) in
        (head ff, Some (tail ff))
    | None => (None, None)
    end in
  let forwarded_host := headers !! "X_FORWARDED_HOST" in
  let forwarded_proto := headers !! "X_FORWARDED_PROTO" in
  let forwarded_port := headers !! "X_FORWARDED_PORT" in
  let forwarded_by := headers !! "X_FORWARDED_BY" in
  let forwarded := headers !! "FORWARDED" in
  let l := mkProxy forwarded_for client_addr forwarded_host forwarded_proto
                   (EStr <$> forwarded_port) forwarded_by in
  if truthy forwarded then
    do t <- get;
    do lh <-
      (if (truthy forwarded_host || truthy forwarded_proto ||
           truthy forwarded_port || truthy forwarded_by) &&
          negb (logged_multi_proxy_headers t)
       then
         exec log_warning MultiProxyHeaders;
         ret (mkProxy None client_addr None None None None,
              foldr delete headers x_forwarded_names)
       else ret (l, headers));
    match forwarded_parameters
            (Py.split ";" (default EmptyString forwarded)) lh.1 with
    | Ok l => ret (l, lh.2)
    | Raise e => raise e
    end
  else ret (l, headers).

Definition parse_proxy_headers (environ : gmap string envval)
    (headers : gmap string string)
  : M (gmap string envval * gmap string string) :=
  do lh <- read_proxy_headers headers;
  let l := lh.1 in
  let forwarded_port := forwarded_port l in
  do ep <-
    (if truthy (forwarded_proto l) then
       let forwarded_proto :=
         Py.lower (default EmptyString (forwarded_proto l)) in
       if negb (bool_decide (forwarded_proto ∈ ["http"; "https"]))
       then raise ValueError
       else
         let environ := <["wsgi.url_scheme" := EStr forwarded_proto]> environ in
         let forwarded_port :=
           if negb (port_truthy forwarded_port) then
             let forwarded_port :=
               if String.eqb forwarded_proto "http"
               then Some (EInt 80) else forwarded_port in
             if String.eqb forwarded_proto "https"
             then Some (EInt 443) else forwarded_port
           else forwarded_port in
         ret (environ, forwarded_port)
     else ret (environ, forwarded_port));
  let '(environ, forwarded_port) := ep in
  let '(environ, forwarded_port) :=
    if truthy (forwarded_host l) then
      let forwarded_host := default EmptyString (forwarded_host l) in
      let '(host, forwarded_port) :=
        match (if has_port forwarded_host
               then Py.rsplit1 ":" forwarded_host else None) with
        | Some (host, port) =>
            (Py.strip host,
             if bool_decide (forwarded_port ≠ Some (EStr port))
             then Some (EStr port) else forwarded_port)
        | None => (Py.strip forwarded_host, forwarded_port)
        end in
      (<["HTTP_HOST" := EStr host]> (<["SERVER_NAME" := EStr host]> environ),
       forwarded_port)
    else (environ, forwarded_port) in
  let environ :=
    match forwarded_port with
    | Some p => if port_truthy forwarded_port
                then <["SERVER_PORT" := p]> environ else environ
    | None => environ
    end in
  let environ :=
    if truthy (client_addr l) then
      let client_addr := default EmptyString (client_addr l) in
      match (if has_port client_addr
             then Py.rsplit1 ":" client_addr else None) with
      | Some (addr, port) =>
          <["REMOTE_PORT" := EStr (Py.strip port)]>
            (<["REMOTE_ADDR" := EStr (Py.strip addr)]> environ)
      | None => <["REMOTE_ADDR" := EStr (Py.strip client_addr)]> environ
      end
    else environ in
  ret (environ, lh.2).

(** **** The environment *)

(** The loop [for key, value in headers.items()]. *)
Definition add_header (kv : string * string) (environ : gmap string envval)
  : gmap string envval :=
  let value := Py.strip kv.2 in
  let mykey := default ("HTTP_" +:+ kv.1) (rename_headers !! kv.1) in
  match environ !! mykey with
  | None => <[mykey := EStr value]> environ
  | Some _ => environ
  end.

Definition get_environment : M (gmap string envval) :=
  do t <- get;
  match environ t with
  | Some environ => ret environ
  | None =>
      let request := request t in
      let path := path request in
      let server := server t in
      let url_prefix := adj_url_prefix server in
      let path :=
        if Py.startswith "/" path
        then String "/" (Py.lstrip_char "/" path) else path in
      let path :=
        if nonempty url_prefix then
          if String.eqb path url_prefix then EmptyString
          else if Py.startswith (url_prefix +:+ "/") path
               then Py.slice_from (String.length url_prefix) path
               else path
        else path in
      let remote_peer := (addr t).1 in
      let environ : gmap string envval :=
        <["REMOTE_ADDR" := EStr remote_peer]> (
        <["QUERY_STRING" := EStr (query request)]> (
        <["PATH_INFO" := EStr path]> (
        <["SCRIPT_NAME" := EStr url_prefix]> (
        <["SERVER_PROTOCOL" := EStr ("HTTP/" +:+ version t)]> (
        <["SERVER_SOFTWARE" := EStr (adj_ident server)]> (
        <["SERVER_NAME" := EStr (server_name server)]> (
        <["SERVER_PORT" := EStr (Py.str_of_Z (effective_port server))]> (
        <["REQUEST_METHOD" := EStr (Py.upper (command request))]> ∅)))))))) in
      let headers := headers request in
      do eh <-
        (if bool_decide (Some remote_peer = adj_trusted_proxy server) ||
            trusted_proxy server
         then parse_proxy_headers environ headers
         else ret (<["REMOTE_PORT" := EStr (Py.str_of_Z (addr t).2)]> environ,
                   headers));
      let '(environ, headers) := eh in
      match environ !! "REMOTE_ADDR" with
      | None => raise KeyError
      | Some remote_addr =>
      let environ := <["REMOTE_HOST" := remote_addr]> environ in
      let environ := foldr add_header environ (reverse (map_to_list headers)) in
      let environ := <["wsgi.version" := EVersion 1 0]> environ in
      let environ :=
        match environ !! "wsgi.url_scheme" with
        | None => <["wsgi.url_scheme" := EStr (url_scheme request)]> environ
        | Some _ => environ
        end in
      let environ :=
        <["wsgi.input_terminated" := EBool true]> (
        <["wsgi.file_wrapper" := EFileWrapper]> (
        <["wsgi.input" := EBodyStream]> (
        <["wsgi.run_once" := EBool false]> (
        <["wsgi.multiprocess" := EBool false]> (
        <["wsgi.multithread" := EBool true]> (
        <["wsgi.errors" := EStderr]> environ)))))) in
      exec modify (set_environ (Some environ));
      ret environ
      end
  end.

(** **** [execute] *)

(** The application's calls, in order; the first that raises ends them. *)
Fixpoint run_calls (cs : list app_call) : M unit :=
  match cs with
  | [] => ret tt
  | CallStartResponse status headers exc_info :: r =>
      exec start_response status headers exc_info; run_calls r
  | CallWrite data :: r => exec write data; run_calls r
  | AppRaise e :: _ => raise e
  end.

(** The loop [for chunk in app_iter]; [first] tells whether
    [first_chunk_len] is still [None]. *)
Fixpoint iterate (it : app_iter_t) (first : bool)
    (items : list (list app_call * string)) : M unit :=
  match items with
  | [] => run_calls (at_end it)
  | (calls, chunk) :: r =>
      exec run_calls calls;
      exec (when first
              (do t <- get;
               match content_length t with
               | None =>
                   when (bool_decide (iter_len it = Some 1))
                        (modify (set_content_length (Some (Py.len chunk))))
               | Some _ => ret tt
               end));
      exec when (nonempty chunk) (write chunk);
      iterate it false r
  end.

(** The check after the loop, for too few bytes. *)
Definition check_too_few : M unit :=
  do t <- get;
  match content_length t with
  | Some cl =>
      when (negb (content_bytes_written t =? cl))
        (exec modify (set_close_on_finish true);
         when (negb (String.eqb (command (request t)) "HEAD"))
              (log_warning (TooFewBytes (content_bytes_written t) cl)))
  | None => ret tt
  end.

(** The file-wrapper path; [true] when it served the response. *)
Definition file_wrapper_path (it : app_iter_t) : M bool :=
  if is_rofbb it then
    do t <- get;
    let cl := content_length t in
    let size := prepare it cl in
    if negb (size =? 0) then
      exec (when (negb (bool_decide (cl = Some size)))
              (exec (when (bool_decide (is_Some cl))
                          remove_content_length_header);
               modify (set_content_length (Some size))));
      exec write EmptyString;
      exec write_soon (FileBuffer size);
      ret true
    else ret false
  else ret false.

Definition execute : M unit :=
  do env <- get_environment;
  do t <- get;
  let app := application (server t) env in
  exec run_calls (app_calls app);
  let app_iter := app_iter app in
  do served <- file_wrapper_path app_iter;
  if served then ret tt else
  try_finally
    (exec iterate app_iter true (chunks app_iter);
     check_too_few)
    (when (has_close app_iter) (modify (set_iter_closed true))).

(** **** Descriptions used in the statements below *)

(** Not a text, or a text with a CR or LF in it. *)
Definition bad_text (o : pyobj) : Prop :=
  match o with
  | PStr s => has_crlf s = true
  | _ => True
  end.

(** A header name that is hop-by-hop once lower-cased. *)
Definition hop_header (o : pyobj) : Prop :=
  match o with
  | PStr k => Py.lower k ∈ hop_by_hop
  | _ => False
  end.

(** A Content-Length header whose value [int] rejects. *)
Definition bad_length (h : pyobj * pyobj) : Prop :=
  match h with
  | (PStr k, PStr v) =>
      Py.lower k = "content-length" /\ Py.int_of_str v = None
  | _ => False
  end.

(** What is wrong with one header, for [check_headers]. *)
Definition bad_header (h : pyobj * pyobj) : Prop :=
  bad_text h.1 \/ bad_text h.2 \/ hop_header h.1 \/ bad_length h.


(** The headers as the objects the application passes. *)
Definition as_objects (hs : list (string * string)) : list (pyobj * pyobj) :=
  map (fun h => (PStr h.1, PStr h.2)) hs.

(** The warnings about too few bytes among those logged. *)
Definition too_few (ws : list warning) : list warning :=
  List.filter (fun w => match w with TooFewBytes _ _ => true | _ => false end)
              ws.

(** A method that, on a HEAD request, keeps the request and the server and
    logs no warning about too few bytes. *)
Definition quiet {A} (c : M A) : Prop :=
  forall t, command (request t) = "HEAD" ->
    request (c t).1 = request t /\ server (c t).1 = server t /\
    too_few (log (c t).1) = too_few (log t).

(** The state after the too-few-bytes check: a content length that the
    byte counter did not reach has closed the connection. *)
Definition short_closes (t : task) : Prop :=
  forall cl, content_length t = Some cl -> content_bytes_written t <> cl ->
             close_on_finish t = true.

End WSGITask.

(** *** Descriptions used in the statements below *)

(** The request's Connection header, lower-cased. *)
Definition request_connection (t : task) : string :=
  Py.lower (default EmptyString (headers (request t) !! "CONNECTION")).

(** The version is one the response builder knows. *)
Definition supported_version (t : task) : Prop :=
  version t = "1.0" \/ version t = "1.1".

(** The headers the task holds, re-cased, without a Content-Length that the
    status forbids: what the first loop of [build_response_header] keeps. *)
Definition kept_headers (hb : bool) (hs : list (string * string))
  : list (string * string) :=
  map (fun h => (recase h.1, h.2))
      (List.filter
         (fun h => negb (String.eqb (recase h.1) "Content-Length" && negb hb))
         hs).

(** No header of the list has the given canonical name. *)
Definition no_header (name : string) (hs : list (string * string)) : Prop :=
  Forall (fun h => recase h.1 <> name) hs.

(** The headers named [name], in the order of the list. *)
Definition named (name : string) (hs : list (string * string))
  : list (string * string) :=
  List.filter (fun h => String.eqb h.1 name) hs.


(** *** Sample tasks *)

Definition sample_server (app : app_run) : server_t :=
  mkServer (fun _ => app) "localhost" 8080 false "waitress" None
           EmptyString true.

Definition sample_request (version command : string)
    (headers : gmap string string) : request_t :=
  mkRequest version command headers "/" EmptyString "http" None.

Definition empty_iter : app_iter_t :=
  mkAppIter false (fun _ => 0) None false [] [].

Definition sample_task (version command : string)
    (headers : gmap string string) (app : app_run) : task :=
  WSGITask_init (sample_server app) ("127.0.0.1", 50000) None
                (sample_request version command headers).

(** An application that has not been called yet. *)
Definition idle_app : app_run := mkAppRun [] empty_iter.

(** An application that declares ten bytes and yields nothing. *)
Definition short_app : app_run :=
  mkAppRun [CallStartResponse (PStr "200 OK")
              [(PStr "Content-Length", PStr "10")] None]
           empty_iter.

(** The headers of a request that came through two proxies. *)
Definition two_hops : gmap string string :=
  {[ "FORWARDED" := "for=192.0.2.43, for=198.51.100.17" ]}.

(** The same with a second element that is not a [for]. *)
Definition stray_hop : gmap string string :=
  {[ "FORWARDED" := "for=192.0.2.43, by=203.0.113.60" ]}.

End Task.

Module DispatcherMore.
Import Dispatcher.

(** [len(threads) - stop_count], the [running] of [set_thread_count]. *)
Definition running (d : dispatcher) : Z :=
  Z.of_nat (size (threads d)) - stop_count d.






End DispatcherMore.

Module TaskMore.
Import Task.

(** The locals of [build_response_header] after its first loop and the
    synthesis of Content-Length. *)
Definition scan_of (t : task) : header_scan :=
  add_content_length t
    (scan_headers (has_body t) (response_headers t)
                  (mkScan [] None None None None)).

(** The Content-Length the prologue carries: the one the task holds, or the
    one synthesised from [content_length]; [None] when there is neither. *)
Definition length_header (t : task) : option string :=
  content_length_header (scan_of t).

(** The Connection headers of the prologue when the builder closes the
    connection: the ones the task holds, or Connection: close. *)
Definition closing_connection (t : task) : list (string * string) :=
  match named "Connection"
          (kept_headers (has_body t) (response_headers t)) with
  | [] => [("Connection", "close")]
  | held => held
  end.

(** A request that asks to keep the connection. *)
Definition keep_alive : gmap string string :=
  {[ "CONNECTION" := "Keep-Alive" ]}.

(** A request that asks to close it. *)
Definition please_close : gmap string string :=
  {[ "CONNECTION" := "close" ]}.

(** A task that knows its content length. *)
Definition sized_task (version : string) (headers : gmap string string)
    (cl : Z) : task :=
  set_content_length (Some cl) (sample_task version "GET" headers idle_app).

(** What the version branch may add to the header list. *)
Definition lifetime_header (t : task) (h : string * string) : Prop :=
  h.1 = "Connection" \/
  (h = ("Transfer-Encoding", "chunked") /\ has_body t = true /\
   version t = "1.1" /\ truthy (length_header t) = false).

(** The value of the last header of a name. *)
Definition last_value (name : string) (hs : list (string * string))
  : option string :=
  snd <$> last (named name hs).

(** A task whose status forbids a body, holding a Content-Length. *)
Definition not_modified_task : task :=
  set_status "304 Not Modified"
    (set_response_headers [("Content-Length", "7"); ("ETag", "x")]
       (sized_task "1.1" ∅ 7)).

(** A task that relays the Server header of a backend. *)
Definition relay_task : task :=
  set_response_headers [("server", "backend/1.0")] (sized_task "1.1" ∅ 2).

End TaskMore.

Module WriteMore.
Import Task.

(** The chunks of an iterable that makes no calls of its own. *)
Definition plain_chunks (cs : list string) : list (list app_call * string) :=
  map (fun c => ([], c)) cs.

(** An iterable of such chunks. *)
Definition plain_iter (has_close0 : bool) (cs : list string) : app_iter_t :=
  mkAppIter false (fun _ => 0) None has_close0 (plain_chunks cs) [].

(** The bytes handed to the channel, in order. *)
Fixpoint bytes_of (ps : list payload) : string :=
  match ps with
  | [] => EmptyString
  | Bytes b :: r => b +:+ bytes_of r
  | FileBuffer _ :: r => bytes_of r
  end.

(** All the chunks, one after the other. *)
Definition joined (cs : list string) : string := String.concat EmptyString cs.

(** A chunk as it goes out in a chunked response. *)
Definition chunk_frame (c : string) : payload :=
  Bytes (Utilities.tobytes (Py.hex_upper (Py.len c)) +:+ CRLF +:+ c +:+ CRLF).

(** The end of a chunked response. *)
Definition last_chunk : payload := Bytes (String "0" (CRLF +:+ CRLF)).

(** A task in the middle of its body: the application has started the
    response and the prologue is out. *)
Definition streaming_task (cl : option Z) (chunked : bool) : task :=
  set_chunked_response chunked
    (set_wrote_header true
       (set_complete true
          (set_content_length cl (sample_task "1.1" "GET" ∅ idle_app)))).

(** What [service] runs before it looks at the exception. *)
Definition service_body (execute : M unit) (now : Z) : M unit :=
  bind (start now) (fun _ => bind execute (fun _ => finish)).

(** A complete task whose peer has gone away, on a server that does not
    log socket errors. *)
Definition hung_up_task : task :=
  new_task true
    (mkServer (fun _ => idle_app) "localhost" 8080 false "waitress" None
              EmptyString false)
    ("127.0.0.1", 50000) (Some O) (sample_request "1.1" "GET" ∅).

End WriteMore.

Module ErrorMore.
Import Task.

(** The body of an error response. *)
Definition error_body (e : error_t) : string :=
  (reason e +:+ CRLF +:+ CRLF +:+ body e) +:+
  (CRLF +:+ CRLF +:+ "(generated by waitress)").

(** The task of a request that the parser rejected. *)
Definition rejected_task (version : string) (e : error_t) : task :=
  ErrorTask_init (sample_server idle_app) ("127.0.0.1", 50000) None
    (mkRequest version "GET" ∅ "/" EmptyString "http" (Some e)).

Definition bad_request : error_t :=
  mkError 400 "Bad Request" "Malformed request line".

(** The headers [ErrorTask.execute] appends. *)
Definition error_headers (t : task) (e : error_t) : list (string * string) :=
  [("Content-Length", Py.str_of_Z (Py.len (error_body e)));
   ("Content-Type", "text/plain")] ++
  (if String.eqb (version t) "1.1" then
     if String.eqb (request_connection t) "close"
     then [("Connection", "close")] else []
   else [("Connection", "close")]).

(** The task as [ErrorTask.execute] hands it to [write]. *)
Definition prepared (t : task) (e : error_t) : task :=
  set_close_on_finish true
    (set_response_headers (response_headers t ++ error_headers t e)
       (set_content_length (Some (Py.len (error_body e)))
          (set_status (Py.str_of_Z (code e) +:+ " " +:+ reason e) t))).

End ErrorMore.

Module EnvironMore.
Import Task Task.WSGITask.

(** The name under which a request header enters the environment. *)
Definition environ_key (k : string) : string :=
  default ("HTTP_" +:+ k) (rename_headers !! k).

(** A name that no request header can take in the environment. *)
Definition reserved (name : string) : Prop :=
  forall k, environ_key k <> name.

(** The peer is not a trusted proxy. *)
Definition untrusted (t : task) : Prop :=
  Some (addr t).1 <> adj_trusted_proxy (server t) /\
  trusted_proxy (server t) = false.

(** The environment of an untrusted peer before the loop over the request
    headers. *)
Definition peer_environ (t : task) : gmap string envval :=
  let request := request t in
  let server := server t in
  let url_prefix := adj_url_prefix server in
  let path := path request in
  let path :=
    if Py.startswith "/" path
    then String "/" (Py.lstrip_char "/" path) else path in
  let path :=
    if nonempty url_prefix then
      if String.eqb path url_prefix then EmptyString
      else if Py.startswith (url_prefix +:+ "/") path
           then Py.slice_from (String.length url_prefix) path
           else path
    else path in
  <["REMOTE_HOST" := EStr (addr t).1]> (
  <["REMOTE_PORT" := EStr (Py.str_of_Z (addr t).2)]> (
  <["REMOTE_ADDR" := EStr (addr t).1]> (
  <["QUERY_STRING" := EStr (query request)]> (
  <["PATH_INFO" := EStr path]> (
  <["SCRIPT_NAME" := EStr url_prefix]> (
  <["SERVER_PROTOCOL" := EStr ("HTTP/" +:+ version t)]> (
  <["SERVER_SOFTWARE" := EStr (adj_ident server)]> (
  <["SERVER_NAME" := EStr (server_name server)]> (
  <["SERVER_PORT" := EStr (Py.str_of_Z (effective_port server))]> (
  <["REQUEST_METHOD" := EStr (Py.upper (command request))]> ∅)))))))))).

(** The same with the request headers in it. *)
Definition header_environ (t : task) : gmap string envval :=
  foldr add_header (peer_environ t)
        (reverse (map_to_list (headers (request t)))).

(** The WSGI variables that end [get_environment], for an environment
    without a URL scheme. *)
Definition wsgi_environ (t : task) (environ : gmap string envval)
  : gmap string envval :=
  <["wsgi.input_terminated" := EBool true]> (
  <["wsgi.file_wrapper" := EFileWrapper]> (
  <["wsgi.input" := EBodyStream]> (
  <["wsgi.run_once" := EBool false]> (
  <["wsgi.multiprocess" := EBool false]> (
  <["wsgi.multithread" := EBool true]> (
  <["wsgi.errors" := EStderr]> (
  <["wsgi.url_scheme" := EStr (url_scheme (request t))]> (
  <["wsgi.version" := EVersion 1 0]> environ)))))))).

(** A request with headers that try to pass for CGI variables. *)
Definition spoofing_task : task :=
  sample_task "1.1" "get"
    {[ "X_FORWARDED_FOR" := "203.0.113.9";
       "CONTENT_LENGTH" := " 12 ";
       "HOST" := "example.org" ]} idle_app.

End EnvironMore.

Module ProxyMore.
Import Task Task.WSGITask.

(** The client that an X-Forwarded-For header names: its first hop, as
    [parse_proxy_headers] reads it. *)
Definition x_forwarded_client (v : string) : string :=
  default EmptyString (head (map x_forwarded_hop (Py.split "," v))).

(** The request carries no Forwarded header with a value. *)
Definition no_forwarded (headers : gmap string string) : Prop :=
  truthy (headers !! "FORWARDED") = false.

(** The port that goes with a scheme. *)
Definition default_port (proto : string) : Z :=
  if String.eqb proto "http" then 80 else 443.

(** Headers as a proxy sends them for an IPv6 client. *)
Definition via_proxy : gmap string string :=
  {[ "X_FORWARDED_FOR" := " 2001:db8::1 , 10.0.0.1" ]}.

(** The result of a call, or nothing. *)
Definition returned {A} (r : result A) : option A :=
  match r with Ok a => Some a | Raise _ => None end.

End ProxyMore.

Module ExecuteMore.
Import Task Task.WSGITask.



(** The application has returned its iterable: the environment was built
    and the calls the application made before returning did not raise. *)
Definition app_returned (app : app_run) (t : task) : Prop :=
  (bind get_environment (fun _ => run_calls (app_calls app)) t).2 = Ok tt.

(** An application whose iterable fails after its first chunk. *)
Definition failing_app : app_run :=
  mkAppRun [CallStartResponse (PStr "200 OK") [] None]
           (mkAppIter false (fun _ => 0) None true
                      [([], "partial"); ([AppRaise (AppError "boom")], "")] []).

(** The task after the first chunk of a one-element iterable told its
    length. *)
Definition single_chunk_task (chunk : string) (t : task) : task :=
  set_content_length (Some (Py.len chunk)) t.

(** An application that returns a list of one chunk and no length. *)
Definition one_chunk_app : app_run :=
  mkAppRun [CallStartResponse (PStr "200 OK")
              [(PStr "Content-Type", PStr "text/plain")] None]
           (mkAppIter false (fun _ => 0) (Some 1) false
                      [([], "hello")] []).

End ExecuteMore.

(** * Properties *)

(** Projections of updated tasks. *)
Ltac task_simpl :=
  cbn [fst snd Task.request Task.server Task.addr Task.version
       Task.response_headers Task.close_on_finish Task.status
       Task.wrote_header Task.start_time Task.content_length
       Task.content_bytes_written Task.logged_write_excess
       Task.logged_write_no_body Task.logged_multi_proxy_headers
       Task.complete Task.chunked_response Task.environ Task.written
       Task.socket_budget Task.log Task.iter_closed
       Task.set_response_headers Task.set_close_on_finish Task.set_status
       Task.set_wrote_header Task.set_start_time Task.set_content_length
       Task.set_content_bytes_written Task.set_logged_write_excess
       Task.set_logged_write_no_body Task.set_complete
       Task.set_chunked_response Task.set_environ Task.set_channel
       Task.set_log Task.set_iter_closed] in *.

(** ** [asbool] *)

Import Adjustments.


(** ** The dispatcher's [stop_count] *)

Section DispatcherFacts.
Import Dispatcher.

Lemma next_free_seq ts fuel n :
  next_free fuel ts n ∈ ts -> set_seq (C:=gset nat) n (S fuel) ⊆ ts.
Proof.
  revert n. induction fuel as [|f IH]; intros n; cbn [next_free].
  - intros H x Hx. apply elem_of_set_seq in Hx.
    replace x with n by lia. exact H.
  - destruct (decide (n ∈ ts)) as [Hin|Hout]; [|tauto].
    intros H x Hx. apply elem_of_set_seq in Hx.
    destruct (decide (x = n)) as [->|Hne]; [exact Hin|].
    apply (IH _ H). apply elem_of_set_seq. lia.
Qed.

Lemma next_free_fresh ts n : next_free (S (size ts)) ts n ∉ ts.
Proof.
  intros H. apply next_free_seq, subseteq_size in H.
  rewrite size_set_seq in H. lia.
Qed.








Lemma fst_set_phase no ph hs : (set_phase no ph hs).*1 = hs.*1.
Proof.
  induction hs as [|[n p] r IH]; [reflexivity|].
  cbn [set_phase]. destruct (decide (n = no)); rewrite !fmap_cons;
    [reflexivity | now rewrite IH].
Qed.




Lemma elem_of_set_phase no ph hs n p :
  (n, p) ∈ set_phase no ph hs -> n ∈ hs.*1.
Proof.
  intros H. rewrite <- (fst_set_phase no ph hs).
  apply list_elem_of_fmap. exists (n, p). auto.
Qed.







End DispatcherFacts.




(** ** [sorted] is a stable sort *)

Section SortedFacts.
Context {A : Type} (key : A -> string).







End SortedFacts.

(** ** Response header *)

Section TaskFacts.
Import Task.

Lemma connection_policy_defined connection l t :
  supported_version t ->
  exists hs t', connection_policy connection l t = Some (hs, t').
Proof.
  unfold connection_policy. intros [Hv | Hv]; rewrite Hv; simpl;
    match goal with
    | |- exists hs t', Some ?p = _ =>
        destruct p as [hs t']; exists hs, t'; reflexivity
    end.
Qed.

Lemma new_task_version c srv peer budget req :
  supported_version (new_task c srv peer budget req) /\
  (req_version req <> "1.0" -> req_version req <> "1.1" ->
   version (new_task c srv peer budget req) = "1.0").
Proof.
  unfold supported_version, new_task. simpl.
  destruct (bool_decide _) eqn:E.
  - apply bool_decide_eq_true in E.
    rewrite !elem_of_cons in E. rewrite elem_of_nil in E.
    split; [tauto|]. intros H1 H2. tauto.
  - split; [now left | reflexivity].
Qed.

(** C9: the constructor stores the request's version when it is '1.0' or
    '1.1' and '1.0' otherwise; so on any task carrying a constructed version
    the response builder returns a prologue: its AssertionError branch is
    not taken. *)
Theorem constructed_version_supported
    (c : bool) (srv : server_t) (peer : string * Z) (budget : option nat)
    (req : request_t) (t : task)
    (Hv : version t = version (new_task c srv peer budget req)) :
  (version t = "1.0" \/ version t = "1.1") /\
  (req_version req <> "1.0" -> req_version req <> "1.1" ->
   version t = "1.0") /\
  exists rh, (build_response_header t).2 = Ok rh.
Proof.
  destruct (new_task_version c srv peer budget req) as [Hs Hf].
  unfold supported_version in Hs. rewrite <- Hv in Hs, Hf.
  split; [exact Hs|]. split; [exact Hf|].
  unfold build_response_header.
  destruct (connection_policy_defined
              (Py.lower (default EmptyString
                           (headers (request t) !! "CONNECTION")))
              (add_content_length t
                 (scan_headers (has_body t) (response_headers t)
                               (mkScan [] None None None None)))
              t Hs) as (hs & t' & ->).
  eexists. reflexivity.
Qed.

Lemma constructed_version_supported_witness :
  version (sample_task "2.0" "GET" ∅ idle_app) = "1.0" /\
  exists rh, (build_response_header (sample_task "2.0" "GET" ∅ idle_app)).2
             = Ok rh.
Proof.
  destruct (constructed_version_supported false (sample_server idle_app)
              ("127.0.0.1", 50000) None (sample_request "2.0" "GET" ∅)
              (sample_task "2.0" "GET" ∅ idle_app) eq_refl)
    as (_ & H & Hrh).
  split; [apply H; discriminate | exact Hrh].
Defined.

Lemma scan_headers_scanned hb hs : forall l,
  scanned (scan_headers hb hs l) = scanned l ++ kept_headers hb hs.
Proof.
  unfold kept_headers.
  induction hs as [|[n v] r IH]; intros l; cbn [scan_headers List.filter map].
  - now rewrite app_nil_r.
  - cbn [fst snd]. destruct (String.eqb (recase n) "Content-Length" && negb hb).
    + cbn [negb]. apply IH.
    + cbn [negb map]. rewrite IH. cbn [scanned fst snd].
      now rewrite <- app_assoc.
Qed.

Lemma append_nil_r (a : string) : a +:+ EmptyString = a.
Proof.
  induction a as [|c a IH]; [reflexivity|].
  change (String c (a +:+ EmptyString) = String c a). now rewrite IH.
Qed.

Lemma append_assoc (a b c : string) : (a +:+ b) +:+ c = a +:+ b +:+ c.
Proof.
  induction a as [|x a IH]; [reflexivity|].
  change (String x ((a +:+ b) +:+ c) = String x (a +:+ b +:+ c)).
  now rewrite IH.
Qed.




Lemma scan_headers_fields hb hs : forall l,
  (no_header "Content-Length" hs ->
   content_length_header (scan_headers hb hs l) = content_length_header l) /\
  (no_header "Connection" hs ->
   connection_close_header (scan_headers hb hs l) = connection_close_header l).
Proof.
  unfold no_header.
  induction hs as [|[n v] r IH]; intros l; [split; reflexivity|].
  cbn [scan_headers]. split; intros H; apply Forall_cons in H as [Hn Hr];
    cbn [fst] in Hn; apply String.eqb_neq in Hn.
  - rewrite Hn. cbn [andb]. rewrite (proj1 (IH _) Hr). reflexivity.
  - destruct (String.eqb (recase n) "Content-Length" && negb hb);
      rewrite (proj2 (IH _) Hr); [reflexivity|].
    cbn [connection_close_header]. now rewrite Hn.
Qed.

Lemma identity_headers_app l t hs :
  exists extra, identity_headers l t hs = hs ++ extra.
Proof.
  unfold identity_headers.
  destruct (negb (truthy (server_header l))), (nonempty (adj_ident (server t))),
    (negb (truthy (date_header l)));
    rewrite <- ?app_assoc; eexists; try reflexivity;
    symmetry; apply app_nil_r.
Qed.

(** What the version branch returns: headers appended to the scanned ones,
    and a task that differs in its two lifetime flags at most. *)
Lemma connection_policy_frame connection l t hs t' :
  connection_policy connection l t = Some (hs, t') ->
  (exists added, hs = scanned l ++ added) /\
  t' = set_close_on_finish (close_on_finish t')
         (set_chunked_response (chunked_response t') t).
Proof.
  unfold connection_policy, close_on_finish_fn. destruct t. cbn.
  repeat match goal with
         | |- context [if ?b then _ else _] => destruct b; cbn
         | |- context [match ?o with Some _ => _ | None => _ end] =>
             destruct o; cbn
         end;
    intros [= <- <-]; (split; [|reflexivity]);
    rewrite <- ?app_assoc; eexists; try reflexivity;
    symmetry; apply app_nil_r.
Qed.

Lemma build_response_header_frame t :
  supported_version t ->
  exists added c ch,
    build_response_header t =
    (set_response_headers
       (kept_headers (has_body t) (response_headers t) ++ added)
       (set_close_on_finish c (set_chunked_response ch t)),
     Ok (serialise
           (set_response_headers
              (kept_headers (has_body t) (response_headers t) ++ added)
              (set_close_on_finish c (set_chunked_response ch t))))).
Proof.
  intros Hv. unfold build_response_header.
  set (connection := Py.lower _).
  set (l := add_content_length t _).
  destruct (connection_policy_defined connection l t Hv) as (hs & t' & E).
  rewrite E. apply connection_policy_frame in E as [[added ->] Et].
  remember (close_on_finish t') as c eqn:Hc.
  remember (chunked_response t') as ch eqn:Hch.
  clear Hc Hch. subst t'.
  destruct (identity_headers_app l
              (set_close_on_finish c (set_chunked_response ch t))
              (scanned l ++ added)) as [extra ->].
  assert (Hl : exists more, scanned l =
                 kept_headers (has_body t) (response_headers t) ++ more).
  { subst l. unfold add_content_length.
    destruct (content_length_header _), (content_length t), (has_body t);
      cbn [scanned]; rewrite scan_headers_scanned; cbn [scanned app];
      eexists; try reflexivity; symmetry; apply app_nil_r. }
  destruct Hl as [more ->].
  exists (more ++ added ++ extra), c, ch.
  rewrite <- !app_assoc. reflexivity.
Qed.



(** C1, as stated, fails: on a 1.1 task whose request has no Connection
    header, with no Content-Length and a status that permits a body, the
    builder sets [close_on_finish] and appends Connection: close. *)
Lemma chunked_response_not_kept_open :
  let t := sample_task "1.1" "GET" ∅ idle_app in
  let t' := (build_response_header t).1 in
  version t = "1.1" /\ request_connection t <> "close" /\
  response_headers t = [] /\ content_length t = None /\
  has_body t = true /\ close_on_finish t = false /\
  ~ (close_on_finish t' = false /\
     ("Connection", "close") ∉ response_headers t').
Proof.
  cbv zeta. repeat split; try reflexivity; try discriminate.
  intros [H _]. vm_compute in H. discriminate.
Qed.

(** C1, amended: for a task of version '1.1' whose request Connection
    header is not 'close', which holds no Content-Length header and knows no
    content length, and whose status permits a body, the builder adds
    Transfer-Encoding: chunked, sets [chunked_response], and closes the
    connection: [close_on_finish] is true afterwards, and Connection: close
    is appended when [close_on_finish] was false and the task holds no
    Connection header. *)
Theorem chunked_response_closes (t : task)
    (Hv : version t = "1.1")
    (Hc : request_connection t <> "close")
    (Hcl : no_header "Content-Length" (response_headers t))
    (Hn : content_length t = None)
    (Hb : has_body t = true) :
  let t' := (build_response_header t).1 in
  ("Transfer-Encoding", "chunked") ∈ response_headers t' /\
  chunked_response t' = true /\
  close_on_finish t' = true /\
  (close_on_finish t = false ->
   no_header "Connection" (response_headers t) ->
   ("Connection", "close") ∈ response_headers t') /\
  (build_response_header t).2 = Ok (serialise t').
Proof.
  unfold build_response_header. fold (request_connection t).
  set (l0 := scan_headers _ _ _).
  assert (Hl0 : content_length_header l0 = None)
    by (subst l0; now rewrite (proj1 (scan_headers_fields _ _ _) Hcl)).
  assert (Hl : add_content_length t l0 = l0)
    by (unfold add_content_length; now rewrite Hl0, Hn).
  rewrite Hl. unfold connection_policy. rewrite Hv, Hl0, Hb.
  apply String.eqb_neq in Hc. rewrite Hc.
  change (String.eqb "1.1" "1.0") with false.
  change (String.eqb "1.1" "1.1") with true.
  cbn [truthy negb fst snd]. unfold close_on_finish_fn.
  cbn [fst snd close_on_finish set_chunked_response].
  destruct (close_on_finish t) eqn:Hcof; cbn [negb];
    match goal with
    | |- context [identity_headers ?l ?t ?hs] =>
        destruct (identity_headers_app l t hs) as [extra ->]
    end;
    cbn; (split; [|split; [|split; [|split]]]);
    try reflexivity; try assumption.
  - rewrite !elem_of_app, list_elem_of_singleton. tauto.
  - discriminate.
  - destruct (connection_close_header l0);
      rewrite !elem_of_app, list_elem_of_singleton; tauto.
  - intros _ Hno. subst l0.
    rewrite (proj2 (scan_headers_fields _ _ _) Hno). cbn.
    rewrite !elem_of_app, !list_elem_of_singleton. tauto.
Qed.

Lemma chunked_response_closes_witness :
  let t' := (build_response_header (sample_task "1.1" "GET" ∅ idle_app)).1 in
  chunked_response t' = true /\ close_on_finish t' = true /\
  ("Connection", "close") ∈ response_headers t'.
Proof.
  destruct (chunked_response_closes (sample_task "1.1" "GET" ∅ idle_app))
    as (_ & H1 & H2 & H3 & _).
  - reflexivity.
  - vm_compute. discriminate.
  - constructor.
  - reflexivity.
  - reflexivity.
  - split; [exact H1|]. split; [exact H2|].
    apply H3; [reflexivity | constructor].
Defined.

(** ** [write] *)

Lemma substring_length (n : nat) (s : string) :
  String.length (String.substring 0 n s) = Nat.min n (String.length s).
Proof.
  revert n. induction s as [|c s IH]; intros [|n]; cbn; auto.
Qed.

Lemma slice_to_len (k : Z) (s : string) :
  0 <= k -> Py.len (Py.slice_to k s) = Z.min k (Py.len s).
Proof.
  intros Hk. unfold Py.slice_to, Py.len.
  destruct (0 <=? k) eqn:E; [|apply Z.leb_gt in E; lia].
  rewrite substring_length. lia.
Qed.

Lemma build_response_header_touches t :
  exists hs c ch,
    (build_response_header t).1 =
    set_response_headers hs (set_close_on_finish c (set_chunked_response ch t)).
Proof.
  unfold build_response_header.
  destruct (connection_policy _ _ t) as [[hs t']|] eqn:E.
  - apply connection_policy_frame in E as [_ E].
    remember (close_on_finish t') as c eqn:Hc.
    remember (chunked_response t') as ch eqn:Hch.
    clear Hc Hch. subst t'. eexists _, c, ch. reflexivity.
  - exists (response_headers t), (close_on_finish t), (chunked_response t).
    now destruct t.
Qed.

Lemma write_soon_touches p t :
  exists w b, (write_soon p t).1 = set_channel w b t.
Proof.
  unfold write_soon. destruct (socket_budget t) as [[|n]|] eqn:E; cbn [fst];
    [|eexists _, _; reflexivity..].
  exists (written t), (Some O). destruct t. cbn in E. now subst.
Qed.

Lemma write_soon_unlimited p t :
  socket_budget t = None ->
  write_soon p t = (set_channel (written t ++ [p]) None t, Ok tt).
Proof. unfold write_soon. now intros ->. Qed.

Lemma write_soon_ok p t :
  socket_budget t <> Some O ->
  exists b, write_soon p t = (set_channel (written t ++ [p]) b t, Ok tt).
Proof.
  unfold write_soon. destruct (socket_budget t) as [[|n]|]; [tauto| |];
    intros _; eexists; reflexivity.
Qed.

Lemma write_soon_log p t : log (write_soon p t).1 = log t.
Proof.
  destruct (write_soon_touches p t) as (w & b & ->). reflexivity.
Qed.

(** What [flush_header] leaves alone. *)
Lemma flush_header_frame t :
  let t1 := (flush_header t).1 in
  content_length t1 = content_length t /\
  content_bytes_written t1 = content_bytes_written t /\
  status t1 = status t /\
  log t1 = log t /\
  logged_write_excess t1 = logged_write_excess t /\
  logged_write_no_body t1 = logged_write_no_body t.
Proof.
  unfold flush_header, bind, get, when.
  destruct (wrote_header t); cbn [negb]; [cbn; tauto|].
  destruct (build_response_header_touches t) as (hs & c & ch & E).
  destruct (build_response_header t) as [t1 [rh|e]]; cbn [fst] in E; subst t1;
    [|cbn; tauto].
  match goal with
  | |- context [write_soon ?p ?t1] =>
      destruct (write_soon_touches p t1) as (w & b & E);
      destruct (write_soon p t1) as [t2 [[]|e]]; cbn [fst] in E; subst t2
  end; cbn; tauto.
Qed.

(** When the prologue can be built and the socket takes it, [flush_header]
    returns, and the channel has the prologue if it did not have it yet. *)
Lemma flush_header_ok t :
  (wrote_header t = false ->
   supported_version t /\ socket_budget t <> Some O) ->
  let t1 := (flush_header t).1 in
  (flush_header t).2 = Ok tt /\
  wrote_header t1 = true /\
  written t1 =
    written t ++
    (if wrote_header t then []
     else [Bytes (serialise (build_response_header t).1)]) /\
  chunked_response t1 =
    (if wrote_header t then chunked_response t
     else chunked_response (build_response_header t).1) /\
  (socket_budget t = None -> socket_budget t1 = None).
Proof.
  intros Hh. unfold flush_header, bind, get, when.
  destruct (wrote_header t) eqn:Hw; cbn [negb].
  - cbn. rewrite Hw, app_nil_r. tauto.
  - destruct (Hh eq_refl) as [Hv Hs].
    destruct (build_response_header_frame t Hv) as (added & c & ch & E).
    rewrite E. cbn [fst snd].
    unfold write_soon. task_simpl.
    destruct (socket_budget t) as [[|n]|]; [tauto| |]; cbn;
      repeat split; try reflexivity; discriminate.
Qed.

Lemma has_body_status t1 t : status t1 = status t -> has_body t1 = has_body t.
Proof. unfold has_body. now intros ->. Qed.

(** What [write_body] leaves alone. *)
Lemma write_body_frame data t :
  let t' := (write_body data t).1 in
  content_length t' = content_length t /\ status t' = status t /\
  chunked_response t' = chunked_response t /\
  wrote_header t' = wrote_header t.
Proof.
  unfold write_body, bind, get, when, log_warning, modify, ret.
  destruct (nonempty data && has_body t).
  - destruct (chunked_response t) eqn:Hch.
    + match goal with |- context [nonempty ?x] => destruct (nonempty x) end;
        [|cbn; tauto].
      match goal with
      | |- context [write_soon ?p ?t1] =>
          destruct (write_soon_touches p t1) as (w & b & E);
          rewrite (surjective_pairing (write_soon p t1)), E
      end. cbn. tauto.
    + destruct (content_length t) as [cl|] eqn:Hcl.
      * destruct (negb _ && negb _); task_simpl;
          (match goal with
           | |- context [nonempty ?x] => destruct (nonempty x)
           end; [|cbn; tauto]);
          match goal with
          | |- context [write_soon ?p ?t1] =>
              destruct (write_soon_touches p t1) as (w & b & E);
              rewrite (surjective_pairing (write_soon p t1)), E
          end; cbn; tauto.
      * destruct (nonempty data); [|cbn; tauto].
        match goal with
        | |- context [write_soon ?p ?t1] =>
            destruct (write_soon_touches p t1) as (w & b & E);
            rewrite (surjective_pairing (write_soon p t1)), E
        end. cbn. tauto.
  - destruct (negb (logged_write_no_body t)); cbn; tauto.
Qed.

(** The counter stays within the content length. *)
Lemma write_body_bounded data t cl :
  content_length t = Some cl -> has_body t = true ->
  content_bytes_written t <= cl ->
  content_bytes_written t <= content_bytes_written (write_body data t).1 <= cl.
Proof.
  intros Hcl Hb Hinv.
  pose proof (slice_to_len (cl - content_bytes_written t) data) as Hlen.
  assert (Hdl : 0 <= Py.len data) by (unfold Py.len; lia).
  unfold write_body, bind, get, when, log_warning, modify, ret.
  rewrite Hb, Hcl, andb_true_r.
  destruct (nonempty data) eqn:Hd.
  - destruct (chunked_response t) eqn:Hch.
    + match goal with |- context [nonempty ?x] => destruct (nonempty x) end;
        [|cbn; lia].
      match goal with
      | |- context [write_soon ?p ?t1] =>
          destruct (write_soon_touches p t1) as (w & b & E);
          rewrite (surjective_pairing (write_soon p t1)), E
      end. cbn. lia.
    + destruct (negb _ && negb _); task_simpl;
        (match goal with |- context [nonempty ?x] => destruct (nonempty x) end;
         [|cbn; lia]);
        match goal with
        | |- context [write_soon ?p ?t1] =>
            destruct (write_soon_touches p t1) as (w & b & E);
            rewrite (surjective_pairing (write_soon p t1)), E
        end; cbn; lia.
  - destruct data; [|discriminate].
    destruct (negb (logged_write_no_body t)); unfold Py.len; cbn; lia.
Qed.

(** The data is cut to the remaining budget. *)
Lemma write_body_truncates data t cl :
  content_length t = Some cl -> has_body t = true ->
  content_bytes_written t <= cl ->
  socket_budget t = None -> nonempty data = true ->
  chunked_response t = false ->
  let t' := (write_body data t).1 in
  let towrite := Py.slice_to (cl - content_bytes_written t) data in
  (write_body data t).2 = Ok tt /\
  content_bytes_written t' = content_bytes_written t + Py.len towrite /\
  written t' =
    written t ++ (if nonempty towrite then [Bytes towrite] else []) /\
  log t' =
    log t ++
    (if negb (String.eqb towrite data) && negb (logged_write_excess t)
     then [WriteExcess cl] else []) /\
  logged_write_excess t' =
    logged_write_excess t || negb (String.eqb towrite data).
Proof.
  intros Hcl Hb Hinv Hs Hd Hch.
  unfold write_body, bind, get, when, log_warning, modify, ret.
  rewrite Hb, Hcl, Hd, Hch. cbn [andb].
  set (towrite := Py.slice_to (cl - content_bytes_written t) data).
  destruct (String.eqb towrite data) eqn:He; cbn [negb andb];
    [|destruct (logged_write_excess t) eqn:Hl; cbn [negb andb]];
    task_simpl;
    (destruct (nonempty towrite) eqn:Hn;
     [rewrite write_soon_unlimited by exact Hs|]);
    task_simpl; rewrite ?app_nil_r, ?orb_false_r, ?orb_true_r, ?Hl;
    repeat split; reflexivity.
Qed.

(** C5: with a content length set and a status that permits a body, a call
    of [write] keeps the content length and leaves the byte counter between
    its old value and the content length.  When the call reaches the body
    (the task is complete, the prologue can be built and the socket takes
    what it is handed) with data that is not empty and the response is not
    chunked, the data is cut to the remaining budget, the counter grows by
    the length of what is left, that is what the channel is handed if it is
    not empty, and the excess warning is logged when the data was cut and
    the latch was not yet set. *)
Theorem write_within_content_length (t : task) (data : string) (cl : Z)
    (Hcl : content_length t = Some cl)
    (Hb : has_body t = true)
    (Hinv : content_bytes_written t <= cl) :
  let t' := (write data t).1 in
  content_length t' = Some cl /\
  has_body t' = true /\
  content_bytes_written t <= content_bytes_written t' <= cl /\
  (complete t = true ->
   (wrote_header t = false -> supported_version t) ->
   socket_budget t = None ->
   nonempty data = true ->
   chunked_response t' = false ->
   let towrite := Py.slice_to (cl - content_bytes_written t) data in
   (write data t).2 = Ok tt /\
   Py.len towrite = Z.min (cl - content_bytes_written t) (Py.len data) /\
   content_bytes_written t' = content_bytes_written t + Py.len towrite /\
   written t' =
     written t ++
     (if wrote_header t then []
      else [Bytes (serialise (build_response_header t).1)]) ++
     (if nonempty towrite then [Bytes towrite] else []) /\
   log t' =
     log t ++
     (if negb (String.eqb towrite data) && negb (logged_write_excess t)
      then [WriteExcess cl] else []) /\
   logged_write_excess t' =
     logged_write_excess t || negb (String.eqb towrite data)).
Proof.
  unfold write, bind, get.
  destruct (complete t) eqn:Hc; cbn [negb].
  2:{ cbn. repeat split; try assumption; try lia; discriminate. }
  destruct (flush_header_frame t) as (F1 & F2 & F3 & F4 & F5 & F6).
  destruct (flush_header t) as [t1 r1] eqn:Ef. cbn [fst] in *.
  assert (Hcl1 : content_length t1 = Some cl) by congruence.
  assert (Hb1 : has_body t1 = true)
    by (rewrite (has_body_status t1 t F3); exact Hb).
  assert (Hinv1 : content_bytes_written t1 <= cl) by lia.
  destruct r1 as [[]|e].
  - destruct (write_body_frame data t1) as (G1 & G2 & G3 & G4).
    pose proof (write_body_bounded data t1 cl Hcl1 Hb1 Hinv1) as HB.
    split; [congruence|].
    split; [rewrite (has_body_status _ t1 G2); exact Hb1|].
    split; [lia|].
    intros _ Hv Hs Hd Hch.
    destruct (flush_header_ok t) as (K1 & K2 & K3 & K4 & K5).
    { intros Hw. split; [auto | rewrite Hs; discriminate]. }
    rewrite Ef in K1, K2, K3, K4, K5. cbn [fst snd] in *.
    rewrite G3 in Hch.
    destruct (write_body_truncates data t1 cl Hcl1 Hb1 Hinv1 (K5 Hs) Hd Hch)
      as (T1 & T2 & T3 & T4 & T5).
    rewrite F2, F5 in *.
    split; [exact T1|]. split; [apply slice_to_len; lia|].
    split; [exact T2|]. split; [rewrite T3, K3, <- app_assoc; reflexivity|].
    split; [rewrite T4, F4; reflexivity | exact T5].
  - cbn [fst snd]. split; [assumption|]. split; [assumption|].
    split; [lia|].
    intros _ Hv Hs Hd Hch.
    destruct (flush_header_ok t) as (K1 & _).
    { intros Hw. split; [auto | rewrite Hs; discriminate]. }
    rewrite Ef in K1. discriminate.
Qed.

Lemma write_within_content_length_witness :
  let t := set_content_length (Some 5)
             (set_complete true (sample_task "1.0" "GET" ∅ idle_app)) in
  let t' := (write "abcdefgh" t).1 in
  content_bytes_written t' = 5 /\
  written t' =
    [Bytes (serialise (build_response_header t).1); Bytes "abcde"] /\
  log t' = [WriteExcess 5].
Proof.
  intros t.
  destruct (write_within_content_length t "abcdefgh" 5)
    as (_ & _ & _ & H).
  - reflexivity.
  - reflexivity.
  - cbn. lia.
  - destruct H as (_ & _ & H3 & H4 & H5 & _); try reflexivity.
    + intros _. left. reflexivity.
    + split; [exact H3|]. split; [exact H4 | exact H5].
Defined.

(** An empty [write] on a complete task: the prologue goes out if it has
    not yet, no body bytes do, and the else-branch of [write] runs. *)
Lemma write_empty (t : task) :
  complete t = true ->
  (wrote_header t = false ->
   supported_version t /\ socket_budget t <> Some O) ->
  let t' := (write EmptyString t).1 in
  (write EmptyString t).2 = Ok tt /\
  written t' =
    written t ++
    (if wrote_header t then []
     else [Bytes (serialise (build_response_header t).1)]) /\
  wrote_header t' = true /\
  content_bytes_written t' = content_bytes_written t + Py.len EmptyString /\
  logged_write_no_body t' = true /\
  log t' =
    log t ++
    (if logged_write_no_body t then [] else [WriteNoBody (status t)]).
Proof.
  intros Hc Hh. unfold write, bind, get. rewrite Hc. cbn [negb].
  destruct (flush_header_frame t) as (F1 & F2 & F3 & F4 & F5 & F6).
  destruct (flush_header_ok t Hh) as (K1 & K2 & K3 & _).
  destruct (flush_header t) as [t1 r1]. cbn [fst snd] in *. subst r1.
  unfold write_body, bind, get, when, log_warning, modify, ret.
  cbn [nonempty andb]. rewrite F6, F2, F3.
  destruct (logged_write_no_body t) eqn:Hl; cbn [negb]; task_simpl;
    rewrite ?app_nil_r, ?F6, ?F4; repeat split; assumption || reflexivity.
Qed.

(** C10: on a complete task, [write] with empty data hands the channel the
    prologue (on the first call) and nothing else, and runs the branch meant
    for responses without a body whatever the status: the byte counter
    grows by the length of the data, which is zero, and the
    [logged_write_no_body] latch is set, with its warning logged if the
    latch was not yet set.  So [finish] on a task whose header was not
    written logs that warning, also when the status permits a body. *)
Theorem empty_write_takes_no_body_branch (t : task)
    (Hc : complete t = true)
    (Hh : wrote_header t = false ->
          supported_version t /\ socket_budget t <> Some O) :
  let t' := (write EmptyString t).1 in
  (write EmptyString t).2 = Ok tt /\
  written t' =
    written t ++
    (if wrote_header t then []
     else [Bytes (serialise (build_response_header t).1)]) /\
  wrote_header t' = true /\
  content_bytes_written t' = content_bytes_written t + Py.len EmptyString /\
  logged_write_no_body t' = true /\
  log t' =
    log t ++
    (if logged_write_no_body t then [] else [WriteNoBody (status t)]) /\
  (wrote_header t = false -> logged_write_no_body t = false ->
   WriteNoBody (status t) ∈ log (finish t).1).
Proof.
  destruct (write_empty t Hc Hh) as (H1 & H2 & H3 & H4 & H5 & H6).
  repeat (split; [assumption|]).
  intros Hw Hl. unfold finish, bind, get, when. rewrite Hw. cbn [negb].
  destruct (write EmptyString t) as [t' r] eqn:E. cbn [fst snd] in *.
  subst r. rewrite Hl in H6.
  destruct (chunked_response t'); [rewrite write_soon_log | cbn];
    rewrite H6, elem_of_app, list_elem_of_singleton; tauto.
Qed.

(** A complete 1.1 task with status 200 OK whose application yielded
    nothing. *)
Lemma empty_write_witness :
  let t := set_complete true (sample_task "1.1" "GET" ∅ idle_app) in
  has_body t = true /\
  logged_write_no_body (write EmptyString t).1 = true /\
  WriteNoBody "200 OK" ∈ log (finish t).1.
Proof.
  intros t.
  destruct (empty_write_takes_no_body_branch t)
    as (_ & _ & _ & _ & H5 & _ & H7).
  - reflexivity.
  - intros _. split; [right; reflexivity | discriminate].
  - split; [reflexivity|]. split; [exact H5|].
    apply H7; reflexivity.
Defined.

End TaskFacts.

(** ** [start_response] *)

Section WSGIFacts.
Import Task Task.WSGITask.

Lemma not_hop_content_length : ~ "content-length" ∈ hop_by_hop.
Proof.
  intros H. apply list_elem_of_In in H. vm_compute in H.
  intuition discriminate.
Qed.

(** The loop raises exactly when some header is bad; it touches nothing but
    [content_length]. *)
Lemma check_headers_spec hs : forall t,
  (exists cl, (check_headers hs t).1 = set_content_length cl t) /\
  match (check_headers hs t).2 with
  | Raise _ => Exists bad_header hs
  | Ok hs' => hs = as_objects hs' /\ ~ Exists bad_header hs
  end.
Proof.
  induction hs as [|[k v] r IH]; intros t.
  - cbn. split; [exists (content_length t); now destruct t|].
    split; [reflexivity|]. intros H. inversion H.
  - cbn [check_headers].
    destruct k as [k| | |]; try (cbn; split;
      [exists (content_length t); now destruct t
      |constructor; left; exact I]).
    destruct v as [v| | |]; try (cbn; split;
      [exists (content_length t); now destruct t
      |constructor; right; left; exact I]).
    destruct (has_crlf v) eqn:Hv.
    { cbn. split; [exists (content_length t); now destruct t|].
      constructor. right. left. exact Hv. }
    destruct (has_crlf k) eqn:Hk.
    { cbn. split; [exists (content_length t); now destruct t|].
      constructor. left. exact Hk. }
    unfold bind.
    assert (Hhead : forall P : Prop,
      (bad_header (PStr k, PStr v) -> P) ->
      (Exists bad_header ((PStr k, PStr v) :: r) -> P \/ Exists bad_header r)).
    { intros P HP H. apply Exists_cons in H as [H|H]; auto. }
    destruct (String.eqb (Py.lower k) "content-length") eqn:Hcl.
    + apply String.eqb_eq in Hcl.
      destruct (Py.int_of_str v) as [n|] eqn:Hn.
      * unfold modify. cbn [fst snd].
        destruct (IH (set_content_length (Some n) t)) as [[cl E] H].
        destruct (check_headers r (set_content_length (Some n) t))
          as [t1 [hs'|e]]; cbn [fst snd] in *; subst t1;
          unfold ret; cbn [fst snd].
        -- split; [exists cl; reflexivity|]. destruct H as [-> H].
           split; [reflexivity|]. intros HE.
           apply Exists_cons in HE as [HE|HE]; [|tauto].
           unfold bad_header in HE; cbn [fst snd] in HE.
           destruct HE as [HE|[HE|[HE|HE]]]; cbn in HE;
             try congruence.
           ++ rewrite Hcl in HE. now apply not_hop_content_length.
           ++ destruct HE. congruence.
        -- split; [exists cl; reflexivity|]. now apply Exists_cons_tl.
      * cbn. split; [exists (content_length t); now destruct t|].
        constructor. right. right. right. cbn. auto.
    + apply String.eqb_neq in Hcl.
      destruct (bool_decide (Py.lower k ∈ hop_by_hop)) eqn:Hh.
      * apply bool_decide_eq_true in Hh.
        cbn. split; [exists (content_length t); now destruct t|].
        constructor. right. right. left. exact Hh.
      * apply bool_decide_eq_false in Hh. unfold ret. cbn [fst snd].
        destruct (IH t) as [[cl E] H].
        destruct (check_headers r t) as [t1 [hs'|e]]; cbn [fst snd] in *;
          subst t1; unfold ret; cbn [fst snd].
        -- split; [exists cl; reflexivity|]. destruct H as [-> H].
           split; [reflexivity|]. intros HE.
           apply Exists_cons in HE as [HE|HE]; [|tauto].
           unfold bad_header in HE; cbn [fst snd] in HE.
           destruct HE as [HE|[HE|[HE|HE]]]; cbn in HE;
             try congruence; tauto.
        -- split; [exists cl; reflexivity|]. now apply Exists_cons_tl.
Qed.




End WSGIFacts.

(** ** [execute] *)

Section ExecuteFacts.
Import Task Task.WSGITask.

Lemma quiet_ret {A} (a : A) : quiet (ret a).
Proof. intros t _. cbn. auto. Qed.

Lemma quiet_raise {A} (e : exn) : quiet (@raise A e).
Proof. intros t _. cbn. auto. Qed.

Lemma quiet_get : quiet get.
Proof. intros t _. cbn. auto. Qed.

Lemma quiet_bind {A B} (c : M A) (k : A -> M B) :
  quiet c -> (forall a, quiet (k a)) -> quiet (bind c k).
Proof.
  intros Hc Hk t Ht. unfold bind.
  destruct (Hc t Ht) as (H1 & H2 & H3).
  destruct (c t) as [t1 [a|e]]; cbn [fst] in *; [|auto].
  destruct (Hk a t1) as (K1 & K2 & K3); [congruence|].
  repeat split; congruence.
Qed.

Lemma quiet_modify (f : task -> task) :
  (forall t, request (f t) = request t /\ server (f t) = server t /\
             log (f t) = log t) ->
  quiet (modify f).
Proof.
  intros Hf t _. cbn. destruct (Hf t) as (-> & -> & ->). auto.
Qed.

Lemma quiet_when (b : bool) (c : M unit) : quiet c -> quiet (when b c).
Proof. destruct b; [auto | intros _; apply quiet_ret]. Qed.

Lemma quiet_write_soon p : quiet (write_soon p).
Proof.
  intros t _. destruct (write_soon_touches p t) as (w & b & ->). cbn. auto.
Qed.

Lemma quiet_log_warning w :
  too_few [w] = [] -> quiet (log_warning w).
Proof.
  intros Hw t _. cbn. unfold too_few in *.
  rewrite List.filter_app, Hw, app_nil_r. auto.
Qed.

Lemma quiet_try_finally {A} (c : M A) (f : M unit) :
  quiet c -> quiet f -> quiet (try_finally c f).
Proof.
  intros Hc Hf t Ht. unfold try_finally.
  destruct (Hc t Ht) as (H1 & H2 & H3).
  destruct (c t) as [t1 r]; cbn [fst] in *.
  destruct (Hf t1) as (K1 & K2 & K3); [congruence|].
  destruct (f t1) as [t2 [[]|e]]; cbn [fst] in *; repeat split; congruence.
Qed.

Lemma quiet_build_response_header : quiet build_response_header.
Proof.
  intros t _.
  destruct (build_response_header_touches t) as (hs & c & ch & ->).
  cbn. auto.
Qed.

Create HintDb quiet discriminated.

#[local] Hint Resolve quiet_ret quiet_raise quiet_get quiet_write_soon
  quiet_build_response_header : quiet.

Ltac quiet_step :=
  first
    [ solve [auto with quiet nocore]
    | apply quiet_log_warning; reflexivity
    | apply quiet_modify; intros ?; cbn; auto; fail
    | apply quiet_when
    | apply quiet_try_finally
    | apply quiet_bind; [|intros ?]
    | progress cbv zeta
    | match goal with
      | |- quiet (if ?b then _ else _) => destruct b
      | |- quiet (match ?x with _ => _ end) => destruct x
      end ].

Lemma quiet_flush_header : quiet flush_header.
Proof. unfold flush_header. repeat quiet_step. Qed.

Lemma quiet_write_body data : quiet (write_body data).
Proof. unfold write_body. repeat quiet_step. Qed.

#[local] Hint Resolve quiet_flush_header quiet_write_body : quiet.

Lemma quiet_write data : quiet (write data).
Proof. unfold write. repeat quiet_step. Qed.

Lemma quiet_check_headers hs : quiet (check_headers hs).
Proof.
  induction hs as [|[k v] r IH]; cbn [check_headers]; repeat quiet_step.
  all: exact IH.
Qed.

#[local] Hint Resolve quiet_write quiet_check_headers : quiet.

Lemma quiet_start_response status headers exc_info :
  quiet (start_response status headers exc_info).
Proof. unfold start_response. repeat quiet_step. Qed.

#[local] Hint Resolve quiet_start_response : quiet.

Lemma quiet_run_calls cs : quiet (run_calls cs).
Proof.
  induction cs as [|[s h e|d|e] r IH]; cbn [run_calls]; repeat quiet_step;
    exact IH.
Qed.

#[local] Hint Resolve quiet_run_calls : quiet.

Lemma quiet_iterate it items : forall first, quiet (iterate it first items).
Proof.
  induction items as [|[calls chunk] r IH]; intros first; cbn [iterate];
    repeat quiet_step; apply IH.
Qed.

Lemma quiet_remove_content_length_header : quiet remove_content_length_header.
Proof. unfold remove_content_length_header. repeat quiet_step. Qed.

#[local] Hint Resolve quiet_iterate quiet_remove_content_length_header : quiet.

Lemma quiet_file_wrapper_path it : quiet (file_wrapper_path it).
Proof. unfold file_wrapper_path. repeat quiet_step. Qed.

Lemma quiet_read_proxy_headers hs : quiet (read_proxy_headers hs).
Proof. unfold read_proxy_headers. repeat quiet_step. Qed.

#[local] Hint Resolve quiet_file_wrapper_path quiet_read_proxy_headers : quiet.

Lemma quiet_parse_proxy_headers env hs : quiet (parse_proxy_headers env hs).
Proof. unfold parse_proxy_headers. repeat quiet_step. Qed.

#[local] Hint Resolve quiet_parse_proxy_headers : quiet.

Lemma quiet_get_environment : quiet get_environment.
Proof. unfold get_environment. repeat quiet_step. Qed.

Lemma quiet_check_too_few : quiet check_too_few.
Proof.
  intros t Ht. unfold check_too_few, bind, get, when, log_warning, modify.
  rewrite Ht. destruct (content_length t); [|cbn; auto].
  destruct (negb _); cbn; auto.
Qed.

#[local] Hint Resolve quiet_get_environment quiet_check_too_few : quiet.

Lemma quiet_execute : quiet execute.
Proof. unfold execute. repeat quiet_step. Qed.

Lemma bind_ok {A B} (c : M A) (k : A -> M B) t t' b :
  bind c k t = (t', Ok b) ->
  exists t1 a, c t = (t1, Ok a) /\ k a t1 = (t', Ok b).
Proof.
  unfold bind. destruct (c t) as [t1 [a|e]]; [eauto | discriminate].
Qed.

Lemma check_too_few_closes t : short_closes (check_too_few t).1.
Proof.
  unfold check_too_few, bind, get, when, log_warning, modify.
  destruct (content_length t) as [cl|] eqn:Hcl; [|cbn; congruence].
  destruct (content_bytes_written t =? cl) eqn:E; cbn [negb].
  - apply Z.eqb_eq in E. intros cl'. cbn. congruence.
  - intros cl' _ _. now destruct (negb _).
Qed.

Lemma file_wrapper_path_skips it t :
  is_rofbb it = false -> file_wrapper_path it t = (t, Ok false).
Proof. unfold file_wrapper_path. now intros ->. Qed.

(** C2, as stated, fails: a HEAD request whose application declares ten
    bytes and yields none leaves [execute] with [close_on_finish] set. *)
Lemma head_short_response_closes :
  let t := sample_task "1.1" "HEAD" ∅ short_app in
  let t' := (execute t).1 in
  command (request t) = "HEAD" /\
  content_length t' = Some 10 /\ content_bytes_written t' < 10 /\
  close_on_finish t = false /\
  ~ (close_on_finish t' = false).
Proof.
  cbv zeta. repeat split; try reflexivity. vm_compute. discriminate.
Qed.

(** C2, amended: on a HEAD request [execute] logs no warning about too few
    bytes; but when the iterable is exhausted (and was not handed over as a
    file buffer) with a content length that the byte counter did not reach,
    [close_on_finish] is set, as for any other method. *)
Theorem head_too_few_bytes (t : task)
    (Hhead : command (request t) = "HEAD") :
  let t' := (execute t).1 in
  too_few (log t') = too_few (log t) /\
  ((execute t).2 = Ok tt ->
   (forall env, is_rofbb (app_iter (application (server t) env)) = false) ->
   forall cl, content_length t' = Some cl ->
              content_bytes_written t' <> cl ->
              close_on_finish t' = true).
Proof.
  cbv zeta. split; [apply (quiet_execute t Hhead)|].
  intros Hok Hfile. fold (short_closes (execute t).1).
  destruct (execute t) as [t' r] eqn:E. cbn [fst snd] in *. subst r.
  unfold execute in E.
  apply bind_ok in E as (t1 & env & Henv & E).
  apply bind_ok in E as (t1' & t1'' & [= <- <-] & E).
  apply bind_ok in E as (t2 & [] & Hcalls & E).
  apply bind_ok in E as (t3 & served & Hfw & E).
  assert (Hs : server t1 = server t).
  { pose proof (quiet_get_environment t Hhead) as (_ & H & _).
    now rewrite Henv in H. }
  rewrite file_wrapper_path_skips in Hfw by (rewrite Hs; apply Hfile).
  injection Hfw as <- <-.
  unfold try_finally in E.
  destruct (bind _ _ t2) as [t4 r4] eqn:E4.
  assert (H4 : short_closes t4).
  { unfold bind in E4. destruct (iterate _ _ _ t2) as [t5 [[]|e]].
    - pose proof (check_too_few_closes t5) as H. now rewrite E4 in H.
    - injection E4 as <- <-. unfold when, modify, ret in E.
      destruct (has_close _); cbn in E; discriminate. }
  unfold when, modify, ret in E.
  destruct (has_close _); cbn in E; injection E as <- _; exact H4.
Qed.

Lemma head_too_few_bytes_witness :
  let t := sample_task "1.1" "HEAD" ∅ short_app in
  let t' := (execute t).1 in
  command (request t) = "HEAD" /\
  too_few (log t') = [] /\ close_on_finish t' = true.
Proof.
  cbv zeta.
  destruct (head_too_few_bytes (sample_task "1.1" "HEAD" ∅ short_app) eq_refl)
    as [H1 H2].
  split; [reflexivity|]. split; [exact H1|].
  apply (H2 eq_refl (fun _ => eq_refl) 10); [reflexivity|].
  vm_compute. discriminate.
Defined.

(** ** The [for] parameter of [Forwarded] *)

(** Every element of the [for] list contributes the same value, the text
    after the first [=] of the whole parameter. *)
Lemma for_params_repeats parameter v hops : forall acc,
  after_equals parameter = Ok v ->
  Forall (fun h => Py.startswith "for" (Py.strip h) = true) hops ->
  for_params parameter hops acc =
  Ok (acc ++ replicate (length hops) (_undquote v)).
Proof.
  induction hops as [|h r IH]; intros acc Hv Hf; cbn [for_params].
  - now rewrite app_nil_r.
  - apply Forall_cons in Hf as [Hh Hr]. rewrite Hh, Hv. cbn [negb rbind].
    rewrite (IH _ Hv Hr), <- app_assoc. reflexivity.
Qed.

(** C3 at [Forwarded: for=192.0.2.43, for=198.51.100.17]: the client address
    and the one element of the chain are both the text after the first [=]
    of the whole parameter, and that text becomes REMOTE_ADDR; the hops are
    not unquoted one by one.  An element that does not begin with [for]
    raises ValueError. *)
Theorem forwarded_for_hops_share_one_value :
  let t := sample_task "1.1" "GET" two_hops idle_app in
  match (read_proxy_headers two_hops t).2 with
  | Ok (l, _) =>
      client_addr l = Some "192.0.2.43, for=198.51.100.17" /\
      forwarded_for l = Some ["192.0.2.43, for=198.51.100.17"]
  | Raise _ => False
  end /\
  match (parse_proxy_headers ∅ two_hops t).2 with
  | Ok (env, _) =>
      env !! "REMOTE_ADDR" = Some (EStr "192.0.2.43, for=198.51.100.17")
  | Raise _ => False
  end /\
  (read_proxy_headers stray_hop t).2 = Raise ValueError.
Proof.
  cbv zeta. split; [|split].
  - vm_compute. split; reflexivity.
  - vm_compute. reflexivity.
  - vm_compute. reflexivity.
Qed.

End ExecuteFacts.

Section DispatcherMoreFacts.
Import Dispatcher DispatcherMore.

Lemma next_free_least fuel ts : forall n m,
  (n <= m < next_free fuel ts n)%nat -> m ∈ ts.
Proof.
  induction fuel as [|f IH]; intros n m; cbn [next_free]; [lia|].
  destruct (decide (n ∈ ts)) as [Hin|Hout]; [|lia].
  intros H. destruct (decide (m = n)) as [->|Hne]; [exact Hin|].
  apply (IH (S n)). lia.
Qed.

Lemma next_free_ge fuel ts : forall n, (n <= next_free fuel ts n)%nat.
Proof.
  induction fuel as [|f IH]; intros n; cbn [next_free]; [lia|].
  destruct (decide (n ∈ ts)); [|lia]. specialize (IH (S n)). lia.
Qed.

(** The loop that starts threads: [k] new identities, none of them in use,
    each the lowest free one from [thread_no] on. *)
Lemma start_threads_spec k : forall d no,
  (forall m, (m < no)%nat -> m ∈ threads d) ->
  let d' := start_threads k d no in
  exists new,
    length new = k /\
    handlers d' = handlers d ++ ((fun n => (n, InLoop)) <$> new) /\
    threads d' = threads d ∪ list_to_set new /\
    NoDup new /\
    (forall n, n ∈ new -> n ∉ threads d) /\
    (forall n m, n ∈ new -> (m < n)%nat -> m ∈ threads d') /\
    size (threads d') = (size (threads d) + k)%nat /\
    stop_count d' = stop_count d /\ queue d' = queue d.
Proof.
  induction k as [|k IH]; intros d no Hlow; cbn [start_threads].
  - exists []. cbn. rewrite app_nil_r, union_empty_r_L.
    split; [reflexivity|]. split; [reflexivity|]. split; [reflexivity|].
    split; [apply NoDup_nil_2|].
    split; [intros n Hn; now apply elem_of_nil in Hn|].
    split; [intros n m Hn; now apply elem_of_nil in Hn|].
    split; [lia|auto].
  - remember (next_free (S (size (threads d))) (threads d) no) as n eqn:En.
    assert (Hn : n ∉ threads d) by (subst n; apply next_free_fresh).
    assert (Hge : (no <= n)%nat) by (subst n; apply next_free_ge).
    assert (Hbelow : forall m, (m < n)%nat -> m ∈ threads d).
    { intros m Hm. destruct (decide (m < no)%nat) as [|Hmn]; [auto|].
      apply (next_free_least (S (size (threads d))) _ no).
      rewrite <- En. split; [apply Nat.nlt_ge, Hmn | exact Hm]. }
    destruct (IH (mkDispatcher ({[n]} ∪ threads d) (stop_count d) (queue d)
                    (handlers d ++ [(n, InLoop)])) (S n))
      as (new & Hlen & Hh & Ht & Hnd & Hfresh & Hleast & Hsz & Hs & Hq).
    { cbn. intros m Hm. apply elem_of_union.
      destruct (decide (m = n)) as [->|]; [left; now apply elem_of_singleton|].
      right. apply Hbelow. lia. }
    cbn [threads handlers stop_count queue] in *.
    exists (n :: new). cbn [length fmap list_fmap].
    split; [lia|]. split; [rewrite Hh, <- app_assoc; reflexivity|].
    split.
    { rewrite Ht. cbn [list_to_set].
      rewrite (union_comm_L {[n]} (threads d)), <- (assoc_L (∪)).
      reflexivity. }
    split.
    { apply NoDup_cons. split; [|assumption].
      intros Hin. apply (Hfresh n Hin). apply elem_of_union. left.
      now apply elem_of_singleton. }
    split.
    { intros x Hx. apply elem_of_cons in Hx as [->|Hx]; [assumption|].
      intros Hxd. apply (Hfresh x Hx). apply elem_of_union. now right. }
    split.
    { intros x m Hx Hm. apply elem_of_cons in Hx as [->|Hx]; [|eauto].
      rewrite Ht. apply elem_of_union. left. apply elem_of_union. right.
      auto. }
    split; [|auto].
    rewrite Hsz, size_union, size_singleton
      by (apply disjoint_singleton_l; exact Hn).
    lia.
Qed.

(** X1: after [set_thread_count(count)], the registered threads minus the
    pending stops are [count], whatever the state before. *)
Theorem set_thread_count_reaches (count : Z) (d : dispatcher) :
  running (set_thread_count count d) = count.
Proof.
  unfold running, set_thread_count.
  destruct (start_threads_spec
              (Z.to_nat (count - (Z.of_nat (size (threads d)) - stop_count d)))
              d 0%nat) as (new & _ & _ & _ & _ & _ & _ & Hsz & Hs & _);
    [intros m Hm; lia|].
  cbv zeta in Hsz, Hs.
  destruct (_ <? _) eqn:E; cbn [threads stop_count]; rewrite Hsz, Hs.
  - apply Z.ltb_lt in E. lia.
  - apply Z.ltb_ge in E. lia.
Qed.

(** X2: calling [set_thread_count] again with the same count changes nothing.
    *)
Theorem set_thread_count_idempotent (count : Z) (d : dispatcher) :
  set_thread_count count (set_thread_count count d) =
  set_thread_count count d.
Proof.
  pose proof (set_thread_count_reaches count d) as H. unfold running in H.
  remember (set_thread_count count d) as d1 eqn:E. clear E.
  unfold set_thread_count. rewrite H, Z.sub_diag, Z.max_id, Z.ltb_irrefl.
  reflexivity.
Qed.

(** X3: growing the pool: the threads started get the lowest identities not in
    use, the threads there before stay, and nothing is queued or stopped. *)
Theorem set_thread_count_grows (count : Z) (d : dispatcher)
    (Hgrow : running d <= count) :
  let d' := set_thread_count count d in
  exists new,
    Z.of_nat (length new) = count - running d /\
    handlers d' = handlers d ++ ((fun n => (n, InLoop)) <$> new) /\
    threads d' = threads d ∪ list_to_set new /\
    NoDup new /\
    (forall n, n ∈ new -> n ∉ threads d) /\
    (forall n m, n ∈ new -> (m < n)%nat -> m ∈ threads d') /\
    stop_count d' = stop_count d /\ queue d' = queue d.
Proof.
  unfold running in *. unfold set_thread_count.
  destruct (start_threads_spec
              (Z.to_nat (count - (Z.of_nat (size (threads d)) - stop_count d)))
              d 0%nat) as (new & Hl & Hh & Ht & Hnd & Hf & Hlow & _ & Hs & Hq);
    [intros m Hm; lia|].
  cbv zeta in *. rewrite Z.max_r by lia. rewrite Z.ltb_irrefl.
  exists new. repeat split; auto. lia.
Qed.

Lemma set_thread_count_grows_witness :
  running init <= 2 /\
  threads (set_thread_count 2 init) = {[0%nat; 1%nat]} /\
  queue (set_thread_count 2 init) = [].
Proof.
  assert (H : running init <= 2) by (vm_compute; discriminate).
  split; [exact H|].
  destruct (set_thread_count_grows 2 init H)
    as (new & _ & _ & _ & _ & _ & _ & _ & Hq).
  split; [vm_compute; reflexivity | exact Hq].
Defined.













End DispatcherMoreFacts.

Section BuilderFacts.
Import Task TaskMore.

Lemma named_app name hs1 hs2 :
  named name (hs1 ++ hs2) = named name hs1 ++ named name hs2.
Proof. apply List.filter_app. Qed.

(** The Server, Via and Date fields are all that [identity_headers] adds. *)
Lemma identity_headers_named l t hs name :
  name <> "Server" -> name <> "Via" -> name <> "Date" ->
  named name (identity_headers l t hs) = named name hs.
Proof.
  intros H1 H2 H3. unfold identity_headers.
  assert (E1 : String.eqb "Server" name = false)
    by (apply String.eqb_neq; congruence).
  assert (E2 : String.eqb "Via" name = false)
    by (apply String.eqb_neq; congruence).
  assert (E3 : String.eqb "Date" name = false)
    by (apply String.eqb_neq; congruence).
  destruct (negb (truthy (server_header l))),
    (nonempty (adj_ident (server t))), (negb (truthy (date_header l)));
    rewrite ?named_app; unfold named; cbn [List.filter fst];
    rewrite ?E1, ?E2, ?E3, ?app_nil_r; reflexivity.
Qed.

Lemma scan_of_scanned t :
  exists synth,
    scanned (scan_of t) =
      kept_headers (has_body t) (response_headers t) ++ synth /\
    (synth = [] \/
     exists cl, content_length t = Some cl /\ has_body t = true /\
                synth = [("Content-Length", Py.str_of_Z cl)]).
Proof.
  unfold scan_of, add_content_length.
  destruct (content_length_header _), (content_length t) as [cl|],
    (has_body t) eqn:Hb; cbn [scanned]; rewrite scan_headers_scanned;
    cbn [scanned app];
    try (exists []; rewrite app_nil_r; split; [reflexivity | now left]).
  eexists. split; [reflexivity|]. right. eauto.
Qed.

(** What [build_response_header] returns, by the branch on the version. *)
Lemma build_response_header_policy t hs t1 :
  connection_policy (request_connection t) (scan_of t) t = Some (hs, t1) ->
  build_response_header t =
  (set_response_headers (identity_headers (scan_of t) t1 hs) t1,
   Ok (serialise
         (set_response_headers (identity_headers (scan_of t) t1 hs) t1))).
Proof.
  intros H. unfold build_response_header.
  fold (request_connection t). fold (scan_of t). now rewrite H.
Qed.

Lemma scan_headers_connection hb hs : forall l,
  connection_close_header (scan_headers hb hs l) = None <->
  connection_close_header l = None /\
  named "Connection" (kept_headers hb hs) = [].
Proof.
  unfold kept_headers, named.
  induction hs as [|[n v] r IH]; intros l;
    cbn [scan_headers List.filter map fst snd]; [tauto|].
  destruct (String.eqb (recase n) "Content-Length" && negb hb) eqn:E;
    cbn [negb]; [apply IH|].
  rewrite IH. cbn [connection_close_header map List.filter fst snd].
  destruct (String.eqb (recase n) "Connection"); [|tauto].
  split; intros [H1 H2]; discriminate.
Qed.

Lemma scan_of_connection t :
  connection_close_header (scan_of t) = None <->
  named "Connection" (kept_headers (has_body t) (response_headers t)) = [].
Proof.
  unfold scan_of, add_content_length.
  destruct (content_length_header _), (content_length t), (has_body t);
    cbn [connection_close_header]; rewrite scan_headers_connection;
    cbn [connection_close_header]; tauto.
Qed.

(** The header list after [close_on_finish()], by names. *)
Lemma closing_named t hs :
  named "Connection" hs =
    named "Connection" (kept_headers (has_body t) (response_headers t)) ->
  named "Connection"
    (match connection_close_header (scan_of t) with
     | None => hs ++ [("Connection", "close")]
     | Some _ => hs
     end) = closing_connection t.
Proof.
  intros H. unfold closing_connection.
  destruct (connection_close_header (scan_of t)) eqn:E.
  - rewrite H.
    destruct (named "Connection"
                (kept_headers (has_body t) (response_headers t))) eqn:N;
      [|reflexivity].
    apply scan_of_connection in N. congruence.
  - rewrite named_app, H. apply scan_of_connection in E. now rewrite E.
Qed.

Lemma scan_of_named t name :
  name <> "Content-Length" ->
  named name (scanned (scan_of t)) =
  named name (kept_headers (has_body t) (response_headers t)).
Proof.
  intros Hn. destruct (scan_of_scanned t) as (synth & -> & [->|H]).
  - now rewrite app_nil_r.
  - destruct H as (cl & _ & _ & ->). rewrite named_app. unfold named at 2.
    cbn [List.filter fst].
    assert (E : String.eqb "Content-Length" name = false)
      by (apply String.eqb_neq; congruence).
    now rewrite E, app_nil_r.
Qed.

Ltac policy_cases t :=
  unfold connection_policy, close_on_finish_fn;
  fold (length_header t);
  cbn [fst snd close_on_finish chunked_response set_close_on_finish
       set_chunked_response].

(** X5: HTTP/1.0 without keep-alive, or without a content length: the builder
    closes the connection. *)
Theorem http10_closes (t : task)
    (Hv : version t = "1.0")
    (Hc : request_connection t <> "keep-alive" \/
          truthy (length_header t) = false) :
  let t' := (build_response_header t).1 in
  close_on_finish t' = true /\
  chunked_response t' = chunked_response t /\
  named "Connection" (response_headers t') = closing_connection t.
Proof.
  assert (H : exists hs,
    connection_policy (request_connection t) (scan_of t) t =
    Some (hs, set_close_on_finish true t) /\
    named "Connection" hs = closing_connection t).
  { policy_cases t. rewrite Hv. change (String.eqb "1.0" "1.0") with true.
    cbv iota.
    assert (Hn := closing_named t (scanned (scan_of t))
                    (scan_of_named t "Connection" ltac:(discriminate))).
    destruct Hc as [Hc|Hc].
    - apply String.eqb_neq in Hc. rewrite Hc. eauto.
    - rewrite Hc. destruct (String.eqb _ _); cbn [negb]; eauto. }
  destruct H as (hs & H & Hn).
  rewrite (build_response_header_policy t _ _ H). task_simpl.
  rewrite identity_headers_named by discriminate. auto.
Qed.

Lemma http10_closes_witness :
  let t := sample_task "1.0" "GET" keep_alive idle_app in
  let t' := (build_response_header t).1 in
  truthy (length_header t) = false /\
  close_on_finish t' = true /\
  named "Connection" (response_headers t') = [("Connection", "close")].
Proof.
  cbv zeta. split; [reflexivity|].
  destruct (http10_closes (sample_task "1.0" "GET" keep_alive idle_app))
    as (H1 & _ & H3); [reflexivity | right; reflexivity |].
  split; [exact H1 | exact H3].
Defined.

(** X6: HTTP/1.0 with keep-alive and a content length: the connection stays as
    it was and the prologue says Connection: Keep-Alive. *)
Theorem http10_keep_alive (t : task)
    (Hv : version t = "1.0")
    (Hc : request_connection t = "keep-alive")
    (Hl : truthy (length_header t) = true) :
  let t' := (build_response_header t).1 in
  close_on_finish t' = close_on_finish t /\
  chunked_response t' = chunked_response t /\
  named "Connection" (response_headers t') =
    named "Connection" (kept_headers (has_body t) (response_headers t)) ++
    [("Connection", "Keep-Alive")].
Proof.
  assert (H : connection_policy (request_connection t) (scan_of t) t =
              Some (scanned (scan_of t) ++ [("Connection", "Keep-Alive")], t)).
  { policy_cases t. rewrite Hv, Hc, Hl. reflexivity. }
  rewrite (build_response_header_policy t _ _ H). task_simpl.
  rewrite identity_headers_named, named_app, scan_of_named by discriminate.
  auto.
Qed.

Lemma http10_keep_alive_witness :
  let t := sized_task "1.0" keep_alive 2 in
  let t' := (build_response_header t).1 in
  close_on_finish t' = false /\
  named "Connection" (response_headers t') = [("Connection", "Keep-Alive")].
Proof.
  cbv zeta.
  destruct (http10_keep_alive (sized_task "1.0" keep_alive 2))
    as (H1 & _ & H3); try reflexivity.
  split; [exact H1 | exact H3].
Defined.

(** X7: HTTP/1.1 with a content length and no request to close: the builder
    leaves the connection open and adds neither a Connection nor a
    Transfer-Encoding header. *)
Theorem http11_keeps_open (t : task)
    (Hv : version t = "1.1")
    (Hc : request_connection t <> "close")
    (Hl : truthy (length_header t) = true) :
  let t' := (build_response_header t).1 in
  close_on_finish t' = close_on_finish t /\
  chunked_response t' = chunked_response t /\
  named "Connection" (response_headers t') =
    named "Connection" (kept_headers (has_body t) (response_headers t)) /\
  named "Transfer-Encoding" (response_headers t') =
    named "Transfer-Encoding"
          (kept_headers (has_body t) (response_headers t)).
Proof.
  assert (H : connection_policy (request_connection t) (scan_of t) t =
              Some (scanned (scan_of t), t)).
  { policy_cases t. apply String.eqb_neq in Hc. rewrite Hv, Hc, Hl.
    reflexivity. }
  rewrite (build_response_header_policy t _ _ H). task_simpl.
  rewrite !identity_headers_named, !scan_of_named by discriminate.
  auto.
Qed.

Lemma http11_keeps_open_witness :
  let t := sized_task "1.1" ∅ 2 in
  let t' := (build_response_header t).1 in
  close_on_finish t' = false /\ chunked_response t' = false /\
  named "Connection" (response_headers t') = [].
Proof.
  cbv zeta.
  destruct (http11_keeps_open (sized_task "1.1" ∅ 2))
    as (H1 & H2 & H3 & _); try reflexivity; [discriminate|].
  split; [exact H1|]. split; [exact H2 | exact H3].
Defined.

(** X8: HTTP/1.1 with [Connection: close] in the request: the builder closes
    the connection, and says so once. *)
Theorem http11_close_requested (t : task)
    (Hv : version t = "1.1")
    (Hc : request_connection t = "close") :
  let t' := (build_response_header t).1 in
  close_on_finish t' = true /\
  named "Connection" (response_headers t') = closing_connection t.
Proof.
  assert (H : exists hs ch,
    connection_policy (request_connection t) (scan_of t) t =
    Some (hs, set_close_on_finish true (set_chunked_response ch t)) /\
    named "Connection" hs = closing_connection t).
  { policy_cases t. rewrite Hv, Hc.
    change (String.eqb "1.1" "1.0") with false.
    change (String.eqb "1.1" "1.1") with true.
    change (String.eqb "close" "close") with true. cbv iota.
    cbn [fst snd close_on_finish set_close_on_finish].
    assert (Hn := closing_named t (scanned (scan_of t))
                    (scan_of_named t "Connection" ltac:(discriminate))).
    destruct (negb (truthy (length_header t))); [destruct (has_body t)|];
      cbn [fst snd close_on_finish set_close_on_finish set_chunked_response
           negb].
    - eexists _, true. split; [reflexivity|].
      rewrite named_app, Hn.
      change (named "Connection" [("Transfer-Encoding", "chunked")])
        with (@nil (string * string)).
      apply app_nil_r.
    - exists (match connection_close_header (scan_of t) with
              | None => scanned (scan_of t) ++ [("Connection", "close")]
              | Some _ => scanned (scan_of t)
              end), (chunked_response t).
      split; [|exact Hn]. now destruct t.
    - exists (match connection_close_header (scan_of t) with
              | None => scanned (scan_of t) ++ [("Connection", "close")]
              | Some _ => scanned (scan_of t)
              end), (chunked_response t).
      split; [|exact Hn]. now destruct t. }
  destruct H as (hs & ch & H & Hn).
  rewrite (build_response_header_policy t _ _ H). task_simpl.
  rewrite identity_headers_named by discriminate. auto.
Qed.

Lemma http11_close_requested_witness :
  let t := sized_task "1.1" please_close 2 in
  let t' := (build_response_header t).1 in
  close_on_finish t' = true /\
  named "Connection" (response_headers t') = [("Connection", "close")].
Proof.
  cbv zeta.
  destruct (http11_close_requested (sized_task "1.1" please_close 2))
    as (H1 & H2); try reflexivity.
  split; [exact H1 | exact H2].
Defined.

(** What the branch on the version adds and sets, in all its cases. *)
Lemma connection_policy_added t hs t1 :
  connection_policy (request_connection t) (scan_of t) t = Some (hs, t1) ->
  (exists extra,
     hs = scanned (scan_of t) ++ extra /\ Forall (lifetime_header t) extra) /\
  (chunked_response t1 = chunked_response t \/
   (chunked_response t1 = true /\
    ("Transfer-Encoding", "chunked") ∈ hs /\ close_on_finish t1 = true /\
    has_body t = true /\ version t = "1.1" /\
    truthy (length_header t) = false)) /\
  (truthy (length_header t) = false -> close_on_finish t1 = true).
Proof.
  policy_cases t. unfold lifetime_header.
  destruct (String.eqb (version t) "1.0") eqn:V0;
    [|destruct (String.eqb (version t) "1.1") eqn:V1; [|discriminate]].
  - destruct (String.eqb (request_connection t) "keep-alive"),
      (truthy (length_header t)), (connection_close_header (scan_of t));
      cbn [negb]; intros [= <- <-]; task_simpl;
      (split; [|split; [now left | try reflexivity; discriminate]]);
      first [ exists []; rewrite app_nil_r; split; [reflexivity|constructor]
            | eexists [_]; split; [reflexivity|];
              constructor; [now left | constructor] ].
  - apply String.eqb_eq in V1.
    destruct (String.eqb (request_connection t) "close"),
      (truthy (length_header t)) eqn:L, (has_body t) eqn:B,
      (connection_close_header (scan_of t)), (close_on_finish t) eqn:C;
      cbn [negb fst snd close_on_finish set_close_on_finish
           set_chunked_response];
      rewrite ?C; cbn [negb]; intros [= <- <-]; task_simpl;
      rewrite <- ?app_assoc; cbn [app].
    all: split;
      [|split;
        [first [ now left
               | right; rewrite !elem_of_app, !elem_of_cons;
                 repeat split; auto 6 ]
        | first [ reflexivity | assumption | discriminate
                | intros _; assumption ] ]].
    all: first
      [ exists []; rewrite app_nil_r; split; [reflexivity|constructor]
      | eexists; split; [reflexivity|];
        repeat (constructor; [first [now left | right; auto]|]);
        constructor ].
Qed.

Lemma scan_headers_bodiless hs : forall l,
  content_length_header (scan_headers false hs l) = content_length_header l.
Proof.
  induction hs as [|[n v] r IH]; intros l; cbn [scan_headers]; [reflexivity|].
  destruct (String.eqb (recase n) "Content-Length") eqn:E; cbn [andb negb];
    rewrite IH; [reflexivity|]. cbn. reflexivity.
Qed.

Lemma kept_headers_bodiless hs :
  named "Content-Length" (kept_headers false hs) = [].
Proof.
  unfold named, kept_headers.
  induction hs as [|[n v] r IH]; cbn [List.filter map fst snd];
    [reflexivity|].
  destruct (String.eqb (recase n) "Content-Length") eqn:E;
    cbn [andb negb map List.filter fst snd]; [exact IH|].
  now rewrite E.
Qed.

Lemma length_header_bodiless t : has_body t = false -> length_header t = None.
Proof.
  intros Hb. unfold length_header, scan_of.
  assert (E : forall l, add_content_length t l = l).
  { intros l. unfold add_content_length. rewrite Hb.
    now destruct (content_length_header l), (content_length t). }
  rewrite E, Hb. apply scan_headers_bodiless.
Qed.

Lemma lifetime_named t name extra :
  name <> "Connection" ->
  (name = "Transfer-Encoding" -> has_body t = false) ->
  Forall (lifetime_header t) extra -> named name extra = [].
Proof.
  intros H1 H2. unfold named.
  induction 1 as [|h r Hh Hr IH]; cbn [List.filter]; [reflexivity|].
  destruct (String.eqb h.1 name) eqn:E; [|exact IH].
  apply String.eqb_eq in E.
  destruct Hh as [Hh|(-> & Hb & _)]; [congruence|].
  cbn in E. rewrite H2 in Hb by congruence. discriminate.
Qed.

(** X9: A status that forbids a body (1xx, 204, 304): the prologue has no
    Content-Length, the builder adds no Transfer-Encoding and does not switch
    to chunks, and it closes the connection. *)
Theorem bodiless_response (t : task)
    (Hv : supported_version t)
    (Hb : has_body t = false) :
  let t' := (build_response_header t).1 in
  named "Content-Length" (response_headers t') = [] /\
  named "Transfer-Encoding" (response_headers t') =
    named "Transfer-Encoding" (kept_headers false (response_headers t)) /\
  chunked_response t' = chunked_response t /\
  close_on_finish t' = true.
Proof.
  destruct (connection_policy_defined (request_connection t) (scan_of t) t Hv)
    as (hs & t1 & H).
  rewrite (build_response_header_policy t _ _ H). task_simpl.
  destruct (connection_policy_added t hs t1 H)
    as ((extra & -> & Hx) & Hch & Hcl).
  rewrite !identity_headers_named, !named_app by discriminate.
  destruct (scan_of_scanned t) as (synth & -> & [->|(cl & _ & Hb' & _)]);
    [|congruence].
  rewrite app_nil_r, Hb, kept_headers_bodiless.
  rewrite !(lifetime_named t _ extra) by (auto; discriminate).
  rewrite !app_nil_r. split; [reflexivity|]. split; [reflexivity|]. split.
  - destruct Hch as [Hch|(_ & _ & _ & Hb' & _)]; [exact Hch | congruence].
  - apply Hcl. now rewrite length_header_bodiless.
Qed.

Lemma bodiless_response_witness :
  let t' := (build_response_header not_modified_task).1 in
  has_body not_modified_task = false /\
  named "Content-Length" (response_headers t') = [] /\
  close_on_finish t' = true.
Proof.
  cbv zeta. split; [reflexivity|].
  destruct (bodiless_response not_modified_task) as (H1 & _ & _ & H4);
    [right; reflexivity | reflexivity |].
  split; [exact H1 | exact H4].
Defined.

(** X10: the builder switches to chunks only for HTTP/1.1, a status that
    permits a body and no content length; it then announces them and closes
    the connection. *)
Theorem chunked_only_without_length (t : task)
    (Hbefore : chunked_response t = false)
    (Hafter : chunked_response (build_response_header t).1 = true) :
  let t' := (build_response_header t).1 in
  version t = "1.1" /\ has_body t = true /\
  truthy (length_header t) = false /\
  ("Transfer-Encoding", "chunked") ∈ response_headers t' /\
  close_on_finish t' = true.
Proof.
  unfold build_response_header in *.
  fold (request_connection t) in *. fold (scan_of t) in *.
  destruct (connection_policy (request_connection t) (scan_of t) t)
    as [[hs t1]|] eqn:H; [|cbn in Hafter; congruence].
  task_simpl.
  destruct (connection_policy_added t hs t1 H)
    as (_ & [Hch|(_ & Hin & Hc & Hb & Hv & Hl)] & _); [congruence|].
  repeat split; try assumption.
  destruct (identity_headers_app (scan_of t) t1 hs) as [more ->].
  apply elem_of_app. now left.
Qed.

Lemma chunked_only_without_length_witness :
  let t := sample_task "1.1" "GET" ∅ idle_app in
  version t = "1.1" /\ has_body t = true /\
  close_on_finish (build_response_header t).1 = true.
Proof.
  cbv zeta.
  destruct (chunked_only_without_length (sample_task "1.1" "GET" ∅ idle_app))
    as (H1 & H2 & _ & _ & H5); try reflexivity.
  split; [exact H1|]. split; [exact H2 | exact H5].
Defined.

Lemma last_snd_cons (h : string * string) (l : list (string * string)) :
  snd <$> last (h :: l) =
  match snd <$> last l with Some v => Some v | None => Some h.2 end.
Proof.
  destruct l as [|a l]; [reflexivity|].
  change (last (h :: a :: l)) with (last (a :: l)).
  destruct (last (a :: l)) eqn:E; [reflexivity|].
  exfalso. revert E. clear. revert a.
  induction l as [|b l IH]; intros a; [discriminate|].
  change (last (a :: b :: l)) with (last (b :: l)). apply IH.
Qed.

(** [date_header] and [server_header] after the loop: the value of the last
    header of the name. *)
Lemma scan_headers_last hb hs : forall l,
  date_header (scan_headers hb hs l) =
    match last_value "Date" (kept_headers hb hs) with
    | Some v => Some v
    | None => date_header l
    end /\
  server_header (scan_headers hb hs l) =
    match last_value "Server" (kept_headers hb hs) with
    | Some v => Some v
    | None => server_header l
    end.
Proof.
  unfold last_value, named, kept_headers.
  induction hs as [|[n v] r IH]; intros l;
    cbn [scan_headers List.filter map fst snd]; [split; reflexivity|].
  destruct (String.eqb (recase n) "Content-Length" && negb hb);
    cbn [negb]; [apply IH|].
  destruct (IH (mkScan (scanned l ++ [(recase n, v)])
                  (if String.eqb (recase n) "Content-Length"
                   then Some v else content_length_header l)
                  (if String.eqb (recase n) "Date"
                   then Some v else date_header l)
                  (if String.eqb (recase n) "Server"
                   then Some v else server_header l)
                  (if String.eqb (recase n) "Connection"
                   then Some (Py.lower v) else connection_close_header l)))
    as [-> ->].
  cbn [date_header server_header map List.filter fst snd].
  split.
  - destruct (String.eqb (recase n) "Date"); [|reflexivity].
    rewrite last_snd_cons. cbn [snd].
    match goal with
    | |- context [snd <$> last ?x] => now destruct (snd <$> last x)
    end.
  - destruct (String.eqb (recase n) "Server"); [|reflexivity].
    rewrite last_snd_cons. cbn [snd].
    match goal with
    | |- context [snd <$> last ?x] => now destruct (snd <$> last x)
    end.
Qed.

Lemma scan_of_last t :
  date_header (scan_of t) =
    last_value "Date" (kept_headers (has_body t) (response_headers t)) /\
  server_header (scan_of t) =
    last_value "Server" (kept_headers (has_body t) (response_headers t)).
Proof.
  destruct (scan_headers_last (has_body t) (response_headers t)
              (mkScan [] None None None None)) as [Hd Hs].
  cbn [date_header server_header] in Hd, Hs.
  unfold scan_of, add_content_length.
  destruct (content_length_header _), (content_length t), (has_body t);
    cbn [date_header server_header]; rewrite Hd, Hs;
    (split; [destruct (last_value "Date" _)
            |destruct (last_value "Server" _)]; reflexivity).
Qed.

Lemma named_single name k v :
  named name [(k, v)] = if String.eqb k name then [(k, v)] else [].
Proof. reflexivity. Qed.

(** X11: the Server, Via and Date headers of the prologue: the builder adds a
    Date and a Server (its identity, if it has one) where the task holds none
    with a value, and a Via where it holds a Server. *)
Theorem server_and_date (t : task) (Hv : supported_version t) :
  let kept := kept_headers (has_body t) (response_headers t) in
  let final := response_headers (build_response_header t).1 in
  let ident := adj_ident (server t) in
  named "Date" final =
    named "Date" kept ++
    (if truthy (last_value "Date" kept) then []
     else [("Date", Utilities.build_http_date (start_time t))]) /\
  named "Server" final =
    named "Server" kept ++
    (if truthy (last_value "Server" kept) then []
     else if nonempty ident then [("Server", ident)] else []) /\
  named "Via" final =
    named "Via" kept ++
    (if truthy (last_value "Server" kept)
     then [("Via", if nonempty ident then ident else "waitress")] else []).
Proof.
  cbv zeta.
  destruct (connection_policy_defined (request_connection t) (scan_of t) t Hv)
    as (hs & t1 & H).
  rewrite (build_response_header_policy t _ _ H). task_simpl.
  destruct (connection_policy_added t hs t1 H) as ((extra & -> & Hx) & _ & _).
  pose proof (connection_policy_frame _ _ _ _ _ H) as [_ Et].
  assert (Es : server t1 = server t) by (rewrite Et; reflexivity).
  assert (Est : start_time t1 = start_time t) by (rewrite Et; reflexivity).
  destruct (scan_of_last t) as [Hd Hs].
  unfold identity_headers. rewrite Hd, Hs, Es, Est.
  assert (N : forall name, name <> "Connection" ->
                name <> "Transfer-Encoding" -> name <> "Content-Length" ->
                named name (scanned (scan_of t)) ++ named name extra =
                named name (kept_headers (has_body t) (response_headers t))).
  { intros name N1 N2 N3.
    rewrite scan_of_named, (lifetime_named t name extra)
      by (auto; congruence).
    apply app_nil_r. }
  destruct (truthy (last_value "Server" _)), (nonempty (adj_ident (server t))),
    (truthy (last_value "Date" _)); cbn [negb];
    rewrite ?named_app, !N by discriminate;
    rewrite ?named_single; cbn [String.eqb Ascii.eqb Bool.eqb];
    rewrite ?app_nil_r; repeat split; reflexivity.
Qed.

Lemma server_and_date_witness :
  let final := response_headers (build_response_header relay_task).1 in
  supported_version relay_task /\
  named "Server" final = [("Server", "backend/1.0")] /\
  named "Via" final = [("Via", "waitress")] /\
  named "Date" final = [("Date", "Thu, 01 Jan 1970 00:00:00 GMT")].
Proof.
  cbv zeta.
  assert (Hv : supported_version relay_task) by (right; reflexivity).
  destruct (server_and_date relay_task Hv) as (H1 & H2 & H3).
  split; [exact Hv|]. split; [exact H2|]. split; [exact H3 | exact H1].
Defined.

Lemma scan_headers_length hb hs : forall l,
  content_length_header (scan_headers hb hs l) =
    match last_value "Content-Length" (kept_headers hb hs) with
    | Some v => Some v
    | None => content_length_header l
    end.
Proof.
  unfold last_value, named, kept_headers.
  induction hs as [|[n v] r IH]; intros l;
    cbn [scan_headers List.filter map fst snd]; [reflexivity|].
  destruct (String.eqb (recase n) "Content-Length" && negb hb);
    cbn [negb]; [apply IH|].
  rewrite IH. cbn [content_length_header map List.filter fst snd].
  destruct (String.eqb (recase n) "Content-Length"); [|reflexivity].
  rewrite last_snd_cons. cbn [snd].
  match goal with
  | |- context [snd <$> last ?x] => now destruct (snd <$> last x)
  end.
Qed.

Lemma last_value_none name hs :
  last_value name hs = None <-> named name hs = [].
Proof.
  unfold last_value. destruct (named name hs) as [|h l]; [tauto|].
  rewrite last_snd_cons. destruct (snd <$> last l); split; discriminate.
Qed.

(** X12: the Content-Length of the prologue: the headers the task holds; or,
    where it holds none and the status permits a body, the one made from
    [content_length]. *)
Theorem content_length_announced (t : task) (Hv : supported_version t) :
  let kept := kept_headers (has_body t) (response_headers t) in
  let final := response_headers (build_response_header t).1 in
  named "Content-Length" final =
    match named "Content-Length" kept, content_length t with
    | [], Some cl =>
        if has_body t then [("Content-Length", Py.str_of_Z cl)] else []
    | held, _ => held
    end.
Proof.
  cbv zeta.
  destruct (connection_policy_defined (request_connection t) (scan_of t) t Hv)
    as (hs & t1 & H).
  rewrite (build_response_header_policy t _ _ H). task_simpl.
  destruct (connection_policy_added t hs t1 H) as ((extra & -> & Hx) & _ & _).
  rewrite identity_headers_named, named_app by discriminate.
  rewrite (lifetime_named t _ extra), app_nil_r by (auto; discriminate).
  unfold scan_of, add_content_length.
  rewrite scan_headers_length. cbn [content_length_header].
  destruct (last_value "Content-Length" _) as [v|] eqn:E.
  - rewrite scan_headers_scanned. cbn [scanned app].
    destruct (named "Content-Length" (kept_headers _ _)) eqn:N;
      [|reflexivity].
    apply last_value_none in N. congruence.
  - apply last_value_none in E.
    destruct (content_length t) as [cl|], (has_body t); cbn [scanned];
      rewrite scan_headers_scanned; cbn [scanned app];
      rewrite ?named_app, E; reflexivity.
Qed.

Lemma content_length_announced_witness :
  let t := sized_task "1.0" ∅ 12 in
  supported_version t /\
  named "Content-Length" (response_headers (build_response_header t).1) =
  [("Content-Length", "12")].
Proof.
  cbv zeta.
  assert (Hv : supported_version (sized_task "1.0" ∅ 12))
    by (left; reflexivity).
  split; [exact Hv | exact (content_length_announced _ Hv)].
Defined.

End BuilderFacts.

Section WriteMoreFacts.
Import Task WSGITask WriteMore.


(** What [write_body] may change. *)
Lemma write_body_touches data t :
  exists n le nb lg w b,
    (write_body data t).1 =
    set_channel w b (set_log lg (set_logged_write_no_body nb
      (set_logged_write_excess le (set_content_bytes_written n t)))).
Proof.
  unfold write_body, bind, get, when, log_warning, modify, ret.
  destruct (nonempty data && has_body t);
    [destruct (chunked_response t); [|destruct (content_length t) as [cl|]]|].
  all: repeat match goal with
         | |- context [if ?c then _ else _] => destruct c
         end; task_simpl.
  all: try match goal with
         | |- context [write_soon ?p ?t1] =>
             destruct (write_soon_touches p t1) as (w & b & ->)
         end.
  all: match goal with
       | |- exists n le nb lg w b, ?x = _ =>
           exists (content_bytes_written x), (logged_write_excess x),
             (logged_write_no_body x), (log x), (written x),
             (socket_budget x)
       end; destruct t; reflexivity.
Qed.

(** What [write_body] keeps of the task. *)
Lemma write_body_keeps data t :
  let t' := (write_body data t).1 in
  complete t' = complete t /\ request t' = request t /\
  server t' = server t /\ version t' = version t /\
  response_headers t' = response_headers t /\
  close_on_finish t' = close_on_finish t /\
  (socket_budget t = None -> socket_budget t' = None).
Proof.
  cbv zeta.
  destruct (write_body_touches data t) as (n & le & nb & lg & w & b & E).
  rewrite E. task_simpl. repeat split; try reflexivity.
  intros Hs. revert E.
  unfold write_body, bind, get, when, log_warning, modify, ret.
  destruct (nonempty data && has_body t);
    [destruct (chunked_response t); [|destruct (content_length t) as [cl|]]|].
  all: repeat match goal with
         | |- context [if ?c then _ else _] => destruct c
         end; task_simpl.
  all: rewrite ?write_soon_unlimited by (task_simpl; exact Hs).
  all: task_simpl; intros E; apply (f_equal socket_budget) in E;
    revert E; task_simpl; congruence.
Qed.

Lemma length_app (a b : string) :
  String.length (a +:+ b) = (String.length a + String.length b)%nat.
Proof.
  induction a as [|c a IH]; [reflexivity|].
  change (String c a +:+ b) with (String c (a +:+ b)). cbn. now rewrite IH.
Qed.

Lemma substring_app (n : nat) (a b : string) :
  String.substring 0 n (a +:+ b) =
  String.substring 0 n a +:+ String.substring 0 (n - String.length a) b.
Proof.
  revert n. induction a as [|c a IH]; intros n.
  - change (EmptyString +:+ b) with b. rewrite Nat.sub_0_r.
    destruct n; reflexivity.
  - change (String c a +:+ b) with (String c (a +:+ b)).
    destruct n as [|n]; cbn [String.substring String.length Nat.sub].
    + now destruct b.
    + rewrite IH. reflexivity.
Qed.

Lemma substring_all (n : nat) (s : string) :
  (String.length s <= n)%nat -> String.substring 0 n s = s.
Proof.
  revert n. induction s as [|c s IH]; intros [|n] H; cbn in *;
    try reflexivity; try lia.
  rewrite IH by lia. reflexivity.
Qed.

(** A prefix and the rest of the prefix. *)
Lemma slice_to_app (k : Z) (a b : string) :
  0 <= k ->
  Py.slice_to k (a +:+ b) =
  Py.slice_to k a +:+ Py.slice_to (k - Py.len (Py.slice_to k a)) b.
Proof.
  intros Hk. rewrite slice_to_len by exact Hk.
  unfold Py.slice_to, Py.len.
  destruct (0 <=? k) eqn:E; [|apply Z.leb_gt in E; lia].
  destruct (0 <=? k - _) eqn:E'; [|apply Z.leb_gt in E'; lia].
  rewrite substring_app. f_equal. f_equal. lia.
Qed.

(** The prefix is the whole text exactly when the bound reaches its end. *)
Lemma slice_to_whole (k : Z) (s : string) :
  0 <= k -> String.eqb (Py.slice_to k s) s = (Py.len s <=? k).
Proof.
  intros Hk. destruct (Py.len s <=? k) eqn:E.
  - apply Z.leb_le in E. apply String.eqb_eq.
    unfold Py.slice_to, Py.len in *.
    destruct (0 <=? k) eqn:E'; [|apply Z.leb_gt in E'; lia].
    apply substring_all. lia.
  - apply Z.leb_gt in E. apply String.eqb_neq. intros H.
    apply (f_equal Py.len) in H. rewrite slice_to_len in H by exact Hk. lia.
Qed.

Lemma bytes_of_snoc (ps : list payload) (b : string) :
  bytes_of (ps ++ [Bytes b]) = bytes_of ps +:+ b.
Proof.
  induction ps as [|[x|n] ps IH]; cbn [app bytes_of].
  - now rewrite append_nil_r.
  - now rewrite IH, append_assoc.
  - exact IH.
Qed.

Lemma joined_cons (c : string) (cs : list string) :
  joined (c :: cs) = c +:+ joined cs.
Proof.
  unfold joined. destruct cs as [|d cs]; cbn [String.concat].
  - now rewrite append_nil_r.
  - reflexivity.
Qed.

Lemma len_app (a b : string) : Py.len (a +:+ b) = Py.len a + Py.len b.
Proof. unfold Py.len. rewrite length_app. lia. Qed.

Lemma len_nonneg (s : string) : 0 <= Py.len s.
Proof. unfold Py.len. lia. Qed.

(** Once the prologue is out, [write] is its body part. *)
Lemma write_after_header data t :
  complete t = true -> wrote_header t = true ->
  write data t = write_body data t.
Proof.
  intros Hc Hw. unfold write, flush_header, bind, get, when.
  rewrite Hc. cbn [negb]. rewrite Hw. reflexivity.
Qed.

(** The writes of a sized response, one chunk after the other. *)
Lemma sized_stream_steps it cl cs :
  at_end it = [] ->
  forall t,
    complete t = true -> wrote_header t = true ->
    chunked_response t = false -> content_length t = Some cl ->
    has_body t = true -> socket_budget t = None ->
    content_bytes_written t <= cl ->
    let r := iterate it false (plain_chunks cs) t in
    r.2 = Ok tt /\
    content_bytes_written r.1 =
      Z.min cl (content_bytes_written t + Py.len (joined cs)) /\
    bytes_of (written r.1) =
      bytes_of (written t) +:+
      Py.slice_to (cl - content_bytes_written t) (joined cs) /\
    log r.1 =
      log t ++
      (if (cl <? content_bytes_written t + Py.len (joined cs)) &&
          negb (logged_write_excess t)
       then [WriteExcess cl] else []) /\
    close_on_finish r.1 = close_on_finish t /\
    response_headers r.1 = response_headers t.
Proof.
  intros Hend. induction cs as [|c cs IH]; intros t Hc Hw Hch Hcl Hb Hs Hn.
  - cbn [plain_chunks map iterate]. rewrite Hend. cbn [run_calls ret fst snd].
    change (joined []) with EmptyString. change (Py.len EmptyString) with 0.
    rewrite Z.add_0_r, Z.min_r by lia.
    replace (cl <? content_bytes_written t) with false
      by (symmetry; apply Z.ltb_ge; lia).
    cbn [andb]. rewrite app_nil_r.
    replace (Py.slice_to _ EmptyString) with EmptyString
      by (unfold Py.slice_to; destruct (0 <=? _);
          now destruct (Z.to_nat _)).
    now rewrite append_nil_r.
  - change (iterate it false (plain_chunks (c :: cs)) t) with
      (bind (when (nonempty c) (write c))
            (fun _ => iterate it false (plain_chunks cs)) t).
    rewrite joined_cons, len_app.
    pose proof (len_nonneg (joined cs)) as Hj.
    destruct (nonempty c) eqn:Hne.
    + unfold when, bind. rewrite write_after_header by assumption.
      destruct (write_body_truncates c t cl Hcl Hb Hn Hs Hne Hch)
        as (Hok & Hcbw & Hwr & Hlog & Hle).
      destruct (write_body_frame c t) as (Fcl & Fst & Fch & Fwh).
      destruct (write_body_keeps c t) as (Kc & _ & _ & _ & Krh & Kcf & Ks).
      pose proof (slice_to_len (cl - content_bytes_written t) c) as Hlen.
      pose proof (slice_to_whole (cl - content_bytes_written t) c) as Hwh.
      pose proof (len_nonneg c) as Hlc.
      destruct (write_body c t) as [t' rr]. cbn [fst snd] in *. subst rr.
      specialize (IH t'). cbv zeta in IH.
      destruct IH as (Iok & Icbw & Iwr & Ilog & Icf & Irh);
        try congruence.
      { rewrite (has_body_status t' t); assumption. }
      { apply Ks, Hs. }
      { lia. }
      split; [exact Iok|]. split; [lia|].
      split.
      { rewrite Iwr, Hwr, Hcbw.
        rewrite (slice_to_app _ c) by lia.
        rewrite <- append_assoc.
        replace (cl - (content_bytes_written t + _)) with
          (cl - content_bytes_written t -
           Py.len (Py.slice_to (cl - content_bytes_written t) c)) by lia.
        f_equal.
        destruct (nonempty (Py.slice_to _ c)) eqn:Hnt;
          [apply bytes_of_snoc|].
        rewrite app_nil_r.
        destruct (Py.slice_to _ c); [|discriminate].
        now rewrite append_nil_r. }
      split; [|split; congruence].
      rewrite Ilog, Hlog, Hle, Hcbw, <- app_assoc. f_equal.
      rewrite Hwh by lia.
      destruct (logged_write_excess t); cbn [negb andb orb];
        [now rewrite !andb_false_r|].
      rewrite !andb_true_r.
      destruct (Py.len c <=? _) eqn:E1; cbn [negb].
      * apply Z.leb_le in E1. rewrite Z.min_r in Hlen by lia.
        rewrite Hlen by lia. cbn [app orb negb].
        now rewrite ?andb_true_r, Z.add_assoc.
      * apply Z.leb_gt in E1.
        replace (cl <? _ + (Py.len c + _)) with true
          by (symmetry; apply Z.ltb_lt; lia).
        cbn [orb negb]. now rewrite ?andb_false_r, ?app_nil_r.
    + destruct c; [|discriminate]. unfold when, bind, ret.
      change (EmptyString +:+ joined cs) with (joined cs).
      change (Py.len EmptyString) with 0. rewrite Z.add_0_l.
      now apply IH.
Qed.

Lemma nonempty_app_r (a b : string) :
  nonempty b = true -> nonempty (a +:+ b) = true.
Proof. destruct a; [now change (EmptyString +:+ b) with b|reflexivity]. Qed.

(** A write of a chunked response hands the channel one frame. *)
Lemma write_body_chunked data t :
  chunked_response t = true -> has_body t = true ->
  nonempty data = true -> socket_budget t = None ->
  write_body data t =
  (set_channel (written t ++ [chunk_frame data]) None t, Ok tt).
Proof.
  intros Hch Hb Hd Hs. unfold write_body, bind, get, when, ret.
  rewrite Hd, Hb, Hch. cbn [andb].
  rewrite nonempty_app_r by reflexivity.
  now rewrite write_soon_unlimited.
Qed.

(** The writes of a chunked response, one chunk after the other. *)
Lemma chunked_stream_steps it cs :
  at_end it = [] ->
  forall t,
    complete t = true -> wrote_header t = true ->
    chunked_response t = true -> has_body t = true ->
    socket_budget t = None ->
    iterate it false (plain_chunks cs) t =
    (set_channel
       (written t ++ map chunk_frame (List.filter nonempty cs)) None t,
     Ok tt).
Proof.
  intros Hend. induction cs as [|c cs IH]; intros t Hc Hw Hch Hb Hs.
  - cbn [plain_chunks map iterate List.filter]. rewrite Hend.
    cbn [run_calls ret]. rewrite app_nil_r. f_equal.
    destruct t; cbn in *; now subst.
  - change (iterate it false (plain_chunks (c :: cs)) t) with
      (bind (when (nonempty c) (write c))
            (fun _ => iterate it false (plain_chunks cs)) t).
    cbn [List.filter]. destruct (nonempty c) eqn:Hne.
    + unfold when, bind. rewrite write_after_header by assumption.
      rewrite write_body_chunked by assumption.
      rewrite IH by
        (task_simpl;
         first [assumption | reflexivity
               | now rewrite (has_body_status _ t)]).
      task_simpl. cbn [map]. rewrite <- app_assoc. reflexivity.
    + unfold when, bind, ret. now apply IH.
Qed.

(** X13: the chunks of a response of known length, written one after the other
    once the prologue is out, leave on the channel the first [content_length]
    bytes of their concatenation and nothing more; the byte counter ends at
    the smaller of the content length and what the application produced. *)
Theorem sized_body_is_prefix (it : app_iter_t) (cl : Z) (cs : list string)
    (t : task)
    (Hend : at_end it = [])
    (Hc : complete t = true) (Hw : wrote_header t = true)
    (Hch : chunked_response t = false)
    (Hcl : content_length t = Some cl) (Hb : has_body t = true)
    (Hs : socket_budget t = None)
    (Hn : content_bytes_written t <= cl) :
  let r := iterate it false (plain_chunks cs) t in
  r.2 = Ok tt /\
  content_bytes_written r.1 =
    Z.min cl (content_bytes_written t + Py.len (joined cs)) /\
  bytes_of (written r.1) =
    bytes_of (written t) +:+
    Py.slice_to (cl - content_bytes_written t) (joined cs).
Proof.
  destruct (sized_stream_steps it cl cs Hend t Hc Hw Hch Hcl Hb Hs Hn)
    as (H1 & H2 & H3 & _).
  cbv zeta. tauto.
Qed.

Lemma sized_body_is_prefix_witness :
  let t := streaming_task (Some 8) false in
  let r := iterate (plain_iter false ["hello "; ""; "world"]) false
             (plain_chunks ["hello "; ""; "world"]) t in
  content_bytes_written r.1 = 8 /\ bytes_of (written r.1) = "hello wo".
Proof.
  intros t r.
  assert (Hn : content_bytes_written t <= 8) by (vm_compute; discriminate).
  destruct (sized_body_is_prefix (plain_iter false ["hello "; ""; "world"])
              8 ["hello "; ""; "world"] t eq_refl eq_refl eq_refl eq_refl
              eq_refl eq_refl eq_refl Hn)
    as (_ & H2 & H3).
  split; [exact H2 | exact H3].
Defined.

(** X14: over the whole body of a response of known length, the warning about
    excess data is logged exactly when the chunks are longer than what is left
    of the content length and the latch was not set; it is logged once,
    however many chunks are cut, and the response headers and the decision to
    close the connection are left alone. *)
Theorem write_excess_logged_once (it : app_iter_t) (cl : Z)
    (cs : list string) (t : task)
    (Hend : at_end it = [])
    (Hc : complete t = true) (Hw : wrote_header t = true)
    (Hch : chunked_response t = false)
    (Hcl : content_length t = Some cl) (Hb : has_body t = true)
    (Hs : socket_budget t = None)
    (Hn : content_bytes_written t <= cl) :
  let r := iterate it false (plain_chunks cs) t in
  log r.1 =
    log t ++
    (if (cl <? content_bytes_written t + Py.len (joined cs)) &&
        negb (logged_write_excess t)
     then [WriteExcess cl] else []) /\
  close_on_finish r.1 = close_on_finish t /\
  response_headers r.1 = response_headers t.
Proof.
  destruct (sized_stream_steps it cl cs Hend t Hc Hw Hch Hcl Hb Hs Hn)
    as (_ & _ & _ & H4 & H5 & H6).
  cbv zeta. tauto.
Qed.

Lemma write_excess_logged_once_witness :
  let t := streaming_task (Some 3) false in
  let r := iterate (plain_iter false ["ab"; "cd"; "ef"]) false
             (plain_chunks ["ab"; "cd"; "ef"]) t in
  log r.1 = [WriteExcess 3].
Proof.
  intros t r.
  assert (Hn : content_bytes_written t <= 3) by (vm_compute; discriminate).
  destruct (write_excess_logged_once (plain_iter false ["ab"; "cd"; "ef"])
              3 ["ab"; "cd"; "ef"] t eq_refl eq_refl eq_refl eq_refl
              eq_refl eq_refl eq_refl Hn)
    as (H1 & _).
  exact H1.
Defined.

(** X15: the chunks of a chunked response, written once the prologue is out
    and followed by [finish], put on the channel one frame (length in
    upper-case hexadecimal, CRLF, data, CRLF) for each chunk that is not
    empty, in order, and then the terminating chunk; an empty chunk sends
    nothing. *)
Theorem chunked_body_framed (it : app_iter_t) (cs : list string) (t : task)
    (Hend : at_end it = [])
    (Hc : complete t = true) (Hw : wrote_header t = true)
    (Hch : chunked_response t = true) (Hb : has_body t = true)
    (Hs : socket_budget t = None) :
  bind (iterate it false (plain_chunks cs)) (fun _ => finish) t =
  (set_channel
     (written t ++ map chunk_frame (List.filter nonempty cs) ++ [last_chunk])
     None t,
   Ok tt).
Proof.
  unfold bind. rewrite chunked_stream_steps by assumption.
  unfold finish, bind, get, when. task_simpl. rewrite Hw. cbn [negb].
  unfold ret. task_simpl. rewrite Hch.
  rewrite write_soon_unlimited by reflexivity. task_simpl.
  rewrite <- app_assoc. reflexivity.
Qed.

Lemma chunked_body_framed_witness :
  let t := streaming_task None true in
  written
    (bind (iterate (plain_iter false ["hello"; ""; "!"]) false
             (plain_chunks ["hello"; ""; "!"]))
          (fun _ => finish) t).1 =
  [chunk_frame "hello"; chunk_frame "!"; last_chunk].
Proof.
  intros t.
  rewrite (chunked_body_framed (plain_iter false ["hello"; ""; "!"])
             ["hello"; ""; "!"] t eq_refl eq_refl eq_refl eq_refl eq_refl
             eq_refl).
  reflexivity.
Defined.

(** X16: [finish] on a task whose application never called [start_response]
    raises [RuntimeError] and leaves the task as it was: nothing is sent. *)
Theorem finish_before_start_response (t : task)
    (Hc : complete t = false) (Hw : wrote_header t = false) :
  finish t = (t, Raise RuntimeError).
Proof.
  unfold finish, write, bind, get, when, raise. rewrite Hw. cbn [negb].
  rewrite Hc. reflexivity.
Qed.

Lemma finish_before_start_response_witness :
  written (finish (sample_task "1.1" "GET" ∅ idle_app)).1 = [] /\
  (finish (sample_task "1.1" "GET" ∅ idle_app)).2 = Raise RuntimeError.
Proof.
  rewrite (finish_before_start_response
             (sample_task "1.1" "GET" ∅ idle_app) eq_refl eq_refl).
  split; reflexivity.
Defined.

(** X17: [finish] on a complete task sends what is missing of the response:
    the prologue if no write has sent it, and the terminating chunk if the
    response is chunked; a task whose prologue is out and whose response is
    not chunked sends nothing. *)
Theorem finish_completes_response (t : task)
    (Hc : complete t = true)
    (Hv : wrote_header t = false -> supported_version t)
    (Hs : socket_budget t = None) :
  let bt := (build_response_header t).1 in
  let chunked :=
    if wrote_header t then chunked_response t else chunked_response bt in
  (finish t).2 = Ok tt /\
  wrote_header (finish t).1 = true /\
  written (finish t).1 =
    written t ++
    (if wrote_header t then [] else [Bytes (serialise bt)]) ++
    (if chunked then [last_chunk] else []).
Proof.
  cbv zeta. unfold finish, bind, get, when.
  destruct (wrote_header t) eqn:Hw; cbn [negb].
  - unfold ret. destruct (chunked_response t).
    + rewrite write_soon_unlimited by exact Hs. task_simpl.
      rewrite Hw. repeat split; reflexivity.
    + cbn. rewrite Hw, app_nil_r. repeat split; reflexivity.
  - unfold write, bind, get. rewrite Hc. cbn [negb].
    assert (Hh : wrote_header t = false ->
                 supported_version t /\ socket_budget t <> Some O)
      by (intros _; split; [now apply Hv | now rewrite Hs]).
    destruct (flush_header_ok t Hh) as (K1 & K2 & K3 & K4 & K5).
    rewrite Hw in K3, K4. specialize (K5 Hs).
    destruct (flush_header t) as [t1 r1]. cbn [fst snd] in *. subst r1.
    destruct (write_body_frame EmptyString t1) as (_ & _ & Fch & Fwh).
    destruct (write_body_keeps EmptyString t1) as (_ & _ & _ & _ & _ & _ & Ks).
    specialize (Ks K5).
    assert (Hwr : written (write_body EmptyString t1).1 = written t1 /\
                  (write_body EmptyString t1).2 = Ok tt).
    { unfold write_body, bind, get, when, log_warning, modify, ret.
      cbn [nonempty andb].
      destruct (negb (logged_write_no_body t1)); cbn; tauto. }
    destruct Hwr as [Hwr Hok].
    destruct (write_body EmptyString t1) as [t2 r2]. cbn [fst snd] in *.
    subst r2. rewrite Fch, K4.
    destruct (chunked_response (build_response_header t).1).
    + rewrite write_soon_unlimited by exact Ks. task_simpl.
      rewrite Fwh, K2, Hwr, K3, <- app_assoc. repeat split; reflexivity.
    + unfold ret. cbn [fst snd].
      rewrite Fwh, K2, Hwr, K3, app_nil_r. repeat split; reflexivity.
Qed.

Lemma finish_completes_response_witness :
  let t := set_complete true (sample_task "1.1" "GET" ∅ idle_app) in
  exists prologue, written (finish t).1 = [Bytes prologue; last_chunk].
Proof.
  intros t.
  destruct (finish_completes_response t eq_refl
              (fun _ => or_intror eq_refl) eq_refl) as (_ & _ & H3).
  eexists. exact H3.
Defined.

(** X18: [service] lets no socket error out unless the server logs socket
    errors; a socket error in [start], [execute] or [finish] marks the
    connection for closing, and any other outcome is passed on as it is. *)
Theorem service_socket_error (execute : M unit) (now : Z) (t : task) :
  let inner := service_body execute now t in
  let r := service execute now t in
  (r.2 = Raise SocketError -> adj_log_socket_errors (server r.1) = true) /\
  (inner.2 = Raise SocketError ->
   r.1 = set_close_on_finish true inner.1 /\
   (adj_log_socket_errors (server inner.1) = false -> r.2 = Ok tt)) /\
  (inner.2 <> Raise SocketError -> r = inner).
Proof.
  cbv zeta. unfold service, service_body.
  destruct (bind (start now) _ t) as [t' [[]|e]]; cbn [fst snd].
  - repeat split; try discriminate; tauto.
  - destruct e; cbn [fst snd]; try (repeat split; try discriminate; tauto).
    task_simpl.
    destruct (adj_log_socket_errors (server t')) eqn:E; cbn [fst snd];
      task_simpl; repeat split; try tauto; try discriminate; auto.
Qed.

Lemma service_socket_error_witness :
  let r := service (ret tt) 0 hung_up_task in
  r.2 = Ok tt /\ close_on_finish r.1 = true /\ written r.1 = [].
Proof.
  intros r.
  destruct (service_socket_error (ret tt) 0 hung_up_task) as (_ & H & _).
  destruct (H eq_refl) as [H1 H2].
  split; [exact (H2 eq_refl)|].
  fold r in H1. rewrite H1. split; reflexivity.
Defined.

End WriteMoreFacts.

Section ErrorFacts.
Import Task TaskMore WriteMore ErrorMore.

Lemma digits_fuel_nonempty fuel base : forall n acc,
  nonempty acc = true -> nonempty (Py.digits_fuel fuel base n acc) = true.
Proof.
  induction fuel as [|f IH]; intros n acc H; cbn [Py.digits_fuel].
  - exact H.
  - destruct (_ =? 0)%N; [reflexivity|]. now apply IH.
Qed.

Lemma str_of_Z_nonempty (n : Z) : nonempty (Py.str_of_Z n) = true.
Proof.
  unfold Py.str_of_Z, Py.digits. destruct (n <? 0); [reflexivity|].
  cbn [Py.digits_fuel]. destruct (_ =? 0)%N; [reflexivity|].
  now apply digits_fuel_nonempty.
Qed.

(** The version branch never reopens a connection marked for closing. *)
Lemma connection_policy_closed connection l t hs t1 :
  connection_policy connection l t = Some (hs, t1) ->
  close_on_finish t = true -> close_on_finish t1 = true.
Proof.
  unfold connection_policy, close_on_finish_fn. destruct t. cbn.
  repeat match goal with
         | |- context [if ?b then _ else _] => destruct b; cbn
         | |- context [match ?o with Some _ => _ | None => _ end] =>
             destruct o; cbn
         end;
    intros [= <- <-]; cbn; auto; discriminate.
Qed.

Lemma build_response_header_closed t :
  close_on_finish t = true ->
  close_on_finish (build_response_header t).1 = true.
Proof.
  intros Hc. unfold build_response_header.
  destruct (connection_policy _ _ t) as [[hs t1]|] eqn:E; [|exact Hc].
  task_simpl. eapply connection_policy_closed; eauto.
Qed.

Lemma flush_header_closed t :
  close_on_finish t = true -> close_on_finish (flush_header t).1 = true.
Proof.
  intros Hc. unfold flush_header, bind, get, when.
  destruct (wrote_header t); cbn [negb]; [exact Hc|].
  pose proof (build_response_header_closed t Hc) as Hb.
  destruct (build_response_header t) as [t1 [rh|e]]; cbn [fst] in *;
    [|exact Hb].
  match goal with
  | |- context [write_soon ?p ?t1] =>
      destruct (write_soon_touches p t1) as (w & b & E);
      destruct (write_soon p t1) as [t2 [[]|e]]; cbn [fst] in E; subst t2
  end; exact Hb.
Qed.

Lemma write_closed data t :
  close_on_finish t = true -> close_on_finish (write data t).1 = true.
Proof.
  intros Hc. unfold write, bind, get, raise.
  destruct (complete t); cbn [negb]; [|exact Hc].
  pose proof (flush_header_closed t Hc) as Hf.
  destruct (flush_header t) as [t1 [[]|e]]; cbn [fst] in *; [|exact Hf].
  destruct (write_body_keeps data t1) as (_ & _ & _ & _ & _ & K & _).
  now rewrite K.
Qed.

(** X19: once a task is marked for closing, neither [write] nor [finish] takes
    the mark away, whatever the request, the status and the headers are and
    whether or not the call raises. *)
Theorem closing_is_final (data : string) (t : task)
    (Hc : close_on_finish t = true) :
  close_on_finish (write data t).1 = true /\
  close_on_finish (finish t).1 = true.
Proof.
  split; [now apply write_closed|].
  unfold finish, bind, get, when.
  destruct (wrote_header t); cbn [negb].
  - unfold ret. destruct (chunked_response t); [|exact Hc].
    match goal with
    | |- context [write_soon ?p ?t1] =>
        destruct (write_soon_touches p t1) as (w & b & ->)
    end. exact Hc.
  - pose proof (write_closed EmptyString t Hc) as Hw.
    destruct (write EmptyString t) as [t1 [[]|e]]; cbn [fst] in *;
      [|exact Hw].
    unfold ret. destruct (chunked_response t1); [|exact Hw].
    match goal with
    | |- context [write_soon ?p ?t1] =>
        destruct (write_soon_touches p t1) as (w & b & ->)
    end. exact Hw.
Qed.

Lemma closing_is_final_witness :
  let t := set_close_on_finish true
             (set_complete true (sized_task "1.1" keep_alive 5)) in
  close_on_finish (write "hello" t).1 = true /\
  close_on_finish (finish t).1 = true.
Proof.
  intros t. exact (closing_is_final "hello" t eq_refl).
Defined.

Lemma execute_prepares t e :
  error (request t) = Some e ->
  ErrorTask.execute t = write (error_body e) (prepared t e).
Proof.
  intros He. unfold ErrorTask.execute, bind, get, modify, when, ret.
  rewrite He. unfold prepared, error_headers, request_connection.
  fold CRLF. unfold Utilities.tobytes, error_body.
  destruct (String.eqb (version t) "1.1");
    [destruct (String.eqb (Py.lower _) "close")|];
    task_simpl; rewrite <- ?app_assoc; reflexivity.
Qed.

Lemma prepared_length_header t e :
  response_headers t = [] -> has_body (prepared t e) = true ->
  length_header (prepared t e) = Some (Py.str_of_Z (Py.len (error_body e))).
Proof.
  intros Hrh Hb. unfold length_header, scan_of, add_content_length.
  rewrite Hb, scan_headers_length.
  unfold prepared, error_headers. task_simpl. rewrite Hrh. cbn [app].
  generalize (Py.str_of_Z (Py.len (error_body e))). intros s.
  destruct (String.eqb (version t) "1.1");
    [destruct (String.eqb (request_connection t) "close")|];
    reflexivity.
Qed.

(** With a content length in the prologue the builder does not switch to
    chunks. *)
Lemma build_response_header_sized t :
  supported_version t -> truthy (length_header t) = true ->
  chunked_response (build_response_header t).1 = chunked_response t.
Proof.
  intros Hv Hl.
  destruct (connection_policy_defined (request_connection t) (scan_of t) t Hv)
    as (hs & t1 & E).
  rewrite (build_response_header_policy t hs t1 E). task_simpl.
  destruct (connection_policy_added t hs t1 E) as (_ & [H|H] & _);
    [exact H|].
  destruct H as (_ & _ & _ & _ & _ & H). congruence.
Qed.

Lemma error_body_nonempty e : nonempty (error_body e) = true.
Proof. unfold error_body. now apply nonempty_app_r. Qed.

(** X20: an error task answers with the whole error text: the prologue, then
    the reason, the body and the tag, under the status made of the error's
    code and reason; the response is not chunked, its length is the length of
    that text, and the connection is marked for closing. *)
Theorem error_response_sent (t : task) (e : error_t)
    (He : error (request t) = Some e)
    (Hc : complete t = true) (Hw : wrote_header t = false)
    (Hv : supported_version t)
    (Hrh : response_headers t = [])
    (Hch : chunked_response t = false)
    (Hn : content_bytes_written t = 0)
    (Hs : socket_budget t = None)
    (Hb : has_body (prepared t e) = true) :
  let r := ErrorTask.execute t in
  let prologue := serialise (build_response_header (prepared t e)).1 in
  r.2 = Ok tt /\
  written r.1 = written t ++ [Bytes prologue; Bytes (error_body e)] /\
  status r.1 = Py.str_of_Z (code e) +:+ " " +:+ reason e /\
  content_length r.1 = Some (Py.len (error_body e)) /\
  content_bytes_written r.1 = Py.len (error_body e) /\
  chunked_response r.1 = false /\
  close_on_finish r.1 = true.
Proof.
  cbv zeta. rewrite (execute_prepares t e He).
  set (p := prepared t e) in *.
  assert (Pv : supported_version p) by exact Hv.
  assert (Pl : truthy (length_header p) = true).
  { unfold p. rewrite prepared_length_header by assumption.
    apply str_of_Z_nonempty. }
  assert (Pc : close_on_finish (write (error_body e) p).1 = true)
    by (now apply write_closed).
  revert Pc. unfold write, bind, get.
  change (complete p) with (complete t). rewrite Hc. cbn [negb].
  assert (Hh : wrote_header p = false ->
               supported_version p /\ socket_budget p <> Some O).
  { intros _. split; [exact Pv|]. change (socket_budget p) with
      (socket_budget t). now rewrite Hs. }
  destruct (flush_header_ok p Hh) as (K1 & K2 & K3 & K4 & K5).
  destruct (flush_header_frame p) as (F1 & F2 & F3 & _).
  change (wrote_header p) with (wrote_header t) in K3, K4.
  rewrite Hw in K3, K4.
  rewrite (build_response_header_sized p Pv Pl) in K4.
  change (chunked_response p) with (chunked_response t) in K4.
  rewrite Hch in K4. specialize (K5 Hs).
  destruct (flush_header p) as [t1 r1]. cbn [fst snd] in *. subst r1.
  change (content_length p) with (Some (Py.len (error_body e))) in F1.
  change (content_bytes_written p) with (content_bytes_written t) in F2.
  rewrite Hn in F2.
  assert (Hb1 : has_body t1 = true)
    by (rewrite (has_body_status t1 p); assumption).
  assert (Hn1 : content_bytes_written t1 <= Py.len (error_body e))
    by (rewrite F2; apply len_nonneg).
  destruct (write_body_truncates (error_body e) t1 _ F1 Hb1 Hn1 K5
              (error_body_nonempty e) K4)
    as (T1 & T2 & T3 & _).
  destruct (write_body_frame (error_body e) t1) as (G1 & G2 & G3 & _).
  assert (Hall : Py.slice_to (Py.len (error_body e) -
                              content_bytes_written t1) (error_body e) =
                 error_body e).
  { apply String.eqb_eq. rewrite slice_to_whole by (rewrite F2; lia).
    apply Z.leb_le. rewrite F2. lia. }
  rewrite Hall in T2, T3. rewrite error_body_nonempty in T3.
  destruct (write_body (error_body e) t1) as [t2 r2]. cbn [fst snd] in *.
  subst r2. intros Pc.
  split; [reflexivity|]. split.
  { rewrite T3, K3, <- app_assoc. reflexivity. }
  split; [now rewrite G2, F3|]. split; [now rewrite G1|].
  split; [rewrite T2, F2; lia|]. split; [now rewrite G3|exact Pc].
Qed.

Lemma error_response_sent_witness :
  let r := ErrorTask.execute (rejected_task "1.1" bad_request) in
  r.2 = Ok tt /\
  status r.1 = "400 Bad Request" /\
  content_bytes_written r.1 = 64 /\
  close_on_finish r.1 = true.
Proof.
  intros r.
  destruct (error_response_sent (rejected_task "1.1" bad_request)
              bad_request eq_refl eq_refl eq_refl (or_intror eq_refl)
              eq_refl eq_refl eq_refl eq_refl eq_refl)
    as (H1 & _ & H3 & _ & H5 & _ & H7).
  split; [exact H1|]. split; [exact H3|]. split; [exact H5|exact H7].
Defined.

End ErrorFacts.

Section EnvironFacts.
Import Task Task.WSGITask EnvironMore.

Lemma get_environment_hit t env :
  environ t = Some env -> get_environment t = (t, Ok env).
Proof. intros E. unfold get_environment, bind, get. now rewrite E. Qed.

Lemma get_environment_sets t env :
  (get_environment t).2 = Ok env ->
  environ (get_environment t).1 = Some env.
Proof.
  destruct (environ t) as [env0|] eqn:E.
  - rewrite (get_environment_hit t env0 E). cbn. now intros [= <-].
  - unfold get_environment, bind, get. rewrite E.
    match goal with
    | |- context [(if ?c then ?a else ?b) t] =>
        destruct ((if c then a else b) t) as [t' [[env' h]|ex]]
    end; [|discriminate].
    destruct (env' !! "REMOTE_ADDR"); [|discriminate].
    unfold modify, ret. cbn [fst snd]. now intros [= <-].
Qed.

(** X21: the environment is built once: after a call of [get_environment] that
    returned, the task holds what it returned, and a second call returns the
    same dictionary and leaves the task alone. *)
Theorem get_environment_cached (t : task) (env : gmap string envval)
    (Hok : (get_environment t).2 = Ok env) :
  let t1 := (get_environment t).1 in
  environ t1 = Some env /\ get_environment t1 = (t1, Ok env).
Proof.
  cbv zeta. pose proof (get_environment_sets t env Hok) as H.
  split; [exact H|]. now apply get_environment_hit.
Qed.

Lemma http_prefix (k : string) :
  "HTTP_" +:+ k =
  String "H" (String "T" (String "T" (String "P" (String "_" k)))).
Proof. reflexivity. Qed.

Lemma environ_key_cases (k : string) :
  (k = "CONTENT_LENGTH" /\ environ_key k = "CONTENT_LENGTH") \/
  (k = "CONTENT_TYPE" /\ environ_key k = "CONTENT_TYPE") \/
  environ_key k = "HTTP_" +:+ k.
Proof.
  unfold environ_key, rename_headers.
  destruct (decide (k = "CONTENT_LENGTH")) as [->|H1]; [left; now split|].
  destruct (decide (k = "CONTENT_TYPE")) as [->|H2];
    [right; left; now split|].
  right. right.
  rewrite lookup_insert_ne by congruence.
  rewrite lookup_singleton_ne by congruence. reflexivity.
Qed.

Lemma environ_key_inj (a b : string) :
  environ_key a = environ_key b -> a = b.
Proof.
  destruct (environ_key_cases a) as [[-> ->] | [[-> ->] | ->]];
    destruct (environ_key_cases b) as [[-> ->] | [[-> ->] | ->]];
    rewrite ?http_prefix; try reflexivity; try discriminate.
  now intros [= ->].
Qed.

Lemma reserved_intro (name : string) :
  name <> "CONTENT_LENGTH" -> name <> "CONTENT_TYPE" ->
  Py.startswith "HTTP_" name = false -> reserved name.
Proof.
  intros H1 H2 H3 k E.
  destruct (environ_key_cases k) as [[_ K]|[[_ K]|K]];
    rewrite K in E; try congruence.
  subst name. rewrite http_prefix in H3.
  destruct k; vm_compute in H3; discriminate.
Qed.

Lemma add_header_keeps kv (env : gmap string envval) k v :
  env !! k = Some v -> add_header kv env !! k = Some v.
Proof.
  intros H. unfold add_header. fold (environ_key kv.1).
  destruct (env !! environ_key kv.1) eqn:E; [exact H|].
  rewrite lookup_insert_ne; [exact H|congruence].
Qed.

Lemma add_header_other kv (env : gmap string envval) k :
  k <> environ_key kv.1 -> add_header kv env !! k = env !! k.
Proof.
  intros H. unfold add_header. fold (environ_key kv.1).
  destruct (env !! environ_key kv.1) eqn:E; [reflexivity|].
  now rewrite lookup_insert_ne by congruence.
Qed.

Lemma foldr_add_header_keeps l (env : gmap string envval) k v :
  env !! k = Some v -> foldr add_header env l !! k = Some v.
Proof.
  intros H. induction l as [|kv l IH]; [exact H|].
  now apply add_header_keeps.
Qed.

Lemma foldr_add_header_other l (env : gmap string envval) k :
  (forall kv, kv ∈ l -> k <> environ_key kv.1) ->
  foldr add_header env l !! k = env !! k.
Proof.
  induction l as [|kv l IH]; intros H; [reflexivity|]. cbn [foldr].
  rewrite add_header_other by (apply H; left).
  apply IH. intros kv' Hin. apply H. now right.
Qed.

Lemma foldr_add_header_lookup l (env : gmap string envval) k v :
  NoDup l.*1 -> (k, v) ∈ l -> env !! environ_key k = None ->
  foldr add_header env l !! environ_key k = Some (EStr (Py.strip v)).
Proof.
  induction l as [|[k' v'] l IH]; intros Hnd Hin Hnone.
  - inversion Hin.
  - cbn [fmap list_fmap fst] in Hnd. apply NoDup_cons in Hnd as [Hk Hnd].
    cbn [foldr]. apply elem_of_cons in Hin as [[= <- <-]|Hin].
    + unfold add_header. cbn [fst snd]. fold (environ_key k).
      rewrite foldr_add_header_other, Hnone.
      * apply lookup_insert_eq.
      * intros [k2 v2] Hin2 E. apply environ_key_inj in E. cbn in E. subst k2.
        apply Hk. apply list_elem_of_fmap. now exists (k, v2).
    + apply add_header_keeps. now apply IH.
Qed.

Ltac reserved_name :=
  apply reserved_intro; [discriminate | discriminate | reflexivity].

Lemma header_environ_reserved t name :
  reserved name ->
  header_environ t !! name = peer_environ t !! name.
Proof.
  intros H. apply foldr_add_header_other. intros kv _ E.
  exact (H kv.1 (eq_sym E)).
Qed.

(** The environment of a peer that is not a trusted proxy. *)
Lemma get_environment_untrusted t :
  environ t = None -> untrusted t ->
  get_environment t =
  (set_environ (Some (wsgi_environ t (header_environ t))) t,
   Ok (wsgi_environ t (header_environ t))).
Proof.
  intros E [U1 U2]. unfold get_environment, bind, get. rewrite E.
  rewrite bool_decide_eq_false_2 by exact U1. rewrite U2. cbn [orb].
  unfold ret at 1. cbn [fst snd].
  rewrite lookup_insert_ne by discriminate. rewrite lookup_insert_eq.
  fold (peer_environ t). fold (header_environ t).
  rewrite lookup_insert_ne by discriminate.
  rewrite header_environ_reserved by reserved_name.
  unfold peer_environ at 1. cbv zeta.
  rewrite !lookup_insert_ne by discriminate. rewrite lookup_empty.
  reflexivity.
Qed.

Lemma get_environment_cached_witness :
  let t1 := (get_environment spoofing_task).1 in
  exists env, environ t1 = Some env /\ get_environment t1 = (t1, Ok env).
Proof.
  intros t1.
  assert (E : (get_environment spoofing_task).2 =
              Ok (wsgi_environ spoofing_task (header_environ spoofing_task))).
  { rewrite get_environment_untrusted; [reflexivity..|].
    split; [discriminate | reflexivity]. }
  eexists. exact (get_environment_cached spoofing_task _ E).
Defined.

Lemma wsgi_environ_other t env name :
  Py.startswith "wsgi." name = false ->
  wsgi_environ t env !! name = env !! name.
Proof.
  intros H. unfold wsgi_environ.
  rewrite !lookup_insert_ne; [reflexivity|..]; intros <-; discriminate.
Qed.

Lemma environ_key_not_wsgi k : Py.startswith "wsgi." (environ_key k) = false.
Proof.
  destruct (environ_key_cases k) as [[_ ->] | [[_ ->] | ->]];
    reflexivity.
Qed.



(** X23: for such a peer every header of the request is in the environment,
    its value stripped of surrounding white space: under its own name for
    CONTENT_LENGTH and CONTENT_TYPE, under HTTP_ and its name for any other.
    *)
Theorem request_headers_in_environ (t : task) (k v : string)
    (E : environ t = None) (U : untrusted t)
    (H : headers (request t) !! k = Some v) :
  exists env,
    (get_environment t).2 = Ok env /\
    env !! environ_key k = Some (EStr (Py.strip v)).
Proof.
  eexists. rewrite get_environment_untrusted by assumption.
  split; [reflexivity|].
  rewrite wsgi_environ_other by apply environ_key_not_wsgi.
  apply foldr_add_header_lookup.
  - rewrite fmap_reverse, reverse_Permutation.
    apply NoDup_fst_map_to_list.
  - apply elem_of_reverse, elem_of_map_to_list, H.
  - destruct (environ_key_cases k) as [[_ ->] | [[_ ->] | ->]];
      unfold peer_environ; cbv zeta;
      rewrite ?http_prefix, !lookup_insert_ne by discriminate;
      apply lookup_empty.
Qed.

Lemma request_headers_in_environ_witness :
  exists env,
    (get_environment spoofing_task).2 = Ok env /\
    env !! "CONTENT_LENGTH" = Some (EStr "12") /\
    env !! "HTTP_X_FORWARDED_FOR" = Some (EStr "203.0.113.9").
Proof.
  assert (U : untrusted spoofing_task)
    by (split; [discriminate | reflexivity]).
  destruct (request_headers_in_environ spoofing_task "CONTENT_LENGTH" " 12 "
              eq_refl U eq_refl) as (env & H1 & H2).
  destruct (request_headers_in_environ spoofing_task "X_FORWARDED_FOR"
              "203.0.113.9" eq_refl U eq_refl) as (env' & H1' & H2').
  exists env. split; [exact H1|]. split; [exact H2|].
  rewrite H1 in H1'. injection H1' as ->. exact H2'.
Defined.

End EnvironFacts.

Section ProxyFacts.
Import Task Task.WSGITask ProxyMore.

Lemma last_char_snoc (s : string) (c : ascii) :
  Py.last_char (s +:+ String c EmptyString) = Some c.
Proof.
  induction s as [|a s IH]; [reflexivity|].
  change (String a s +:+ String c EmptyString)
    with (String a (s +:+ String c EmptyString)).
  cbn [Py.last_char]. rewrite IH.
  destruct (s +:+ String c EmptyString) eqn:E; [|reflexivity].
  destruct s; discriminate.
Qed.

(** A hop of X-Forwarded-For never reads as an address with a port. *)
Lemma has_port_hop (h : string) : has_port (x_forwarded_hop h) = false.
Proof.
  unfold x_forwarded_hop. destruct (has_port (Py.strip h)) eqn:E; [|exact E].
  unfold has_port.
  change ("[" +:+ Py.strip h +:+ "]")
    with (String "[" (Py.strip h +:+ String "]" EmptyString)).
  cbn [Py.last_char].
  rewrite last_char_snoc.
  destruct (Py.strip h +:+ String "]" EmptyString) eqn:E1.
  - destruct (Py.strip h); discriminate.
  - rewrite bool_decide_eq_true_2 by reflexivity. apply andb_false_r.
Qed.

Lemma split_head (sep : ascii) (s : string) :
  exists a r, Py.split sep s = a :: r.
Proof.
  induction s as [|c s (a & r & IH)]; cbn [Py.split]; [eauto|].
  destruct (Ascii.eqb sep c); [eauto|]. rewrite IH. eauto.
Qed.

Lemma x_forwarded_client_port (v : string) :
  has_port (x_forwarded_client v) = false.
Proof.
  unfold x_forwarded_client. destruct (split_head "," v) as (a & r & ->).
  cbn [map head default]. apply has_port_hop.
Qed.

Lemma x_forwarded_head (v : string) :
  head (map x_forwarded_hop (Py.split "," v)) = Some (x_forwarded_client v).
Proof.
  unfold x_forwarded_client. destruct (split_head "," v) as (a & r & ->).
  reflexivity.
Qed.

Ltac proxy_simpl :=
  cbn [fst snd client_addr forwarded_host forwarded_proto forwarded_port
       forwarded_by forwarded_for default from_option id truthy].

Ltac proxy_cases :=
  proxy_simpl;
  repeat (match goal with
          | p : (string * string)%type |- _ => destruct p
          | |- context [if ?c then _ else _] => destruct c eqn:?
          | |- context [match ?o with Some _ => _ | None => _ end] =>
              destruct o eqn:?
          end; proxy_simpl).

(** X24: with X-Forwarded-For and no Forwarded header, a call of
    [parse_proxy_headers] that returns has set REMOTE_ADDR to the first hop of
    the header, stripped, a hop with a colon that does not end in a bracket
    being put in brackets; it never takes a REMOTE_PORT from that header, and
    it leaves the headers and the task alone. *)
Theorem x_forwarded_for_client
    (environ : gmap string envval) (headers : gmap string string)
    (v : string) (t : task) (out : gmap string envval * gmap string string)
    (Hx : headers !! "X_FORWARDED_FOR" = Some v)
    (Hf : no_forwarded headers)
    (Hne : nonempty (x_forwarded_client v) = true)
    (Hok : (parse_proxy_headers environ headers t).2 = Ok out) :
  (parse_proxy_headers environ headers t).1 = t /\
  out.2 = headers /\
  out.1 !! "REMOTE_ADDR" = Some (EStr (Py.strip (x_forwarded_client v))) /\
  out.1 !! "REMOTE_PORT" = environ !! "REMOTE_PORT".
Proof.
  revert Hok. unfold parse_proxy_headers, read_proxy_headers.
  rewrite Hx, Hf. rewrite x_forwarded_head.
  unfold bind, ret, raise. proxy_simpl.
  rewrite Hne, x_forwarded_client_port.
  proxy_cases; try discriminate; intros [= <-]; cbn [fst snd];
    (split; [reflexivity|]); (split; [reflexivity|]);
    (split; [apply lookup_insert_eq|]);
    rewrite ?lookup_insert_ne by discriminate; reflexivity.
Qed.

Lemma x_forwarded_for_client_witness :
  exists out,
    returned (parse_proxy_headers ∅ via_proxy
                (sample_task "1.1" "GET" via_proxy idle_app)).2 = Some out /\
    out.1 !! "REMOTE_ADDR" = Some (EStr "[2001:db8::1]") /\
    out.1 !! "REMOTE_PORT" = None.
Proof.
  set (t := sample_task "1.1" "GET" via_proxy idle_app).
  destruct (parse_proxy_headers ∅ via_proxy t).2 as [out|e] eqn:E;
    [|vm_compute in E; discriminate].
  exists out. split; [reflexivity|].
  destruct (x_forwarded_for_client ∅ via_proxy " 2001:db8::1 , 10.0.0.1"
              t out eq_refl eq_refl eq_refl E) as (_ & _ & H3 & H4).
  split; [exact H3 | exact H4].
Defined.

Lemma port_truthy_text (o : option string) :
  port_truthy (EStr <$> o) = truthy o.
Proof. now destruct o. Qed.

(** X25: a scheme named by X-Forwarded-Proto that is neither http nor https,
    in whatever case, makes [parse_proxy_headers] raise [ValueError] before it
    touches the environment or the task. *)
Theorem forwarded_proto_rejected
    (environ : gmap string envval) (headers : gmap string string)
    (p : string) (t : task)
    (Hf : no_forwarded headers)
    (Hp : headers !! "X_FORWARDED_PROTO" = Some p)
    (Hne : nonempty p = true)
    (Hbad : Py.lower p ∉ ["http"; "https"]) :
  parse_proxy_headers environ headers t = (t, Raise ValueError).
Proof.
  unfold parse_proxy_headers, read_proxy_headers. rewrite Hf, Hp.
  destruct (headers !! "X_FORWARDED_FOR");
    unfold bind, ret, raise; proxy_simpl; rewrite Hne;
    rewrite bool_decide_eq_false_2 by exact Hbad; reflexivity.
Qed.

Lemma forwarded_proto_rejected_witness :
  parse_proxy_headers ∅ {[ "X_FORWARDED_PROTO" := "FTP" ]}
    (sample_task "1.1" "GET" ∅ idle_app) =
  (sample_task "1.1" "GET" ∅ idle_app, Raise ValueError).
Proof.
  apply (forwarded_proto_rejected ∅ {[ "X_FORWARDED_PROTO" := "FTP" ]} "FTP");
    try reflexivity.
  intros H. apply list_elem_of_In in H. vm_compute in H.
  intuition discriminate.
Defined.

(** X26: a scheme http or https named by X-Forwarded-Proto, in whatever case,
    becomes the URL scheme in lower case; when the proxy names no port and no
    host, SERVER_PORT becomes the scheme's port, 80 or 443, as a number. *)
Theorem forwarded_proto_accepted
    (environ : gmap string envval) (headers : gmap string string)
    (p : string) (t : task)
    (Hf : no_forwarded headers)
    (Hp : headers !! "X_FORWARDED_PROTO" = Some p)
    (Hin : Py.lower p = "http" \/ Py.lower p = "https")
    (Hport : truthy (headers !! "X_FORWARDED_PORT") = false)
    (Hhost : truthy (headers !! "X_FORWARDED_HOST") = false) :
  exists out,
    parse_proxy_headers environ headers t = (t, Ok (out, headers)) /\
    out !! "wsgi.url_scheme" = Some (EStr (Py.lower p)) /\
    out !! "SERVER_PORT" = Some (EInt (default_port (Py.lower p))).
Proof.
  assert (Hne : nonempty p = true).
  { destruct p; [|reflexivity]. destruct Hin; discriminate. }
  unfold parse_proxy_headers, read_proxy_headers. rewrite Hf, Hp.
  unfold bind, ret, raise.
  destruct (headers !! "X_FORWARDED_FOR") as [v|]; proxy_simpl;
    rewrite Hne, Hhost, port_truthy_text, Hport;
    (rewrite bool_decide_eq_true_2
       by (rewrite !elem_of_cons; tauto));
    cbn [negb]; unfold default_port;
    destruct Hin as [-> | ->]; cbn [String.eqb Ascii.eqb Bool.eqb];
    change (port_truthy (Some (EInt 80))) with true;
    change (port_truthy (Some (EInt 443))) with true;
    proxy_cases; eexists; (split; [reflexivity|]);
    split; rewrite ?lookup_insert_ne by discriminate;
    apply lookup_insert_eq.
Qed.

Lemma forwarded_proto_accepted_witness :
  exists out,
    (parse_proxy_headers ∅ {[ "X_FORWARDED_PROTO" := "HTTPS" ]}
       (sample_task "1.1" "GET" ∅ idle_app)).2 =
      Ok (out, {[ "X_FORWARDED_PROTO" := "HTTPS" ]}) /\
    out !! "wsgi.url_scheme" = Some (EStr "https") /\
    out !! "SERVER_PORT" = Some (EInt 443).
Proof.
  assert (Hf : no_forwarded {[ "X_FORWARDED_PROTO" := "HTTPS" ]})
    by (vm_compute; reflexivity).
  destruct (forwarded_proto_accepted ∅ {[ "X_FORWARDED_PROTO" := "HTTPS" ]}
              "HTTPS" (sample_task "1.1" "GET" ∅ idle_app) Hf eq_refl
              (or_intror eq_refl) eq_refl eq_refl) as (out & H1 & H2 & H3).
  exists out. rewrite H1. split; [reflexivity|]. split; [exact H2|exact H3].
Defined.

End ProxyFacts.

Section ExecuteMoreFacts.
Import Task Task.WSGITask TaskMore WriteMore ExecuteMore.








Lemma read_proxy_headers_touches headers t :
  exists lg, (read_proxy_headers headers t).1 = set_log lg t.
Proof.
  assert (Hid : exists lg, t = set_log lg t)
    by (exists (log t); now destruct t).
  unfold read_proxy_headers, bind, get, log_warning, modify, ret, raise.
  destruct (headers !! "X_FORWARDED_FOR");
    (destruct (truthy (headers !! "FORWARDED")); [|exact Hid]);
    (destruct (_ && negb (logged_multi_proxy_headers t)); cbn [fst snd];
     [|destruct (forwarded_parameters _ _); exact Hid]);
    destruct (forwarded_parameters _ _); cbn [fst];
    eexists; reflexivity.
Qed.

Lemma parse_proxy_headers_touches environ headers t :
  exists lg, (parse_proxy_headers environ headers t).1 = set_log lg t.
Proof.
  unfold parse_proxy_headers. unfold bind at 1.
  destruct (read_proxy_headers_touches headers t) as (lg & E).
  destruct (read_proxy_headers headers t) as [t1 [lh|e]]; cbn [fst] in E;
    subst t1; [|exists lg; reflexivity].
  unfold bind, ret, raise.
  destruct (truthy (forwarded_proto lh.1));
    [destruct (negb _); [exists lg; reflexivity|]|].
  all: cbn [fst snd].
  all: repeat match goal with
         | |- context [let '(_, _) := ?p in _] => destruct p
         end; exists lg; reflexivity.
Qed.

(** [get_environment] changes the log and the cached environment only. *)
Lemma get_environment_touches t :
  exists lg env, (get_environment t).1 = set_environ env (set_log lg t).
Proof.
  assert (Hid : forall lg, exists lg' env,
            set_log lg t = set_environ env (set_log lg' t))
    by (intros lg; exists lg, (environ t); now destruct t).
  unfold get_environment, bind, get.
  destruct (environ t) as [env0|] eqn:E.
  - cbn. exists (log t), (Some env0). destruct t; cbn in *; now subst.
  - match goal with
    | |- context [(if ?c then ?a else ?b) t] =>
        assert (Ht : exists lg, ((if c then a else b) t).1 = set_log lg t);
        [|destruct Ht as (lg & Ht);
          destruct ((if c then a else b) t) as [t' [[env' h]|ex]]]
    end.
    + destruct (_ || _); [apply parse_proxy_headers_touches|].
      exists (log t). cbn. now destruct t.
    + cbn [fst] in Ht. subst t'.
      destruct (env' !! "REMOTE_ADDR"); [|apply Hid].
      unfold modify, ret. cbn [fst]. eexists _, _. reflexivity.
    + cbn [fst] in Ht. subst t'. apply Hid.
Qed.

(** X28: once the application has returned an iterable that is not a file
    wrapper and has a [close] method, [execute] closes it, whether the loop
    over it ends, a write fails or the iterable itself raises. *)
Theorem execute_closes_iterable (app : app_run) (t : task)
    (Happ : forall env, application (server t) env = app)
    (Hret : app_returned app t)
    (Hf : is_rofbb (app_iter app) = false)
    (Hcl : has_close (app_iter app) = true) :
  iter_closed (WSGITask.execute t).1 = true.
Proof.
  revert Hret. unfold app_returned, WSGITask.execute, bind, get.
  destruct (get_environment_touches t) as (lg & env0 & E).
  destruct (get_environment t) as [t1 [env|e]]; cbn [fst] in E;
    [|discriminate].
  assert (Hs : application (server t1) env = app)
    by (subst t1; task_simpl; apply Happ).
  rewrite Hs.
  destruct (run_calls (app_calls app) t1) as [t2 [[]|e]]; cbn [snd];
    [|discriminate].
  intros _. rewrite file_wrapper_path_skips by exact Hf.
  unfold try_finally. rewrite Hcl. unfold when, modify.
  match goal with
  | |- context [let '(_, _) := ?c in _] => destruct c as [t3 r3]
  end.
  reflexivity.
Qed.

Lemma execute_closes_iterable_witness :
  let t := sample_task "1.1" "GET" ∅ failing_app in
  (WSGITask.execute t).2 = Raise (AppError "boom") /\
  iter_closed (WSGITask.execute t).1 = true.
Proof.
  intros t. split; [vm_compute; reflexivity|].
  exact (execute_closes_iterable failing_app t (fun _ => eq_refl) eq_refl
           eq_refl eq_refl).
Defined.

(** X29: a call of [start_response] that returns has been given a text status
    and text headers; it leaves the task complete, with that status, and with
    those headers after the ones it held, or alone if the call carried
    [exc_info]; without [exc_info] it was the first call, with it the prologue
    was not out yet. *)
Theorem start_response_returns (status : pyobj)
    (headers : list (pyobj * pyobj)) (exc_info : option exn) (t : task)
    (Hok : (start_response status headers exc_info t).2 = Ok tt) :
  let t' := (start_response status headers exc_info t).1 in
  exists st hs,
    status = PStr st /\ headers = as_objects hs /\
    Task.status t' = st /\ complete t' = true /\
    response_headers t' =
      match exc_info with
      | Some _ => hs
      | None => response_headers t ++ hs
      end /\
    (exc_info = None -> complete t = false) /\
    (is_Some exc_info -> wrote_header t = false).
Proof.
  revert Hok. cbv zeta. unfold start_response, bind, get, modify, raise, ret.
  destruct (complete t && _) eqn:Ec; [discriminate|].
  assert (Hfirst : exc_info = None -> complete t = false).
  { intros ->. cbn in Ec. now rewrite andb_true_r in Ec. }
  destruct exc_info as [e|].
  - destruct (wrote_header t) eqn:Hw; [discriminate|].
    destruct status as [st| | |]; try discriminate.
    destruct (has_crlf st); [discriminate|].
    match goal with
    | |- context [check_headers headers ?t0] =>
        destruct (check_headers_spec headers t0) as ((cl & E) & Hs);
        destruct (check_headers headers t0) as [t1 [hs|ex]];
        cbn [fst snd] in *; [|discriminate]
    end.
    intros _. destruct Hs as [Hs _]. subst t1. task_simpl.
    exists st, hs. repeat split; auto.
  - destruct status as [st| | |]; try discriminate.
    destruct (has_crlf st); [discriminate|].
    match goal with
    | |- context [check_headers headers ?t0] =>
        destruct (check_headers_spec headers t0) as ((cl & E) & Hs);
        destruct (check_headers headers t0) as [t1 [hs|ex]];
        cbn [fst snd] in *; [|discriminate]
    end.
    intros _. destruct Hs as [Hs _]. subst t1. task_simpl.
    exists st, hs. repeat split; auto.
    intros [x Hx]. discriminate.
Qed.

Lemma start_response_returns_witness :
  let t := set_response_headers [("X-Old", "1")]
             (sample_task "1.1" "GET" ∅ idle_app) in
  let t' := (start_response (PStr "500 Oops")
               [(PStr "Content-Type", PStr "text/plain")]
               (Some (AppError "boom")) t).1 in
  response_headers t' = [("Content-Type", "text/plain")].
Proof.
  intros t t'.
  destruct (start_response_returns (PStr "500 Oops")
              [(PStr "Content-Type", PStr "text/plain")]
              (Some (AppError "boom")) t eq_refl)
    as (st & hs & _ & Hh & _ & _ & Hr & _).
  fold t' in Hr. rewrite Hr. cbn [app].
  destruct hs as [|[k v] [|h hs]]; try discriminate.
  now injection Hh as <- <-.
Defined.

Lemma single_chunk_length_header chunk t :
  has_body t = true ->
  named "Content-Length" (kept_headers true (response_headers t)) = [] ->
  length_header (single_chunk_task chunk t) =
  Some (Py.str_of_Z (Py.len chunk)).
Proof.
  intros Hb Hn. unfold length_header, scan_of, add_content_length.
  rewrite scan_headers_length.
  change (has_body (single_chunk_task chunk t)) with (has_body t).
  rewrite Hb.
  change (response_headers (single_chunk_task chunk t))
    with (response_headers t).
  apply last_value_none in Hn. rewrite Hn. reflexivity.
Qed.

(** X30: an iterable of one chunk, for a response that declared no length,
    gives the response its length: the chunk's length becomes the content
    length before the prologue is built, so the prologue is built for a
    response of that length, the response is not chunked, and the chunk goes
    out whole after the prologue. *)
Theorem single_chunk_sets_length (it : app_iter_t) (chunk : string)
    (t : task)
    (Hlen : iter_len it = Some 1) (Hend : at_end it = [])
    (Hcl : content_length t = None)
    (Hne : nonempty chunk = true)
    (Hc : complete t = true) (Hw : wrote_header t = false)
    (Hv : supported_version t) (Hb : has_body t = true)
    (Hh : named "Content-Length"
            (kept_headers true (response_headers t)) = [])
    (Hch : chunked_response t = false)
    (Hn : content_bytes_written t = 0)
    (Hs : socket_budget t = None) :
  let r := iterate it true [([], chunk)] t in
  let p := single_chunk_task chunk t in
  r.2 = Ok tt /\
  content_length r.1 = Some (Py.len chunk) /\
  content_bytes_written r.1 = Py.len chunk /\
  chunked_response r.1 = false /\
  written r.1 =
    written t ++
    [Bytes (serialise (build_response_header p).1); Bytes chunk].
Proof.
  cbv zeta.
  assert (E : iterate it true [([], chunk)] t =
              write chunk (single_chunk_task chunk t)).
  { cbn [iterate run_calls]. rewrite Hend. cbn [run_calls].
    unfold bind, ret, when, get, modify. rewrite Hcl, Hlen, Hne.
    rewrite bool_decide_eq_true_2 by reflexivity.
    destruct (write chunk _) as [t1 [[]|e]]; reflexivity. }
  rewrite E. clear E.
  set (p := single_chunk_task chunk t) in *.
  assert (Pv : supported_version p) by exact Hv.
  assert (Pl : truthy (length_header p) = true).
  { unfold p. rewrite single_chunk_length_header by assumption.
    apply str_of_Z_nonempty. }
  unfold write, bind, get.
  change (complete p) with (complete t). rewrite Hc. cbn [negb].
  assert (Hh' : wrote_header p = false ->
                supported_version p /\ socket_budget p <> Some O).
  { intros _. split; [exact Pv|].
    change (socket_budget p) with (socket_budget t). now rewrite Hs. }
  destruct (flush_header_ok p Hh') as (K1 & K2 & K3 & K4 & K5).
  destruct (flush_header_frame p) as (F1 & F2 & F3 & _).
  change (wrote_header p) with (wrote_header t) in K3, K4.
  rewrite Hw in K3, K4.
  rewrite (build_response_header_sized p Pv Pl) in K4.
  change (chunked_response p) with (chunked_response t) in K4.
  rewrite Hch in K4. specialize (K5 Hs).
  destruct (flush_header p) as [t1 r1]. cbn [fst snd] in *. subst r1.
  change (content_length p) with (Some (Py.len chunk)) in F1.
  change (content_bytes_written p) with (content_bytes_written t) in F2.
  rewrite Hn in F2.
  assert (Hb1 : has_body t1 = true)
    by (rewrite (has_body_status t1 p); assumption).
  assert (Hn1 : content_bytes_written t1 <= Py.len chunk)
    by (rewrite F2; apply len_nonneg).
  destruct (write_body_truncates chunk t1 _ F1 Hb1 Hn1 K5 Hne K4)
    as (T1 & T2 & T3 & _).
  destruct (write_body_frame chunk t1) as (G1 & _ & G3 & _).
  assert (Hall : Py.slice_to (Py.len chunk - content_bytes_written t1)
                   chunk = chunk).
  { apply String.eqb_eq. rewrite slice_to_whole by (rewrite F2; lia).
    apply Z.leb_le. rewrite F2. lia. }
  rewrite Hall in T2, T3. rewrite Hne in T3.
  destruct (write_body chunk t1) as [t2 r2]. cbn [fst snd] in *. subst r2.
  split; [reflexivity|]. split; [now rewrite G1|].
  split; [rewrite T2, F2; lia|]. split; [now rewrite G3|].
  rewrite T3, K3, <- app_assoc. reflexivity.
Qed.

Lemma single_chunk_sets_length_witness :
  let t := set_complete true (sample_task "1.1" "GET" ∅ one_chunk_app) in
  let r := iterate (app_iter one_chunk_app) true [([], "hello")] t in
  content_length r.1 = Some 5 /\ chunked_response r.1 = false.
Proof.
  intros t r.
  destruct (single_chunk_sets_length (app_iter one_chunk_app) "hello" t
              eq_refl eq_refl eq_refl eq_refl eq_refl eq_refl
              (or_intror eq_refl) eq_refl eq_refl eq_refl eq_refl eq_refl)
    as (_ & H2 & _ & H4 & _).
  split; [exact H2 | exact H4].
Defined.

End ExecuteMoreFacts.
